(** * The weather / air-quality medallion pipeline

    A shallow embedding of the four pipeline stages

      - [dags/layers/landing_zone.py]  (module [LandingZone]),
      - [dags/layers/bronze_layer.py]  (module [BronzeLayer]),
      - [layers/silver_layer.py]       (module [SilverLayer]),
      - [dags/layers/golden_layer.py]  (module [GoldenLayer]),

    together with the parts of Python, [pathlib], [requests] and [polars]
    the stages rely on.  Stage functions are computations in a state and
    exception monad over a [world]: the files and directories on disk, the
    log, the upstream HTTP servers and the supply of random identifiers.

    Numbers are exact rationals ([Q]); a table is a list of named columns,
    each a list of nullable cells, as in polars. *)

From Stdlib Require Import Ascii String QArith Qround Sorted Permutation.
From stdpp Require Import gmap strings list.

Open Scope Z_scope.
Open Scope string_scope.
Open Scope list_scope.

(** ** Exceptions and results *)

Inductive exn :=
| TypeError | AttributeError | KeyError | ValueError | ZeroDivisionError
| UnicodeDecodeError | JSONDecodeError | FileNotFoundError
| HTTPError (msg : string)
| ShapeError | DuplicateError | ColumnNotFoundError | InvalidOperationError
| SchemaError.

Inductive result (A : Type) :=
| Ok (a : A)
| Raise (e : exn).
Arguments Ok {A} a.
Arguments Raise {A} e.

#[export] Instance result_ret : MRet result := fun A a => Ok a.
#[export] Instance result_bind : MBind result := fun A B f r =>
  match r with
  | Ok a => f a
  | Raise e => Raise e
  end.

Definition is_ok {A} (r : result A) : bool :=
  match r with Ok _ => true | Raise _ => false end.

(** [mapR f l] runs [f] over [l] from left to right and stops at the first
    exception. *)
Fixpoint mapR {A B} (f : A -> result B) (l : list A) : result (list B) :=
  match l with
  | [] => Ok []
  | a :: l' =>
      match f a with
      | Raise e => Raise e
      | Ok b =>
          match mapR f l' with
          | Raise e => Raise e
          | Ok bs => Ok (b :: bs)
          end
      end
  end.

(** ** Python values that reach the stages as [execution_time] *)

Record datetime := mk_datetime {
  year : Z; month : Z; day : Z;
  hour : Z; minute : Z; second : Z; microsecond : Z
}.

Definition digit (n : Z) : ascii := ascii_of_nat (48 + Z.to_nat (n mod 10)).

(** [zfill w n]: the last [w] decimal digits of [n], zero padded
    (the [%0wd] of [isoformat]). *)
Fixpoint zfill (w : nat) (n : Z) : string :=
  match w with
  | O => ""
  | S w' => zfill w' (n / 10) ++ String (digit n) ""
  end.

(** [datetime.isoformat()] of a naive datetime:
    [YYYY-MM-DDTHH:MM:SS], followed by [.ffffff] when the microsecond
    field is not zero. *)
Definition isoformat (d : datetime) : string :=
  zfill 4 (year d) ++ "-" ++ zfill 2 (month d) ++ "-" ++ zfill 2 (day d)
  ++ "T" ++ zfill 2 (hour d) ++ ":" ++ zfill 2 (minute d) ++ ":"
  ++ zfill 2 (second d)
  ++ (if Z.eqb (microsecond d) 0 then "" else "." ++ zfill 6 (microsecond d)).

Inductive pyobj :=
| PyStr (s : string)
| PyDatetime (d : datetime).

(** [x.isoformat()]: only a datetime has the method. *)
Definition call_isoformat (x : pyobj) : result string :=
  match x with
  | PyDatetime d => Ok (isoformat d)
  | PyStr _ => Raise AttributeError
  end.

(** ** Paths

    A path is its list of components; every segment joined below is a
    single component (a run identifier, a prefix, a file name). *)

Abbreviation path := (list string) (only parsing).

(** [p / x] of [pathlib]: a string is appended as a segment, any other
    object is refused with a [TypeError]. *)
Definition path_div (p : path) (x : pyobj) : result path :=
  match x with
  | PyStr s => Ok (p ++ [s])
  | PyDatetime _ => Raise TypeError
  end.

Definition path_div_str (p : path) (s : string) : path := p ++ [s].

Definition parent (p : path) : path := removelast p.

Definition name (p : path) : string := List.last p "".

(** All the ancestors of [p], [p] included ([mkdir(parents=True)]). *)
Fixpoint ancestors (p : path) : list path :=
  match p with
  | [] => [[]]
  | s :: p' => [] :: map (cons s) (ancestors p')
  end.

(** ** Text

    A byte string is a [string]; a decoded text is represented by its
    UTF-8 encoding, so that [decode] checks well-formedness and a text
    written to a file gives back the same bytes. *)

Definition byte_in (lo hi : N) (c : ascii) : bool :=
  ((lo <=? N_of_ascii c) && (N_of_ascii c <=? hi))%N.

Definition is_cont : ascii -> bool := byte_in 128 191.

Definition lead3_ok (b c1 : ascii) : bool :=
  byte_in 224 224 b && byte_in 160 191 c1
  || byte_in 225 236 b && is_cont c1
  || byte_in 237 237 b && byte_in 128 159 c1
  || byte_in 238 239 b && is_cont c1.

Definition lead4_ok (b c1 : ascii) : bool :=
  byte_in 240 240 b && byte_in 144 191 c1
  || byte_in 241 243 b && is_cont c1
  || byte_in 244 244 b && byte_in 128 143 c1.

Fixpoint utf8_valid (s : string) : bool :=
  match s with
  | EmptyString => true
  | String b s1 =>
      if byte_in 0 127 b then utf8_valid s1
      else
        match s1 with
        | EmptyString => false
        | String c1 s2 =>
            if byte_in 194 223 b then is_cont c1 && utf8_valid s2
            else
              match s2 with
              | EmptyString => false
              | String c2 s3 =>
                  if lead3_ok b c1 then is_cont c2 && utf8_valid s3
                  else
                    match s3 with
                    | EmptyString => false
                    | String c3 s4 =>
                        lead4_ok b c1 && is_cont c2 && is_cont c3
                        && utf8_valid s4
                    end
              end
        end
  end.

(** [bytes.decode("utf-8")] *)
Definition decode_utf8 (content : string) : result string :=
  if utf8_valid content then Ok content else Raise UnicodeDecodeError.

(** ** Tables

    A cell is null ([None]) or a value; a column ([series]) is a list of
    cells; a [frame] is the list of its named columns, in order. *)

Inductive value :=
| VNum (q : Q)
| VStr (s : string)
| VBool (b : bool)
| VTime (t : Z).          (* microseconds since the epoch *)

Abbreviation cell := (option value) (only parsing).
Abbreviation series := (list (option value)) (only parsing).
Abbreviation frame := (list (string * list (option value))) (only parsing).

Inductive dtype := Float64 | String_ | Boolean | Datetime.

Definition dtype_of (v : value) : dtype :=
  match v with
  | VNum _ => Float64
  | VStr _ => String_
  | VBool _ => Boolean
  | VTime _ => Datetime
  end.

Definition dtype_eqb (a b : dtype) : bool :=
  match a, b with
  | Float64, Float64 | String_, String_ | Boolean, Boolean
  | Datetime, Datetime => true
  | _, _ => false
  end.

(** The types of the non-null cells of a column. *)
Definition dtypes (s : series) : list dtype :=
  omap (fun c : cell => dtype_of <$> c) s.

(** A column built from a Python list has one type: every non-null cell
    agrees with the first one. *)
Definition homogeneous (s : series) : bool :=
  match dtypes s with
  | [] => true
  | t :: ts => forallb (dtype_eqb t) ts
  end.

Definition columns (df : frame) : list string := map fst df.

Definition height (df : frame) : nat :=
  match df with
  | [] => O
  | (_, s) :: _ => length s
  end.

Definition str_in (x : string) (l : list string) : bool :=
  existsb (String.eqb x) l.

Fixpoint str_nodup (l : list string) : bool :=
  match l with
  | [] => true
  | x :: l' => negb (str_in x l') && str_nodup l'
  end.

(** [df[name]] *)
Fixpoint get_column (df : frame) (col : string) : result (list (option value)) :=
  match df with
  | [] => Raise ColumnNotFoundError
  | (n, s) :: df' => if String.eqb n col then Ok s else get_column df' col
  end.

(** Replace the column called [col], where it stands, or add it last. *)
Fixpoint set_column (df : frame) (col : string) (s : series) : frame :=
  match df with
  | [] => [(col, s)]
  | (n, s0) :: df' =>
      if String.eqb n col then (n, s) :: df'
      else (n, s0) :: set_column df' col s
  end.

(** [df.with_columns(pl.lit(v).alias(col))]: the literal is broadcast to
    the height of the frame; a frame without columns gets one row. *)
Definition with_columns_lit (df : frame) (col : string) (v : value) : frame :=
  let n := match df with [] => 1%nat | _ => height df end in
  set_column df col (repeat (Some v) n).

(** ** JSON documents, as [json.load] returns them *)

#[warnings="-register-all"]
Inductive json :=
| JNull
| JBool (b : bool)
| JNum (q : Q)
| JStr (s : string)
| JArr (items : list json)
| JObj (fields : list (string * json)).

Fixpoint dict_get (fields : list (string * json)) (key : string) : result json :=
  match fields with
  | [] => Raise KeyError
  | (k, v) :: fields' => if String.eqb k key then Ok v else dict_get fields' key
  end.

(** [doc[key]] with a string key: a dictionary is looked up, a list wants
    an integer index, the scalars are not subscriptable. *)
Definition getitem (doc : json) (key : string) : result json :=
  match doc with
  | JObj fields => dict_get fields key
  | _ => Raise TypeError
  end.

(** One element of a column given as a Python list.  Nested lists and
    dictionaries (polars list and struct columns) do not occur in the
    documents of the pipeline and are reported as an error here. *)
Definition cell_of_json (j : json) : result (option value) :=
  match j with
  | JNull => Ok None
  | JBool b => Ok (Some (VBool b))
  | JNum q => Ok (Some (VNum q))
  | JStr s => Ok (Some (VStr s))
  | JArr _ | JObj _ => Raise TypeError
  end.

Definition series_of_json (j : json) : result (list (option value)) :=
  match j with
  | JArr items =>
      match mapR cell_of_json items with
      | Ok s => if homogeneous s then Ok s else Raise TypeError
      | Raise e => Raise e
      end
  | _ => Raise TypeError
  end.

Definition same_height (df : frame) : bool :=
  forallb (fun c : string * list (option value) =>
             Nat.eqb (length (snd c)) (height df)) df.

(** [pl.from_dict(data)]: one column per key, in the order of the
    dictionary; the columns must be lists of one length. *)
Definition from_dict (data : json) : result (list (string * list (option value))) :=
  match data with
  | JObj fields =>
      match mapR (fun kv : string * json =>
                    match series_of_json (snd kv) with
                    | Ok s => Ok (fst kv, s)
                    | Raise e => Raise e
                    end) fields with
      | Raise e => Raise e
      | Ok df =>
          if negb (str_nodup (columns df)) then Raise DuplicateError
          else if same_height df then Ok df
          else Raise ShapeError
      end
  | _ => Raise TypeError
  end.

(** ** The world the stages act on *)

Inductive file :=
| TextFile (bytes : string)
| ParquetFile (df : frame)
| CsvFile (df : frame).

(** What [loguru] receives.  A figure formatted into a message is kept as
    its label and the value it was computed from; a Pearson coefficient,
    which is a floating-point square root, is kept as the two columns it
    is the coefficient of.  The line breaks that open some messages are
    left out. *)
Inductive log_entry :=
| LogInfo (msg : string)
| LogTable (df : frame)
| LogFigure (label : string) (v : Q)
| LogHour (label : string) (h : option value)
| LogCorr (label : string) (xs ys : list (option Q)).

Record request := mk_request {
  req_url : string;
  req_latitude : Q;
  req_longitude : Q;
  req_hourly : list string
}.

Record response := mk_response {
  status_code : Z;
  content : string
}.

Record world := mk_world {
  files : gmap (list string) file;
  dirs : gset (list string);
  logs : list log_entry;
  upstream : request -> response;     (* the HTTP servers *)
  uuid_source : nat -> string;        (* the random identifiers to come *)
  uuid_drawn : nat
}.

(** State and exception monad: an exception keeps the world as it was
    when it was raised. *)
Definition M (A : Type) : Type := world -> result A * world.

#[export] Instance M_ret : MRet M := fun A a w => (Ok a, w).
#[export] Instance M_bind : MBind M := fun A B f m w =>
  match m w with
  | (Ok a, w') => f a w'
  | (Raise e, w') => (Raise e, w')
  end.

Definition raise {A} (e : exn) : M A := fun w => (Raise e, w).

Definition lift {A} (r : result A) : M A := fun w => (r, w).

Definition set_files (f : gmap (list string) file) (w : world) : world :=
  mk_world f (dirs w) (logs w) (upstream w) (uuid_source w) (uuid_drawn w).

Definition set_dirs (d : gset (list string)) (w : world) : world :=
  mk_world (files w) d (logs w) (upstream w) (uuid_source w) (uuid_drawn w).

Definition add_log (e : log_entry) (w : world) : world :=
  mk_world (files w) (dirs w) (logs w ++ [e]) (upstream w)
           (uuid_source w) (uuid_drawn w).

(** [logger.info(...)] *)
Definition logger_info (e : log_entry) : M unit := fun w =>
  (Ok tt, add_log e w).

(** [requests.get(url, params=...)] *)
Definition requests_get (rq : request) : M response := fun w =>
  (Ok (upstream w rq), w).

(** [uuid4()] *)
Definition uuid4 : M string := fun w =>
  (Ok (uuid_source w (uuid_drawn w)),
   mk_world (files w) (dirs w) (logs w) (upstream w)
            (uuid_source w) (S (uuid_drawn w))).

(** [p.mkdir(parents=True, exist_ok=True)] *)
Definition mkdir_parents (p : path) : M unit := fun w =>
  (Ok tt, set_dirs (list_to_set (ancestors p) ∪ dirs w) w).

(** Creating or replacing the file at [p] needs its directory. *)
Definition write_file (p : path) (f : file) : M unit := fun w =>
  if decide (parent p ∈ dirs w)
  then (Ok tt, set_files (<[p := f]> (files w)) w)
  else (Raise FileNotFoundError, w).

(** [p.open("w")]: the file is created, or emptied, when it is opened. *)
Definition open_w (p : path) : M unit := write_file p (TextFile "").

(** [file.write(text)] on a file opened at [p]: the text is encoded
    (UTF-8) and stored. *)
Definition file_write (p : path) (text : string) : M unit :=
  write_file p (TextFile text).

(** [open(p)] followed by reading the whole file as text.  A file that
    holds a table is binary and does not decode. *)
Definition read_text (p : path) : M string := fun w =>
  match files w !! p with
  | None => (Raise FileNotFoundError, w)
  | Some (TextFile bytes) => (decode_utf8 bytes, w)
  | Some (CsvFile _) | Some (ParquetFile _) => (Raise UnicodeDecodeError, w)
  end.

(** [df.write_parquet(p)] and [df.write_csv(p)] *)
Definition write_parquet (p : path) (df : frame) : M unit :=
  write_file p (ParquetFile df).

Definition write_csv (p : path) (df : frame) : M unit :=
  write_file p (CsvFile df).

(** ** [dags/layers/landing_zone.py] *)

Module LandingZone.

Definition _get_data_from_api
    (api_url : string) (indicators : list string)
    (latitude longitude : Q) (city_name : string)
    (write_path : path) : M unit :=
  let query_params := mk_request api_url latitude longitude indicators in
  api_response ← requests_get query_params;
  if Z.eqb (status_code api_response) 200 then
    let target := path_div_str write_path (city_name ++ ".json") in
    _ ← open_w target;
    text ← lift (decode_utf8 (content api_response));
    file_write target text
  else raise (HTTPError "Incorrect status code").

Definition _get_path_to_write
    (base_output_path : path) (execution_time : pyobj) (prefix : string)
    : M (list string) :=
  run_path ← lift (path_div base_output_path execution_time);
  let write_path := path_div_str run_path prefix in
  _ ← mkdir_parents write_path;
  mret write_path.

Definition weather_indicators : list string :=
  ["temperature_2m"; "relative_humidity_2m"; "precipitation";
   "wind_speed_10m"; "wind_direction_10m"].

Definition weather_api_url : string :=
  "https://api.open-meteo.com/v1/forecast".

Definition query_weather_api
    (base_output_path : path) (execution_time : pyobj)
    (latitude longitude : Q) (city_name : string) : M unit :=
  _ ← logger_info (LogInfo ("Getting weather data for " ++ city_name));
  write_path ← _get_path_to_write base_output_path execution_time
                 "weather_data";
  _get_data_from_api weather_api_url weather_indicators
    latitude longitude city_name write_path.

Definition air_quality_indicators : list string :=
  ["pm10"; "pm2_5"; "carbon_monoxide"; "nitrogen_dioxide"; "ozone"].

Definition air_quality_api_url : string :=
  "https://air-quality-api.open-meteo.com/v1/air-quality".

Definition query_air_quality_api
    (base_output_path : path) (execution_time : pyobj)
    (latitude longitude : Q) (city_name : string) : M unit :=
  _ ← logger_info (LogInfo ("Getting air quality data for " ++ city_name));
  write_path ← _get_path_to_write base_output_path execution_time
                 "air_quality_data";
  _get_data_from_api air_quality_api_url air_quality_indicators
    latitude longitude city_name write_path.

End LandingZone.

(** ** [dags/layers/bronze_layer.py] *)

Module BronzeLayer.

Section WithJson.

(** [json.loads]: the parser of the standard library, [None] for a
    text that is not a JSON document. *)
Variable json_loads : string -> option json.

Definition json_load (text : string) : result json :=
  match json_loads text with
  | Some doc => Ok doc
  | None => Raise JSONDecodeError
  end.

Definition _get_input_path
    (base_input_path : path) (execution_time : pyobj)
    (prefix city_name : string) : result (list string) :=
  run_path ← path_div base_input_path execution_time;
  mret (path_div_str (path_div_str run_path prefix)
                     (city_name ++ ".json")).

Definition _get_output_path
    (base_output_path : path) (execution_time : pyobj) (prefix : string)
    : M (list string) :=
  run_path ← lift (path_div base_output_path execution_time);
  let write_path := path_div_str run_path prefix in
  _ ← mkdir_parents write_path;
  mret write_path.

(** The table built from a landing document. *)
Definition content_df (landing_zone_data : json) (city_name : string)
    : result (list (string * list (option value))) :=
  hourly ← getitem landing_zone_data "hourly";
  df ← from_dict hourly;
  mret (with_columns_lit df "city_name" (VStr city_name)).

Definition _transform_json_data_to_parquet
    (base_input_path base_output_path : path) (city_name : string)
    (execution_time : pyobj) (prefix : string) : M unit :=
  input_path ← lift (_get_input_path base_input_path execution_time
                       prefix city_name);
  text ← read_text input_path;
  landing_zone_data ← lift (json_load text);
  df ← lift (content_df landing_zone_data city_name);
  write_path ← _get_output_path base_output_path execution_time prefix;
  write_parquet (path_div_str write_path (city_name ++ ".parquet")) df.

Definition transform_weather_data_to_parquet
    (base_input_path base_output_path : path) (city_name : string)
    (execution_time : pyobj) : M unit :=
  _ ← logger_info
        (LogInfo ("Transforming JSON data to parquet table representation for weather indicators for city "
                  ++ city_name));
  _transform_json_data_to_parquet base_input_path base_output_path
    city_name execution_time "weather_data".

Definition transform_air_quality_data_to_parquet
    (base_input_path base_output_path : path) (city_name : string)
    (execution_time : pyobj) : M unit :=
  _ ← logger_info
        (LogInfo ("Transforming JSON data to parquet table representation for air quality indicators for city "
                  ++ city_name));
  _transform_json_data_to_parquet base_input_path base_output_path
    city_name execution_time "air_quality_data".

End WithJson.

End BronzeLayer.

(** ** Reading, joining and casting tables *)

(** Stable insertion sort, used for directory listings and [sort]. *)
Fixpoint insert_by {A} (le : A -> A -> bool) (x : A) (l : list A) : list A :=
  match l with
  | [] => [x]
  | y :: l' => if le x y then x :: l else y :: insert_by le x l'
  end.

Definition sort_by {A} (le : A -> A -> bool) (l : list A) : list A :=
  foldr (insert_by le) [] l.

(** The files that sit directly in directory [d], by name. *)
Definition listdir (fs : gmap (list string) file) (d : path)
    : list (list string * file) :=
  sort_by (fun a b : list string * file => String.leb (name (fst a)) (name (fst b)))
          (List.filter (fun e : list string * file =>
                     negb (Nat.eqb (length (fst e)) 0)
                     && bool_decide (parent (fst e) = d))
                  (map_to_list fs)).

(** Appending the rows of [b] below those of [a]: same columns, in the
    same order. *)
Fixpoint vstack (a b : frame) : result (list (string * list (option value))) :=
  match a, b with
  | [], [] => Ok []
  | (n, s) :: a', (n', s') :: b' =>
      if String.eqb n n' then
        match vstack a' b' with
        | Ok r => Ok ((n, s ++ s') :: r)
        | Raise e => Raise e
        end
      else Raise SchemaError
  | _, _ => Raise SchemaError
  end.

Fixpoint read_all (l : list (list string * file))
    : result (list (list (string * list (option value)))) :=
  match l with
  | [] => Ok []
  | (_, ParquetFile df) :: l' =>
      match read_all l' with
      | Ok dfs => Ok (df :: dfs)
      | Raise e => Raise e
      end
  | (_, _) :: _ => Raise InvalidOperationError
  end.

Fixpoint vstack_all (first : frame) (rest : list (list (string * list (option value))))
    : result (list (string * list (option value))) :=
  match rest with
  | [] => Ok first
  | df :: rest' =>
      match vstack first df with
      | Ok acc => vstack_all acc rest'
      | Raise e => Raise e
      end
  end.

(** Reading the table at [p]: one columnar file, or a directory, whose
    files are read in the order of their names and stacked. *)
Definition read_parquet_at (fs : gmap (list string) file) (p : path)
    : result (list (string * list (option value))) :=
  match fs !! p with
  | Some (ParquetFile df) => Ok df
  | Some _ => Raise InvalidOperationError
  | None =>
      match read_all (listdir fs p) with
      | Raise e => Raise e
      | Ok [] => Raise FileNotFoundError
      | Ok (df :: dfs) => vstack_all df dfs
      end
  end.

Definition value_eqb (a b : value) : bool :=
  match a, b with
  | VNum x, VNum y => Qeq_bool x y
  | VStr x, VStr y => String.eqb x y
  | VBool x, VBool y => Bool.eqb x y
  | VTime x, VTime y => Z.eqb x y
  | _, _ => false
  end.

(** Two key cells of a join match when both are present and equal: a
    null matches nothing, not even another null. *)
Definition cell_match (a b : option value) : bool :=
  match a, b with
  | Some x, Some y => value_eqb x y
  | _, _ => false
  end.

Fixpoint key_match (ka kb : list (option value)) : bool :=
  match ka, kb with
  | [], [] => true
  | a :: ka', b :: kb' => cell_match a b && key_match ka' kb'
  | _, _ => false
  end.

(** The key of every row: the cells of the key columns at that row. *)
Definition row_keys (h : nat) (key_cols : list (list (option value)))
    : list (list (option value)) :=
  map (fun i => map (fun s : list (option value) => nth i s None) key_cols)
      (seq 0 h).

Definition indexed {A} (l : list A) : list (nat * A) :=
  combine (seq 0 (length l)) l.

(** The pairs (left row, right row) of an inner join. *)
Definition join_pairs (lkeys rkeys : list (list (option value)))
    : list (nat * nat) :=
  flat_map
    (fun ik : nat * list (option value) =>
       map (fun jk : nat * list (option value) => (fst ik, fst jk))
           (List.filter (fun jk : nat * list (option value) =>
                      key_match (snd ik) (snd jk))
                   (indexed rkeys)))
    (indexed lkeys).

Definition gather (idx : list nat) (s : series) : list (option value) :=
  map (fun i => nth i s None) idx.

(** [left.join(right, how="inner", on=on)]: the columns of [left], then
    the columns of [right] that are not keys, renamed with the suffix
    [_right] when [left] has a column of that name.  Polars leaves the
    order of the joined rows open; here they follow the left rows, and
    for one left row the right rows. *)
Definition inner_join (left right : frame) (on : list string)
    : result (list (string * list (option value))) :=
  lk ← mapR (get_column left) on;
  rk ← mapR (get_column right) on;
  let pairs := join_pairs (row_keys (height left) lk)
                          (row_keys (height right) rk) in
  let left_part :=
    map (fun c : string * list (option value) =>
           (fst c, gather (map fst pairs) (snd c))) left in
  let right_part :=
    map (fun c : string * list (option value) =>
           (if str_in (fst c) (columns left) then (fst c ++ "_right")%string else fst c,
            gather (map snd pairs) (snd c)))
        (List.filter (fun c : string * list (option value) =>
                   negb (str_in (fst c) on)) right) in
  let out := left_part ++ right_part in
  if str_nodup (columns out) then Ok out else Raise DuplicateError.

Section WithDatetimeParser.

(** The conversion of a string to a point in time that polars applies
    in a cast: microseconds since the epoch, [None] when the string is
    not a date and time. *)
Variable str_to_datetime : string -> option Z.

(** A strict cast of one cell to [pl.Datetime]. *)
Definition cast_datetime_cell (c : option value) : result (option value) :=
  match c with
  | None => Ok None
  | Some (VTime t) => Ok (Some (VTime t))
  | Some (VStr s) =>
      match str_to_datetime s with
      | Some t => Ok (Some (VTime t))
      | None => Raise InvalidOperationError
      end
  | Some (VNum q) => Ok (Some (VTime (Z.quot (Qnum q) (Zpos (Qden q)))))
  | Some (VBool _) => Raise InvalidOperationError
  end.

(** [df.cast({col: pl.Datetime})] *)
Definition cast_datetime (df : frame) (col : string)
    : result (list (string * list (option value))) :=
  s ← get_column df col;
  s' ← mapR cast_datetime_cell s;
  mret (set_column df col s').

(** A lazy frame is the plan of a query; nothing is read before the
    plan is run. *)
Inductive lazyframe :=
| ScanParquet (p : list string)
| InnerJoin (left right : lazyframe) (on : list string)
| CastDatetime (lf : lazyframe) (col : string).

Fixpoint collect (fs : gmap (list string) file) (lf : lazyframe)
    : result (list (string * list (option value))) :=
  match lf with
  | ScanParquet p => read_parquet_at fs p
  | InnerJoin l r on =>
      match collect fs l with
      | Raise e => Raise e
      | Ok dl =>
          match collect fs r with
          | Raise e => Raise e
          | Ok dr => inner_join dl dr on
          end
      end
  | CastDatetime l col =>
      match collect fs l with
      | Raise e => Raise e
      | Ok d => cast_datetime d col
      end
  end.

(** [lf.sink_parquet(p)]: run the plan, write the result. *)
Definition sink_parquet (lf : lazyframe) (p : path) : M unit :=
  fun w =>
    match collect (files w) lf with
    | Raise e => (Raise e, w)
    | Ok df => write_parquet p df w
    end.

(** [pl.read_parquet(p)] *)
Definition read_parquet (p : path) : M (list (string * list (option value))) :=
  fun w => (read_parquet_at (files w) p, w).

End WithDatetimeParser.

(** [functools.reduce(f, l)] without an initial value. *)
Definition reduce {A} (f : A -> A -> A) (l : list A) : result A :=
  match l with
  | [] => Raise TypeError
  | x :: l' => Ok (fold_left f l' x)
  end.

(** ** [layers/silver_layer.py] *)

Module SilverLayer.

Definition _get_input_path
    (base_input_path : path) (execution_time : pyobj) (prefix : string)
    : result (list string) :=
  run ← call_isoformat execution_time;
  mret (path_div_str (path_div_str base_input_path run) prefix).

Definition _get_output_path
    (base_output_path : path) (execution_time : pyobj) : M (list string) :=
  run ← lift (call_isoformat execution_time);
  let write_path := path_div_str base_output_path run in
  _ ← mkdir_parents write_path;
  mret write_path.

Definition join_on : list string := ["time"; "city_name"].

(** The list built by the loop over the prefixes. *)
Definition dfs_list
    (base_input_path : path) (execution_time : pyobj)
    (prefixes : list string) : result (list lazyframe) :=
  mapR (fun prefix =>
          input_path ← _get_input_path base_input_path execution_time prefix;
          mret (ScanParquet input_path))
       prefixes.

Definition joint_df (dfs : list lazyframe) : result lazyframe :=
  reduce (fun left_df right_df => InnerJoin left_df right_df join_on) dfs.

Section WithDatetimeParser.

Variable str_to_datetime : string -> option Z.

Definition merge_and_clean_dataframes
    (base_input_path base_output_path : path)
    (prefixes : list string) (execution_time : pyobj) : M unit :=
  _ ← logger_info (LogInfo "Merge all data into one table representation");
  dfs ← lift (dfs_list base_input_path execution_time prefixes);
  joint ← lift (joint_df dfs);
  let adjusted_types_df := CastDatetime joint "time" in
  out_dir ← _get_output_path base_output_path execution_time;
  uid ← uuid4;
  sink_parquet str_to_datetime adjusted_types_df
               (path_div_str out_dir (uid ++ ".parquet")).

End WithDatetimeParser.

End SilverLayer.

(** ** Expressions, grouping and sorting *)

Fixpoint str_repeat (s : string) (n : nat) : string :=
  match n with
  | O => ""
  | S n' => (s ++ str_repeat s n')%string
  end.

(** A cell read as a number; a cell of another type is refused. *)
Definition num_cell (c : option value) : result (option Q) :=
  match c with
  | None => Ok None
  | Some (VNum q) => Ok (Some q)
  | Some _ => Raise InvalidOperationError
  end.

Definition numeric (df : frame) (col : string) : result (list (option Q)) :=
  s ← get_column df col;
  mapR num_cell s.

Definition qsum (l : list Q) : Q := foldr Qplus (0#1) l.

(** [mean()] skips the nulls and is null when nothing is left. *)
Definition mean (l : list (option Q)) : option Q :=
  match omap id l with
  | [] => None
  | qs => Some (Qred (qsum qs / inject_Z (Z.of_nat (length qs))))
  end.

Definition num_to_cell (m : option Q) : option value :=
  match m with
  | Some q => Some (VNum q)
  | None => None
  end.

(** Equality of group keys: unlike in a join, the nulls form a group. *)
Definition cell_eqb (a b : option value) : bool :=
  match a, b with
  | None, None => true
  | Some x, Some y => value_eqb x y
  | _, _ => false
  end.

(** The distinct keys, in the order of their first occurrence. *)
Fixpoint distinct (l : list (option value)) : list (option value) :=
  match l with
  | [] => []
  | k :: l' => k :: List.filter (fun k' => negb (cell_eqb k k')) (distinct l')
  end.

(** The cells of [xs] on the rows whose key is [k]. *)
Definition select_group {A} (ks : list (option value)) (k : option value)
    (xs : list A) : list A :=
  map snd (List.filter (fun p : option value * A => cell_eqb k (fst p))
                  (combine ks xs)).

Definition group_len (ks : list (option value)) (k : option value) : nat :=
  length (List.filter (cell_eqb k) ks).

(** [df.group_by(key).agg([pl.col(src).mean().alias(out) ..., pl.len().alias("count")])]:
    the key column, one mean per pair [(src, out)], and the count.  Polars
    leaves the order of the groups open; here it is the order of their
    first rows (every use below sorts the result). *)
Definition group_by_agg (df : frame) (key : string)
    (means : list (string * string))
    : result (list (string * list (option value))) :=
  ks ← get_column df key;
  let groups := distinct ks in
  cols ← mapR (fun m : string * string =>
                 xs ← numeric df (fst m);
                 mret (snd m,
                       map (fun k => num_to_cell (mean (select_group ks k xs)))
                           groups))
              means;
  mret ((key, groups) :: cols
        ++ [("count",
             map (fun k => Some (VNum (inject_Z (Z.of_nat (group_len ks k)))))
                 groups)]).

Definition value_leb (a b : value) : bool :=
  match a, b with
  | VNum x, VNum y => Qle_bool x y
  | VStr x, VStr y => String.leb x y
  | VBool x, VBool y => implb x y
  | VTime x, VTime y => Z.leb x y
  | _, _ => false
  end.

(** Ascending order with the nulls first. *)
Definition cell_leb (a b : option value) : bool :=
  match a, b with
  | None, _ => true
  | Some _, None => false
  | Some x, Some y => value_leb x y
  end.

(** [df.sort(col)]: ascending, rows with equal cells in their former
    order. *)
Definition sort (df : frame) (col : string)
    : result (list (string * list (option value))) :=
  s ← get_column df col;
  let idx :=
    map fst (sort_by (fun a b : nat * option value =>
                        cell_leb (snd a) (snd b))
                     (indexed s)) in
  mret (map (fun c : string * list (option value) =>
               (fst c, gather idx (snd c))) df).

(** [df.filter(mask)] *)
Definition filter_rows (df : frame) (mask : list bool) : frame :=
  map (fun c : string * list (option value) =>
         (fst c, map snd (List.filter fst (combine mask (snd c))))) df.

(** [s.item()]: the single element of a series of length one. *)
Definition item {A} (s : list A) : result A :=
  match s with
  | [x] => Ok x
  | _ => Raise ValueError
  end.

Definition qmax (l : list (option Q)) : option Q :=
  foldr (fun x acc =>
           match x, acc with
           | Some q, Some m => Some (if Qle_bool m q then q else m)
           | Some q, None => Some q
           | None, _ => acc
           end) None l.

Definition qmin (l : list (option Q)) : option Q :=
  foldr (fun x acc =>
           match x, acc with
           | Some q, Some m => Some (if Qle_bool q m then q else m)
           | Some q, None => Some q
           | None, _ => acc
           end) None l.

(** [pl.col(c) == m]: null when either side is null, and [filter] drops
    the rows whose condition is null. *)
Definition eq_mask (xs : list (option Q)) (m : option Q) : list bool :=
  map (fun x => match x, m with
                | Some a, Some b => Qeq_bool a b
                | _, _ => false
                end) xs.

(** A comparison with a literal inside [pl.when]: a null condition
    counts as not met. *)
Definition le_lit (x : option Q) (n : Z) : bool :=
  match x with
  | Some q => Qle_bool q (inject_Z n)
  | None => false
  end.

Definition lt_lit (x : option Q) (n : Z) : bool :=
  match x with
  | Some q => negb (Qle_bool (inject_Z n) q)
  | None => false
  end.

(** A Python float taken out of a table: arithmetic on [None] is a
    [TypeError]. *)
Definition py_float (c : option value) : result Q :=
  match c with
  | Some (VNum q) => Ok q
  | _ => Raise TypeError
  end.

Definition py_div (a b : Q) : result Q :=
  if Qeq_bool b (0#1) then Raise ZeroDivisionError else Ok (a / b)%Q.

(** ** [dags/layers/golden_layer.py]

    The four analyses and the stage that runs them.
    [generate_summary_statistics] is not called by the stage and is left
    out. *)

Module GoldenLayer.

Definition corr_columns (df : frame) (x y : string)
    : result (list (option Q) * list (option Q)) :=
  xs ← numeric df x;
  ys ← numeric df y;
  mret (xs, ys).

(** *** Precipitation *)

Definition has_precipitation (p : option Q) : option value :=
  match p with
  | Some q => Some (VBool (negb (Qle_bool q (0#1))))
  | None => None
  end.

Definition precip_means : list (string * string) :=
  [("pm2_5", "avg_pm2_5"); ("pm10", "avg_pm10"); ("ozone", "avg_ozone");
   ("carbon_monoxide", "avg_carbon_monoxide")].

Definition precip_analysis (df : frame)
    : result (list (string * list (option value))) :=
  ps ← numeric df "precipitation";
  let df_with_flag :=
    set_column df "has_precipitation" (map has_precipitation ps) in
  g ← group_by_agg df_with_flag "has_precipitation" precip_means;
  sort g "has_precipitation".

Definition flag_is (b : bool) (c : option value) : bool :=
  match c with
  | Some (VBool b') => Bool.eqb b b'
  | _ => false
  end.

Definition analyze_precipitation_effect (df : frame)
    : M (list (string * list (option value))) :=
  _ ← logger_info (LogInfo "🌧️ PRECIPITATION IMPACT ANALYSIS");
  _ ← logger_info (LogInfo (str_repeat "=" 40));
  precip ← lift (precip_analysis df);
  _ ← logger_info (LogTable precip);
  flags ← lift (get_column precip "has_precipitation");
  let no_rain := filter_rows precip (map (flag_is false) flags) in
  let with_rain := filter_rows precip (map (flag_is true) flags) in
  _ ← (if Nat.ltb 0 (height no_rain) && Nat.ltb 0 (height with_rain) then
         a ← lift (get_column no_rain "avg_pm2_5" ≫= item);
         b ← lift (get_column with_rain "avg_pm2_5" ≫= item);
         no_rain_pm25 ← lift (py_float a);
         with_rain_pm25 ← lift (py_float b);
         ratio ← lift (py_div (no_rain_pm25 - with_rain_pm25) no_rain_pm25);
         _ ← logger_info (LogFigure "📊 PM2.5 IMPROVEMENT WITH RAIN"
                                    (ratio * (100#1)));
         _ ← logger_info (LogFigure "Without rain" no_rain_pm25);
         logger_info (LogFigure "With rain" with_rain_pm25)
       else mret tt);
  mret precip.

(** *** Wind *)

Definition wind_category (ws : option Q) : option value :=
  if le_lit ws 3 then Some (VStr "Light (0-3 km/h)")
  else if le_lit ws 7 then Some (VStr "Gentle (3-7 km/h)")
  else if le_lit ws 12 then Some (VStr "Moderate (7-12 km/h)")
  else Some (VStr "Strong (>12 km/h)").

Definition wind_means : list (string * string) :=
  [("pm2_5", "avg_pm2_5"); ("pm10", "avg_pm10"); ("ozone", "avg_ozone");
   ("wind_speed_10m", "avg_wind_speed")].

Definition wind_analysis (df : frame)
    : result (list (string * list (option value))) :=
  ws ← numeric df "wind_speed_10m";
  let df_with_wind_cat :=
    set_column df "wind_category" (map wind_category ws) in
  g ← group_by_agg df_with_wind_cat "wind_category" wind_means;
  sort g "avg_wind_speed".

Definition analyze_wind_effect (df : frame)
    : M (list (string * list (option value))) :=
  _ ← logger_info (LogInfo "💨 WIND SPEED IMPACT ANALYSIS");
  _ ← logger_info (LogInfo (str_repeat "=" 35));
  wind ← lift (wind_analysis df);
  _ ← logger_info (LogTable wind);
  wind_pm25_corr ← lift (corr_columns df "wind_speed_10m" "pm2_5");
  wind_pm10_corr ← lift (corr_columns df "wind_speed_10m" "pm10");
  _ ← logger_info (LogInfo "📈 DIRECT WIND CORRELATIONS:");
  _ ← logger_info (LogCorr "Wind Speed ↔ PM2.5"
                           (fst wind_pm25_corr) (snd wind_pm25_corr));
  _ ← logger_info (LogCorr "Wind Speed ↔ PM10"
                           (fst wind_pm10_corr) (snd wind_pm10_corr));
  mret wind.

(** *** Hours of the day *)

(** [dt.hour()] of a cell of a datetime column. *)
Definition hour_cell (c : option value) : result (option value) :=
  match c with
  | None => Ok None
  | Some (VTime t) => Ok (Some (VNum (inject_Z ((t / 3600000000) mod 24))))
  | Some _ => Raise InvalidOperationError
  end.

Definition hourly_means : list (string * string) :=
  [("pm2_5", "avg_pm2_5"); ("temperature_2m", "avg_temperature_2m");
   ("wind_speed_10m", "avg_wind_speed_10m");
   ("relative_humidity_2m", "avg_relative_humidity_2m")].

Definition hourly_stats (df : frame)
    : result (list (string * list (option value))) :=
  ts ← get_column df "time";
  hours ← mapR hour_cell ts;
  let df_with_hour := set_column df "hour" hours in
  g ← group_by_agg df_with_hour "hour" hourly_means;
  sort g "hour".

(** [stats.filter(pl.col("avg_pm2_5") == extreme)["hour"].item()] *)
Definition extreme_hour (stats : frame)
    (extreme : list (option Q) -> option Q) : result (option value) :=
  avgs ← numeric stats "avg_pm2_5";
  let rows := filter_rows stats (eq_mask avgs (extreme avgs)) in
  get_column rows "hour" ≫= item.

Definition analyze_hourly_patterns (df : frame)
    : M (list (string * list (option value))) :=
  _ ← logger_info (LogInfo "⏰ HOURLY PATTERNS ANALYSIS");
  _ ← logger_info (LogInfo (str_repeat "=" 30));
  stats ← lift (hourly_stats df);
  _ ← logger_info (LogTable stats);
  max_pm25_hour ← lift (extreme_hour stats qmax);
  min_pm25_hour ← lift (extreme_hour stats qmin);
  _ ← logger_info (LogInfo "🎯 KEY FINDINGS:");
  _ ← logger_info (LogHour "Peak PM2.5 hour" max_pm25_hour);
  _ ← logger_info (LogHour "Lowest PM2.5 hour" min_pm25_hour);
  mret stats.

(** *** Temperature and humidity *)

Definition temp_category (t : option Q) : option value :=
  if lt_lit t 0 then Some (VStr "Below 0°C")
  else if lt_lit t 10 then Some (VStr "0-10°C")
  else if lt_lit t 20 then Some (VStr "10-20°C")
  else if lt_lit t 30 then Some (VStr "20-30°C")
  else Some (VStr "Above 30°C").

Definition temp_means : list (string * string) :=
  [("pm2_5", "avg_pm2_5"); ("ozone", "avg_ozone");
   ("temperature_2m", "avg_temperature")].

Definition temp_analysis (df : frame)
    : result (list (string * list (option value))) :=
  ts ← numeric df "temperature_2m";
  let df_with_temp_cat :=
    set_column df "temp_category" (map temp_category ts) in
  g ← group_by_agg df_with_temp_cat "temp_category" temp_means;
  sort g "avg_temperature".

Definition analyze_temperature_humidity_relationship (df : frame)
    : M (list (string * list (option value))) :=
  _ ← logger_info (LogInfo "🌡️ TEMPERATURE & HUMIDITY ANALYSIS");
  _ ← logger_info (LogInfo (str_repeat "=" 40));
  temp ← lift (temp_analysis df);
  _ ← logger_info (LogInfo "📊 Air Quality by Temperature Range:");
  _ ← logger_info (LogTable temp);
  temp_pm25_corr ← lift (corr_columns df "temperature_2m" "pm2_5");
  temp_ozone_corr ← lift (corr_columns df "temperature_2m" "ozone");
  humidity_pm25_corr ← lift (corr_columns df "relative_humidity_2m" "pm2_5");
  humidity_ozone_corr ← lift (corr_columns df "relative_humidity_2m" "ozone");
  _ ← logger_info (LogInfo "📈 TEMPERATURE & HUMIDITY CORRELATIONS:");
  _ ← logger_info (LogCorr "Temperature ↔ PM2.5"
                           (fst temp_pm25_corr) (snd temp_pm25_corr));
  _ ← logger_info (LogCorr "Temperature ↔ Ozone"
                           (fst temp_ozone_corr) (snd temp_ozone_corr));
  _ ← logger_info (LogCorr "Humidity ↔ PM2.5"
                           (fst humidity_pm25_corr) (snd humidity_pm25_corr));
  _ ← logger_info (LogCorr "Humidity ↔ Ozone"
                           (fst humidity_ozone_corr) (snd humidity_ozone_corr));
  mret temp.

(** *** The stage *)

Definition _get_output_path
    (base_output_path : path) (execution_time : pyobj) : M (list string) :=
  write_path ← lift (path_div base_output_path execution_time);
  _ ← mkdir_parents write_path;
  mret write_path.

Definition calculate_analytics
    (base_input_path base_output_path : path) (execution_time : pyobj)
    : M unit :=
  run_path ← lift (path_div base_input_path execution_time);
  data_df ← read_parquet run_path;
  precipitation_df ← analyze_precipitation_effect data_df;
  wind_df ← analyze_wind_effect data_df;
  hourly_patterns ← analyze_hourly_patterns data_df;
  humidity_df ← analyze_temperature_humidity_relationship data_df;
  output_path ← _get_output_path base_output_path execution_time;
  _ ← write_csv (path_div_str output_path "precipitation.csv") precipitation_df;
  _ ← write_csv (path_div_str output_path "wind.csv") wind_df;
  _ ← write_csv (path_div_str output_path "hourly_patterns.csv") hourly_patterns;
  write_csv (path_div_str output_path "humidity_df.csv") humidity_df.

End GoldenLayer.

(** ** Sample data *)

(** Midnight of the first day of 2024. *)
Definition new_year : datetime := mk_datetime 2024 1 1 0 0 0 0.

(** A body that is not UTF-8: the single byte 255. *)
Definition bad_body : string := String (ascii_of_nat 255) "".

(** A landing directory [lz] that holds an earlier [Kyiv.json], and an
    upstream that answers every request with [status] and [body]. *)
Definition gateway_world (status : Z) (body : string) : world :=
  mk_world {[ ["lz"; "Kyiv.json"] := TextFile "old" ]}
           {[ ["lz"] ]} []
           (fun _ => mk_response status body) (fun _ => "id") 0.

(** ** Hourly objects

    The [hourly] object of a landing document: named arrays of JSON
    scalars. *)

Inductive scalar :=
| SNull
| SBool (b : bool)
| SNum (q : Q)
| SStr (s : string).

Definition json_of_scalar (x : scalar) : json :=
  match x with
  | SNull => JNull
  | SBool b => JBool b
  | SNum q => JNum q
  | SStr s => JStr s
  end.


Definition hourly_object (arrays : list (string * list scalar)) : json :=
  JObj (map (fun a : string * list scalar =>
               (fst a, JArr (map json_of_scalar (snd a)))) arrays).


(** One hour of fine-particulate readings for Kyiv. *)
Definition kyiv_hourly : list (string * list scalar) :=
  [("time", [SStr "2024-01-01T00:00"]); ("pm2_5", [SNum (10#1)])].

Definition kyiv_document : json := JObj [("hourly", hourly_object kyiv_hourly)].

(** ** One branch of the pipeline

    The scheduled graph chains, for a city and an indicator-set, the
    landing fetch and the bronze transform, with the same arguments. *)

Inductive indicator_set := Weather | AirQuality.

Definition prefix_of (k : indicator_set) : string :=
  match k with
  | Weather => "weather_data"
  | AirQuality => "air_quality_data"
  end.

Definition request_of (k : indicator_set) (latitude longitude : Q) : request :=
  match k with
  | Weather =>
      mk_request LandingZone.weather_api_url latitude longitude
                 LandingZone.weather_indicators
  | AirQuality =>
      mk_request LandingZone.air_quality_api_url latitude longitude
                 LandingZone.air_quality_indicators
  end.

Definition fetch (k : indicator_set)
    (landing : list string) (execution_time : pyobj)
    (latitude longitude : Q) (city_name : string) : M unit :=
  match k with
  | Weather =>
      LandingZone.query_weather_api landing execution_time
        latitude longitude city_name
  | AirQuality =>
      LandingZone.query_air_quality_api landing execution_time
        latitude longitude city_name
  end.

Definition transform (json_loads : string -> option json) (k : indicator_set)
    (landing bronze : list string) (city_name : string)
    (execution_time : pyobj) : M unit :=
  match k with
  | Weather =>
      BronzeLayer.transform_weather_data_to_parquet json_loads
        landing bronze city_name execution_time
  | AirQuality =>
      BronzeLayer.transform_air_quality_data_to_parquet json_loads
        landing bronze city_name execution_time
  end.

Definition fetch_then_transform (json_loads : string -> option json)
    (k : indicator_set) (landing bronze : list string)
    (execution_time : pyobj) (latitude longitude : Q) (city_name : string)
    : M unit :=
  _ ← fetch k landing execution_time latitude longitude city_name;
  transform json_loads k landing bronze city_name execution_time.

(** A parser that knows one text. *)
Definition kyiv_body : string := "{hourly: ...}".

Definition kyiv_loads (text : string) : option json :=
  if String.eqb text kyiv_body then Some kyiv_document else None.

Definition kyiv_world : world :=
  mk_world ∅ ∅ [] (fun _ => mk_response 200 kyiv_body) (fun _ => "id") 0.

(** ** Keys and the merged table *)

(** The (time, city_name) key of every row of a table. *)
Definition frame_keys (df : list (string * list (option value)))
    : list (list (option value)) :=
  match mapR (get_column df) SilverLayer.join_on with
  | Ok key_cols => row_keys (height df) key_cols
  | Raise _ => []
  end.

(** The key of an observation: a timestamp and a city, both strings. *)
Definition str_key (t c : string) : list (option value) :=
  [Some (VStr t); Some (VStr c)].

Definition has_key (df : list (string * list (option value)))
    (t c : string) : Prop :=
  In (str_key t c) (frame_keys df).

Definition str_keyed (df : list (string * list (option value))) : Prop :=
  forall k, In k (frame_keys df) -> exists t c, k = str_key t c.

(** The names of the columns of a batch that the join adds to its left
    operand. *)
Definition payload (df : list (string * list (option value))) : list string :=
  List.filter (fun n => negb (str_in n SilverLayer.join_on)) (columns df).

(** The batches joined from left to right. *)
Fixpoint join_all (first : list (string * list (option value)))
    (rest : list (list (string * list (option value))))
    : result (list (string * list (option value))) :=
  match rest with
  | [] => Ok first
  | b :: rest' =>
      match inner_join first b SilverLayer.join_on with
      | Ok acc => join_all acc rest'
      | Raise e => Raise e
      end
  end.

(** The table the merge writes for these batches. *)
Definition merged (str_to_datetime : string -> option Z)
    (first : list (string * list (option value)))
    (rest : list (list (string * list (option value))))
    : result (list (string * list (option value))) :=
  joint ← join_all first rest;
  cast_datetime str_to_datetime joint "time".

(** The cells of row [i] in the given columns. *)
Definition row_at (cols : list (list (option value))) (i : nat)
    : list (option value) :=
  map (fun s : list (option value) => nth i s None) cols.

(** The number of keys of [rk] that the key [k] matches in a join. *)
Definition matches (k : list (option value))
    (rk : list (list (option value))) : nat :=
  length (List.filter (key_match k) rk).

(** A batch that can be joined has the two key columns. *)
Definition has_key_columns (df : list (string * list (option value))) : Prop :=
  is_ok (get_column df "time") = true
  /\ is_ok (get_column df "city_name") = true.



(** The plan of the merge for a first prefix and the following ones. *)
Definition merge_plan (base_input_path : list string) (d : datetime)
    (p0 : string) (ps : list string) : lazyframe :=
  CastDatetime
    (fold_left (fun left_df right_df =>
                  InnerJoin left_df right_df SilverLayer.join_on)
               (map (fun p => ScanParquet (base_input_path ++ [isoformat d; p]))
                    ps)
               (ScanParquet (base_input_path ++ [isoformat d; p0])))
    "time".

(** ** Sample batches *)

(** A conversion that knows the first two hours of 2024. *)
Definition sample_clock (s : string) : option Z :=
  if String.eqb s "2024-01-01T00:00" then Some 1704067200000000
  else if String.eqb s "2024-01-01T01:00" then Some 1704070800000000
  else None.

Definition h00 : option value := Some (VStr "2024-01-01T00:00").
Definition h01 : option value := Some (VStr "2024-01-01T01:00").
Definition kyiv : option value := Some (VStr "Kyiv").
Definition num (n : Z) : option value := Some (VNum (inject_Z n)).

Definition weather_two_hours : list (string * list (option value)) :=
  [("time", [h00; h01]); ("precipitation", [num 0; num 1]);
   ("city_name", [kyiv; kyiv])].

Definition air_one_hour : list (string * list (option value)) :=
  [("time", [h00]); ("pm2_5", [num 10]); ("city_name", [kyiv])].

Definition weather_repeated : list (string * list (option value)) :=
  [("time", [h00; h00]); ("precipitation", [num 0; num 1]);
   ("city_name", [kyiv; kyiv])].

Definition air_repeated : list (string * list (option value)) :=
  [("time", [h00; h00]); ("pm2_5", [num 10; num 11]);
   ("city_name", [kyiv; kyiv])].

(** A run of 2024-01-01 whose two bronze partitions hold one file each. *)
Definition silver_world : world :=
  mk_world
    (<[ ["bz"; "2024-01-01T00:00:00"; "weather_data"; "Kyiv.parquet"]
          := ParquetFile weather_two_hours ]>
       (<[ ["bz"; "2024-01-01T00:00:00"; "air_quality_data"; "Kyiv.parquet"]
             := ParquetFile air_one_hour ]> ∅))
    ∅ [] (fun _ => mk_response 200 "") (fun _ => "0f8fad5b") 0.

Definition weather_one_hour : list (string * list (option value)) :=
  [("time", [h00]); ("precipitation", [num 0]); ("city_name", [kyiv])].

(** ** Aggregated tables *)

(** The table of a grouping by [key]: the categories [cats], for every
    named numeric column its mean per category, and the number of rows per
    category; [ks] holds the category of every row of the input. *)
Definition agg_table (key : string) (ks : list (option value))
    (named : list (string * list (option Q))) (cats : list (option value))
    : list (string * list (option value)) :=
  (key, cats)
  :: map (fun m : string * list (option Q) =>
            (fst m,
             map (fun k => num_to_cell (mean (select_group ks k (snd m)))) cats))
         named
  ++ [("count",
       map (fun k => Some (VNum (inject_Z (Z.of_nat (group_len ks k))))) cats)].

(** The order in which [sort] takes the rows of a column. *)
Definition sort_index (s : list (option value)) : list nat :=
  map fst (sort_by (fun a b : nat * option value => cell_leb (snd a) (snd b))
                   (indexed s)).

(** A mean: a number or a null. *)
Definition is_mean (c : option value) : Prop :=
  match c with
  | None | Some (VNum _) => True
  | Some _ => False
  end.

(** ** Wind bands *)




(** Four hours with wind speeds 2, 5, 9 and 15. *)
Definition four_winds : list (string * list (option value)) :=
  [("time", [Some (VTime 1704067200000000); Some (VTime 1704070800000000);
             Some (VTime 1704074400000000); Some (VTime 1704078000000000)]);
   ("wind_speed_10m", [num 2; num 5; num 9; num 15]);
   ("pm2_5", [num 10; num 8; num 6; num 4]);
   ("pm10", [num 20; num 16; num 12; num 8]);
   ("ozone", [num 50; num 52; num 54; num 56]);
   ("city_name", [kyiv; kyiv; kyiv; kyiv])].

Definition quiet_world : world :=
  mk_world ∅ ∅ [] (fun _ => mk_response 200 "") (fun _ => "id") 0.

(** The table a run returned, when it returned one. *)
Definition table_of (r : result (list (string * list (option value))) * world)
    : list (string * list (option value)) :=
  match fst r with
  | Ok t => t
  | Raise _ => []
  end.

(** ** Golden runs *)

Definition add_logs (es : list log_entry) (w : world) : world :=
  fold_left (fun w0 e => add_log e w0) es w.

(** Two hours, midnight and one o'clock, with the same pm2_5 reading. *)
Definition tied_hours : list (string * list (option value)) :=
  [("time", [Some (VTime 1704067200000000); Some (VTime 1704070800000000)]);
   ("temperature_2m", [num 1; num 2]);
   ("relative_humidity_2m", [num 80; num 82]);
   ("precipitation", [num 0; num 1]);
   ("wind_speed_10m", [num 2; num 5]);
   ("pm10", [num 20; num 16]);
   ("pm2_5", [num 10; num 10]);
   ("carbon_monoxide", [num 200; num 210]);
   ("ozone", [num 50; num 52]);
   ("city_name", [kyiv; kyiv])].

(** The same two hours with distinct pm2_5 readings. *)
Definition two_hours : list (string * list (option value)) :=
  [("time", [Some (VTime 1704067200000000); Some (VTime 1704070800000000)]);
   ("temperature_2m", [num 1; num 2]);
   ("relative_humidity_2m", [num 80; num 82]);
   ("precipitation", [num 0; num 1]);
   ("wind_speed_10m", [num 2; num 5]);
   ("pm10", [num 20; num 16]);
   ("pm2_5", [num 10; num 8]);
   ("carbon_monoxide", [num 200; num 210]);
   ("ozone", [num 50; num 52]);
   ("city_name", [kyiv; kyiv])].

(** A run whose silver directory holds one merged file. *)
Definition golden_world (merged_file : list (string * list (option value)))
    : world :=
  mk_world
    {[ ["sv"; "2024-01-01"; "0f8fad5b.parquet"] := ParquetFile merged_file ]}
    ∅ [] (fun _ => mk_response 200 "") (fun _ => "id") 0.

Definition precip_columns : list string :=
  ["has_precipitation"; "avg_pm2_5"; "avg_pm10"; "avg_ozone";
   "avg_carbon_monoxide"; "count"].

Definition wind_columns : list string :=
  ["wind_category"; "avg_pm2_5"; "avg_pm10"; "avg_ozone"; "avg_wind_speed";
   "count"].

Definition hourly_columns_out : list string :=
  ["hour"; "avg_pm2_5"; "avg_temperature_2m"; "avg_wind_speed_10m";
   "avg_relative_humidity_2m"; "count"].

Definition temp_columns : list string :=
  ["temp_category"; "avg_pm2_5"; "avg_ozone"; "avg_temperature"; "count"].

(** The condition under which the precipitation analysis computes the
    percentage change: the table has a row without and a row with
    precipitation. *)
Definition both_partitions (precip : list (string * list (option value)))
    (flags : list (option value)) : bool :=
  Nat.ltb 0 (height (filter_rows precip (map (GoldenLayer.flag_is false) flags)))
  && Nat.ltb 0 (height (filter_rows precip (map (GoldenLayer.flag_is true) flags))).

(** ** More sample data *)

(** A parser that knows an empty object and an empty list. *)
Definition toy_loads (text : string) : option json :=
  if String.eqb text "{}" then Some (JObj [])
  else if String.eqb text "[]" then Some (JArr [])
  else None.

(** A landing zone whose weather partition of 2024-01-01 holds [text] for
    Kyiv. *)
Definition landed_world (text : string) : world :=
  mk_world
    {[ ["lz"; "2024-01-01"; "weather_data"; "Kyiv.json"] := TextFile text ]}
    ∅ [] (fun _ => mk_response 200 text) (fun _ => "id") 0.

(** The run of [silver_world] with a source of identifiers that gives a
    first and then another one. *)
Definition two_ids (n : nat) : string :=
  match n with
  | O => "0f8fad5b"
  | S _ => "7c9e6679"
  end.

Definition silver_world_two_ids : world :=
  mk_world (files silver_world) ∅ [] (fun _ => mk_response 200 "") two_ids 0.

(** A computation that touches neither files nor directories. *)
Definition log_only {A} (m : M A) : Prop :=
  forall w, files (snd (m w)) = files w /\ dirs (snd (m w)) = dirs w.

(** The four aggregations of the golden stage. *)
Definition golden_analyses
    : list (list (string * list (option value))
            -> result (list (string * list (option value)))) :=
  [GoldenLayer.precip_analysis; GoldenLayer.wind_analysis;
   GoldenLayer.hourly_stats; GoldenLayer.temp_analysis].

(** A count, as [pl.len()] puts it in a table. *)
Definition count_cell (n : nat) : option value :=
  Some (VNum (inject_Z (Z.of_nat n))).

(** ** Temperature bands *)

Definition temp_bands : list (option value) :=
  [Some (VStr "Below 0°C"); Some (VStr "0-10°C"); Some (VStr "10-20°C");
   Some (VStr "20-30°C"); Some (VStr "Above 30°C")].

Definition temp_named (pm2_5 ozone ts : list (option Q))
    : list (string * list (option Q)) :=
  [("avg_pm2_5", pm2_5); ("avg_ozone", ozone); ("avg_temperature", ts)].

(** An hour cell: null, or an hour of the day. *)
Definition is_hour (h : option value) : Prop :=
  h = None \/ exists z, 0 <= z < 24 /\ h = Some (VNum (inject_Z z)).

(** Row [i] holds the one extreme value of a column: every value of the
    column is within it, and no other row reaches it. *)
Definition sole_extreme (within : Q -> Q -> Prop) (xs : list (option Q))
    (i : nat) : Prop :=
  exists m,
    xs !! i = Some (Some m)
    /\ forall j x, xs !! j = Some (Some x) -> within x m /\ (x == m -> j = i).

(** [precip_analysis.filter(...)["avg_pm2_5"].item()]: the mean pm2_5 of
    the rows with ([rain = true]) or without precipitation. *)
Definition partition_mean (precip : list (string * list (option value)))
    (rain : bool) : result (option value) :=
  flags ← get_column precip "has_precipitation";
  get_column (filter_rows precip (map (GoldenLayer.flag_is rain) flags))
             "avg_pm2_5" ≫= item.

(** * Properties of the pipeline *)

(** ** Run directories and artifact paths *)

Example isoformat_new_year : isoformat new_year = "2024-01-01T00:00:00".
Proof. reflexivity. Qed.

Example isoformat_microsecond :
  isoformat (mk_datetime 2025 11 4 7 25 3 1500) = "2025-11-04T07:25:03.001500".
Proof. reflexivity. Qed.

Lemma path_div_str_app (p : list string) (a b : string) :
  path_div_str (path_div_str p a) b = p ++ [a; b].
Proof. unfold path_div_str. by rewrite <- app_assoc. Qed.



(** ** The merger without prefixes *)

(** C7: with an empty list of prefixes the merge raises (the [reduce] of
    an empty list) before any directory is made or any file is written. *)
Theorem merge_without_prefixes_fails
    (str_to_datetime : string -> option Z)
    (base_input_path base_output_path : list string)
    (execution_time : pyobj) (w : world) :
  fst (SilverLayer.merge_and_clean_dataframes str_to_datetime
         base_input_path base_output_path [] execution_time w)
    = Raise TypeError
  /\ files (snd (SilverLayer.merge_and_clean_dataframes str_to_datetime
                   base_input_path base_output_path [] execution_time w))
    = files w
  /\ dirs (snd (SilverLayer.merge_and_clean_dataframes str_to_datetime
                  base_input_path base_output_path [] execution_time w))
    = dirs w.
Proof. repeat split. Qed.

(** ** Running monadic code *)

Lemma bind_ok {A B} (m : M A) (f : A -> M B) (w w1 : world) (a : A) :
  m w = (Ok a, w1) -> (m ≫= f) w = f a w1.
Proof. intros H. unfold mbind, M_bind. by rewrite H. Qed.

Lemma bind_raise {A B} (m : M A) (f : A -> M B) (w w1 : world) (e : exn) :
  m w = (Raise e, w1) -> (m ≫= f) w = (Raise e, w1).
Proof. intros H. unfold mbind, M_bind. by rewrite H. Qed.

Lemma bind_inv {A B} (m : M A) (f : A -> M B) (w w' : world) (b : B) :
  (m ≫= f) w = (Ok b, w') ->
  exists a w1, m w = (Ok a, w1) /\ f a w1 = (Ok b, w').
Proof.
  unfold mbind, M_bind. destruct (m w) as [[a|e] w1]; intros H.
  - eauto.
  - discriminate.
Qed.

Lemma lift_inv {A} (r : result A) (w w' : world) (a : A) :
  lift r w = (Ok a, w') -> r = Ok a /\ w' = w.
Proof. unfold lift. intros H. by inversion H. Qed.

Lemma parent_path_div_str (p : list string) (s : string) :
  parent (path_div_str p s) = p.
Proof. apply removelast_last. Qed.

Lemma write_file_ok (p : list string) (f : file) (w : world) :
  parent p ∈ dirs w ->
  write_file p f w = (Ok tt, set_files (<[p := f]> (files w)) w).
Proof. intros H. unfold write_file. by rewrite decide_True. Qed.

Lemma write_file_inv (p : list string) (f : file) (w w' : world) (u : unit) :
  write_file p f w = (Ok u, w') ->
  parent p ∈ dirs w /\ w' = set_files (<[p := f]> (files w)) w.
Proof.
  unfold write_file. case_decide; intros Hw; inversion Hw; auto.
Qed.

Lemma set_files_twice (f g : gmap (list string) file) (w : world) :
  set_files f (set_files g w) = set_files f w.
Proof. reflexivity. Qed.

(** ** The landing-zone fetcher *)

Lemma get_data_from_api_by_status
    (api_url : string) (indicators : list string) (latitude longitude : Q)
    (city_name : string) (write_path : list string) (w : world) :
  let api_response :=
    upstream w (mk_request api_url latitude longitude indicators) in
  let target := write_path ++ [(city_name ++ ".json")%string] in
  (status_code api_response <> 200 ->
   LandingZone._get_data_from_api api_url indicators latitude longitude
     city_name write_path w
   = (Raise (HTTPError "Incorrect status code"), w))
  /\ (status_code api_response = 200 ->
      write_path ∈ dirs w ->
      utf8_valid (content api_response) = true ->
      LandingZone._get_data_from_api api_url indicators latitude longitude
        city_name write_path w
      = (Ok tt,
         set_files (<[target := TextFile (content api_response)]> (files w)) w)
      /\ files (snd (LandingZone._get_data_from_api api_url indicators
                       latitude longitude city_name write_path w)) !! target
         = Some (TextFile (content api_response))).
Proof.
  intros api_response target. unfold LandingZone._get_data_from_api.
  rewrite (bind_ok _ _ w w api_response) by reflexivity.
  split.
  - intros Hne. apply Z.eqb_neq in Hne. by rewrite Hne.
  - intros H200 Hdir Hutf. apply Z.eqb_eq in H200. rewrite H200.
    fold target. unfold path_div_str. fold target.
    assert (Hpar : parent target = write_path) by apply removelast_last.
    assert (Hrun :
      (open_w target ≫= fun _ =>
         lift (decode_utf8 (content api_response)) ≫= fun text =>
           file_write target text) w
      = (Ok tt,
         set_files (<[target := TextFile (content api_response)]> (files w)) w)).
    { unfold open_w.
      rewrite (bind_ok _ _ w _ tt (write_file_ok _ _ _ ltac:(by rewrite Hpar))).
      unfold decode_utf8. rewrite Hutf.
      rewrite (bind_ok _ _ _ _ (content api_response) eq_refl).
      unfold file_write. rewrite write_file_ok by (by rewrite Hpar).
      cbn [files set_files]. by rewrite set_files_twice, insert_insert_eq. }
    split.
    + exact Hrun.
    + rewrite Hrun. cbn. apply lookup_insert_eq.
Qed.

(** C6, as the code has it: a status other than 200 raises and leaves
    the world as it was, so that nothing is written at
    [<destination>/<city>.json]; a 200 response whose body is well-formed
    UTF-8 is written as it is at that path of an existing destination,
    whatever was there before. *)
Theorem fetch_by_status_code
    (api_url : string) (indicators : list string) (latitude longitude : Q)
    (city_name : string) (write_path : list string) (w : world) :
  let api_response :=
    upstream w (mk_request api_url latitude longitude indicators) in
  let target := write_path ++ [(city_name ++ ".json")%string] in
  (status_code api_response <> 200 ->
   LandingZone._get_data_from_api api_url indicators latitude longitude
     city_name write_path w
   = (Raise (HTTPError "Incorrect status code"), w))
  /\ (status_code api_response = 200 ->
      write_path ∈ dirs w ->
      utf8_valid (content api_response) = true ->
      LandingZone._get_data_from_api api_url indicators latitude longitude
        city_name write_path w
      = (Ok tt,
         set_files (<[target := TextFile (content api_response)]> (files w)) w)
      /\ files (snd (LandingZone._get_data_from_api api_url indicators
                       latitude longitude city_name write_path w)) !! target
         = Some (TextFile (content api_response))).
Proof.
  apply get_data_from_api_by_status.
Qed.

Lemma fetch_by_status_code_witness :
  LandingZone._get_data_from_api "url" ["pm10"] (50#1) (30#1) "Kyiv" ["lz"]
    (gateway_world 503 "Service Unavailable")
  = (Raise (HTTPError "Incorrect status code"),
     gateway_world 503 "Service Unavailable")
  /\ files (snd (LandingZone._get_data_from_api "url" ["pm10"] (50#1) (30#1)
                   "Kyiv" ["lz"] (gateway_world 200 "{}")))
       !! ["lz"; "Kyiv.json"]
     = Some (TextFile "{}").
Proof.
  split.
  - apply (fetch_by_status_code "url" ["pm10"] (50#1) (30#1) "Kyiv" ["lz"]
             (gateway_world 503 "Service Unavailable")).
    discriminate.
  - apply (fetch_by_status_code "url" ["pm10"] (50#1) (30#1) "Kyiv" ["lz"]
             (gateway_world 200 "{}")).
    + reflexivity.
    + vm_compute. reflexivity.
    + reflexivity.
Defined.

(** C6 as stated fails on a 200 response whose body is not UTF-8: the
    fetch raises after the file was opened for writing, and the path holds
    an empty file instead of the body (or of what it held before). *)
Lemma fetch_undecodable_body :
  fst (LandingZone._get_data_from_api "url" ["pm10"] (50#1) (30#1) "Kyiv"
         ["lz"] (gateway_world 200 bad_body))
  = Raise UnicodeDecodeError
  /\ files (snd (LandingZone._get_data_from_api "url" ["pm10"] (50#1) (30#1)
                   "Kyiv" ["lz"] (gateway_world 200 bad_body)))
       !! ["lz"; "Kyiv.json"]
     = Some (TextFile "").
Proof. split; vm_compute; reflexivity. Qed.

(** ** The bronze table *)

Lemma str_in_In (x : string) (l : list string) :
  str_in x l = true <-> In x l.
Proof.
  unfold str_in. rewrite existsb_exists. split.
  - intros (y & Hy & Heq). apply String.eqb_eq in Heq. by subst.
  - intros H. exists x. split; [done | apply String.eqb_refl].
Qed.

Lemma str_in_false (x : string) (l : list string) :
  str_in x l = false <-> ~ In x l.
Proof.
  rewrite <- str_in_In. destruct (str_in x l); split; congruence.
Qed.

Lemma str_nodup_NoDup (l : list string) :
  str_nodup l = true <-> List.NoDup l.
Proof.
  induction l as [|x l IH]; simpl.
  - split; [constructor | done].
  - rewrite andb_true_iff, negb_true_iff, str_in_false, IH. split.
    + intros [? ?]. by constructor.
    + intros H. by inversion H.
Qed.

Lemma columns_set_column (df : list (string * list (option value)))
    (col : string) (s : list (option value)) :
  columns (set_column df col s)
  = if str_in col (columns df) then columns df else columns df ++ [col].
Proof.
  induction df as [|[n s0] df IH]; [done|].
  cbn [set_column columns map fst str_in existsb].
  destruct (String.eqb_spec n col) as [->|Hne].
  - by rewrite String.eqb_refl.
  - apply not_eq_sym in Hne. apply String.eqb_neq in Hne. rewrite Hne.
    cbn [orb map fst]. fold (columns (set_column df col s)).
    fold (columns df). fold (str_in col (columns df)).
    rewrite IH. by destruct (str_in col (columns df)).
Qed.

Lemma get_set_column_eq (df : list (string * list (option value)))
    (col : string) (s : list (option value)) :
  get_column (set_column df col s) col = Ok s.
Proof.
  induction df as [|[n s0] df IH]; simpl.
  - by rewrite String.eqb_refl.
  - destruct (String.eqb_spec n col) as [->|Hne]; simpl.
    + by rewrite String.eqb_refl.
    + apply String.eqb_neq in Hne. by rewrite Hne.
Qed.

Lemma get_set_column_ne (df : list (string * list (option value)))
    (col k : string) (s : list (option value)) :
  k <> col -> get_column (set_column df col s) k = get_column df k.
Proof.
  intros Hk. induction df as [|[n s0] df IH]; simpl.
  - apply not_eq_sym in Hk. apply String.eqb_neq in Hk. by rewrite Hk.
  - destruct (String.eqb_spec n col) as [->|Hne]; simpl.
    + apply not_eq_sym in Hk. apply String.eqb_neq in Hk. by rewrite Hk.
    + by rewrite IH.
Qed.

Lemma height_set_column (df : list (string * list (option value)))
    (col : string) (s : list (option value)) :
  df <> [] -> length s = height df -> height (set_column df col s) = height df.
Proof.
  destruct df as [|[n s0] df]; [done|]. intros _ Hlen. simpl in *.
  by destruct (String.eqb n col).
Qed.








(** ** Fetching and transforming again *)

Lemma ancestors_self (p : list string) : In p (ancestors p).
Proof.
  induction p as [|s p IH]; simpl; [by left|].
  right. by apply in_map.
Qed.

Lemma mkdir_parents_has (p : list string) (w : world) :
  p ∈ dirs (snd (mkdir_parents p w)).
Proof.
  simpl. apply elem_of_union_l, elem_of_list_to_set, list_elem_of_In,
    ancestors_self.
Qed.

Lemma get_path_to_write_run (base : list string) (s prefix : string)
    (w : world) :
  LandingZone._get_path_to_write base (PyStr s) prefix w
  = (Ok (base ++ [s; prefix]), snd (mkdir_parents (base ++ [s; prefix]) w)).
Proof.
  unfold LandingZone._get_path_to_write. cbn [path_div].
  rewrite (bind_ok _ _ w w (base ++ [s])) by reflexivity.
  change (path_div_str (base ++ [s]) prefix)
    with (path_div_str (path_div_str base s) prefix).
  rewrite path_div_str_app. reflexivity.
Qed.

Lemma get_path_to_write_inv (base : list string) (et : pyobj)
    (prefix : string) (w w' : world) (p : list string) :
  LandingZone._get_path_to_write base et prefix w = (Ok p, w') ->
  exists s, et = PyStr s.
Proof.
  destruct et as [s|d]; [eauto|]. discriminate.
Qed.

Lemma bronze_output_path_run (base : list string) (s prefix : string)
    (w : world) :
  BronzeLayer._get_output_path base (PyStr s) prefix w
  = (Ok (base ++ [s; prefix]), snd (mkdir_parents (base ++ [s; prefix]) w)).
Proof. apply get_path_to_write_run. Qed.

Lemma bronze_input_path_run (base : list string) (s prefix city_name : string) :
  BronzeLayer._get_input_path base (PyStr s) prefix city_name
  = Ok (base ++ [s; prefix; (city_name ++ ".json")%string]).
Proof.
  unfold BronzeLayer._get_input_path, path_div_str. cbn.
  by rewrite <- !app_assoc.
Qed.

Section Branch.

Variable json_loads : string -> option json.
Variables (k : indicator_set) (landing bronze : list string).
Variables (s : string) (latitude longitude : Q) (city_name : string).

Lemma fetch_run (w : world) :
  status_code (upstream w (request_of k latitude longitude)) = 200 ->
  utf8_valid (content (upstream w (request_of k latitude longitude))) = true ->
  exists w',
    fetch k landing (PyStr s) latitude longitude city_name w = (Ok tt, w')
    /\ files w'
       = <[landing ++ [s; prefix_of k; (city_name ++ ".json")%string] :=
             TextFile (content (upstream w (request_of k latitude longitude)))]>
           (files w)
    /\ upstream w' = upstream w.
Proof.
  intros Hst Hutf.
  set (wp := landing ++ [s; prefix_of k]).
  set (w0 := snd (mkdir_parents wp
                    (snd (logger_info
                            (LogInfo (match k with
                                      | Weather => "Getting weather data for "
                                      | AirQuality => "Getting air quality data for "
                                      end ++ city_name)) w)))).
  destruct (get_data_from_api_by_status
              (req_url (request_of k latitude longitude))
              (req_hourly (request_of k latitude longitude))
              latitude longitude city_name wp w0) as [_ Hok].
  assert (Hreq : mk_request (req_url (request_of k latitude longitude))
                   latitude longitude
                   (req_hourly (request_of k latitude longitude))
                 = request_of k latitude longitude) by (by destruct k).
  cbv zeta in Hok. rewrite Hreq in Hok.
  assert (Hup : upstream w0 = upstream w) by reflexivity.
  rewrite Hup in Hok.
  destruct (Hok Hst (mkdir_parents_has wp _) Hutf) as [Hrun _].
  eexists. split; [|split].
  - destruct k; unfold fetch, LandingZone.query_weather_api,
      LandingZone.query_air_quality_api;
      (erewrite bind_ok by reflexivity);
      (erewrite bind_ok by apply get_path_to_write_run);
      exact Hrun.
  - cbn. unfold wp. by rewrite <- app_assoc.
  - reflexivity.
Qed.

Lemma fetch_inv (et : pyobj) (w w1 : world) :
  fetch k landing et latitude longitude city_name w = (Ok tt, w1) ->
  et = PyStr s ->
  status_code (upstream w (request_of k latitude longitude)) = 200
  /\ utf8_valid (content (upstream w (request_of k latitude longitude))) = true
  /\ files w1
     = <[landing ++ [s; prefix_of k; (city_name ++ ".json")%string] :=
           TextFile (content (upstream w (request_of k latitude longitude)))]>
         (files w)
  /\ upstream w1 = upstream w.
Proof.
  intros Hrun ->.
  assert (Hst : status_code (upstream w (request_of k latitude longitude)) = 200).
  { destruct (Z.eq_dec
                (status_code (upstream w (request_of k latitude longitude))) 200)
      as [|Hne]; [done|]. exfalso.
    apply Z.eqb_neq in Hne.
    destruct k; unfold fetch, LandingZone.query_weather_api,
      LandingZone.query_air_quality_api in Hrun;
      (erewrite bind_ok in Hrun by reflexivity);
      (erewrite bind_ok in Hrun by apply get_path_to_write_run);
      unfold LandingZone._get_data_from_api in Hrun;
      (erewrite bind_ok in Hrun by reflexivity);
      cbn [upstream mkdir_parents logger_info add_log snd set_dirs] in Hrun;
      cbn [request_of] in Hne; rewrite Hne in Hrun; discriminate. }
  assert (Hutf : utf8_valid
                   (content (upstream w (request_of k latitude longitude)))
                 = true).
  { destruct (utf8_valid
                (content (upstream w (request_of k latitude longitude))))
      eqn:Hv; [done|]. exfalso.
    apply Z.eqb_eq in Hst.
    destruct k; unfold fetch, LandingZone.query_weather_api,
      LandingZone.query_air_quality_api in Hrun;
      (erewrite bind_ok in Hrun by reflexivity);
      (erewrite bind_ok in Hrun by apply get_path_to_write_run);
      unfold LandingZone._get_data_from_api in Hrun;
      (erewrite bind_ok in Hrun by reflexivity);
      cbn [upstream mkdir_parents logger_info add_log snd set_dirs] in Hrun;
      cbn [request_of] in Hst, Hv; rewrite Hst in Hrun;
      (erewrite bind_ok in Hrun
         by (apply write_file_ok; rewrite parent_path_div_str;
             apply mkdir_parents_has));
      unfold decode_utf8 in Hrun; rewrite Hv in Hrun; discriminate. }
  destruct (fetch_run w Hst Hutf) as (w' & Hrun' & Hfiles & Hup).
  rewrite Hrun in Hrun'. inversion Hrun'; subst w'. auto.
Qed.

Lemma transform_core_run (prefix : string) (w : world)
    (bytes : string) (doc : json) (df : list (string * list (option value))) :
  files w !! (landing ++ [s; prefix; (city_name ++ ".json")%string])
    = Some (TextFile bytes) ->
  utf8_valid bytes = true ->
  json_loads bytes = Some doc ->
  BronzeLayer.content_df doc city_name = Ok df ->
  exists w',
    BronzeLayer._transform_json_data_to_parquet json_loads landing bronze
      city_name (PyStr s) prefix w = (Ok tt, w')
    /\ files w'
       = <[bronze ++ [s; prefix; (city_name ++ ".parquet")%string]
             := ParquetFile df]> (files w)
    /\ upstream w' = upstream w.
Proof.
  intros Hfile Hutf Hjson Hdf.
  unfold BronzeLayer._transform_json_data_to_parquet.
  rewrite bronze_input_path_run.
  erewrite bind_ok by reflexivity.
  erewrite (bind_ok (read_text _)); cycle 1.
  { unfold read_text. rewrite Hfile. unfold decode_utf8. by rewrite Hutf. }
  erewrite bind_ok; cycle 1.
  { unfold lift, BronzeLayer.json_load. by rewrite Hjson. }
  erewrite bind_ok; cycle 1.
  { unfold lift. by rewrite Hdf. }
  erewrite bind_ok by apply bronze_output_path_run.
  unfold write_parquet. rewrite write_file_ok; cycle 1.
  { rewrite parent_path_div_str. apply mkdir_parents_has. }
  eexists. split; [reflexivity|]. split; [|reflexivity].
  cbn. unfold path_div_str. by rewrite <- app_assoc.
Qed.

Lemma transform_core_inv (prefix : string) (w w1 : world) :
  BronzeLayer._transform_json_data_to_parquet json_loads landing bronze
    city_name (PyStr s) prefix w = (Ok tt, w1) ->
  exists bytes doc df,
    files w !! (landing ++ [s; prefix; (city_name ++ ".json")%string])
      = Some (TextFile bytes)
    /\ utf8_valid bytes = true
    /\ json_loads bytes = Some doc
    /\ BronzeLayer.content_df doc city_name = Ok df.
Proof.
  unfold BronzeLayer._transform_json_data_to_parquet.
  rewrite bronze_input_path_run.
  intros Hrun.
  apply bind_inv in Hrun as (p & wa & Hp & Hrun).
  apply lift_inv in Hp as [Hp ->]. inversion Hp; subst p; clear Hp.
  apply bind_inv in Hrun as (text & wb & Hread & Hrun).
  apply bind_inv in Hrun as (doc & wc & Hdoc & Hrun).
  apply lift_inv in Hdoc as [Hdoc ->].
  apply bind_inv in Hrun as (df & wd & Hdf & _).
  apply lift_inv in Hdf as [Hdf ->].
  unfold read_text in Hread.
  destruct (files w !! _) as [[bytes| |]|] eqn:Hfile; try discriminate.
  unfold decode_utf8 in Hread.
  destruct (utf8_valid bytes) eqn:Hutf; [|discriminate].
  inversion Hread; subst text wb.
  unfold BronzeLayer.json_load in Hdoc.
  destruct (json_loads bytes) as [doc'|] eqn:Hjson; [|discriminate].
  inversion Hdoc; subst doc'.
  exists bytes, doc, df. auto.
Qed.

Lemma transform_run (w : world)
    (bytes : string) (doc : json) (df : list (string * list (option value))) :
  files w !! (landing ++ [s; prefix_of k; (city_name ++ ".json")%string]) = Some (TextFile bytes) ->
  utf8_valid bytes = true ->
  json_loads bytes = Some doc ->
  BronzeLayer.content_df doc city_name = Ok df ->
  exists w',
    transform json_loads k landing bronze city_name (PyStr s) w = (Ok tt, w')
    /\ files w' = <[bronze ++ [s; prefix_of k; (city_name ++ ".parquet")%string] := ParquetFile df]> (files w)
    /\ upstream w' = upstream w.
Proof.
  intros Hfile Hutf Hjson Hdf.
  destruct k; unfold transform,
    BronzeLayer.transform_weather_data_to_parquet,
    BronzeLayer.transform_air_quality_data_to_parquet;
    (erewrite bind_ok by reflexivity);
    match goal with
    | |- context [BronzeLayer._transform_json_data_to_parquet _ _ _ _ _ ?p ?w0] =>
        destruct (transform_core_run p w0 bytes doc df Hfile Hutf Hjson Hdf)
          as (w' & Hrun & Hfiles & Hup)
    end;
    exists w'; auto.
Qed.

Lemma transform_inv (w w1 : world) :
  transform json_loads k landing bronze city_name (PyStr s) w = (Ok tt, w1) ->
  exists bytes doc df,
    files w !! (landing ++ [s; prefix_of k; (city_name ++ ".json")%string]) = Some (TextFile bytes)
    /\ utf8_valid bytes = true
    /\ json_loads bytes = Some doc
    /\ BronzeLayer.content_df doc city_name = Ok df
    /\ files w1 = <[bronze ++ [s; prefix_of k; (city_name ++ ".parquet")%string] := ParquetFile df]> (files w)
    /\ upstream w1 = upstream w.
Proof.
  intros Hrun.
  assert (Hcore : exists bytes doc df,
    files w !! (landing ++ [s; prefix_of k; (city_name ++ ".json")%string]) = Some (TextFile bytes)
    /\ utf8_valid bytes = true
    /\ json_loads bytes = Some doc
    /\ BronzeLayer.content_df doc city_name = Ok df).
  { destruct k; unfold transform,
      BronzeLayer.transform_weather_data_to_parquet,
      BronzeLayer.transform_air_quality_data_to_parquet in Hrun;
      (erewrite bind_ok in Hrun by reflexivity);
      apply transform_core_inv in Hrun; exact Hrun. }
  destruct Hcore as (bytes & doc & df & Hfile & Hutf & Hjson & Hdf).
  destruct (transform_run w bytes doc df Hfile Hutf Hjson Hdf)
    as (w' & Hrun' & Hfiles & Hup).
  rewrite Hrun in Hrun'. inversion Hrun'; subst w'.
  exists bytes, doc, df. auto 10.
Qed.

End Branch.

(** C9: when fetching and transforming succeeded for a run, an
    indicator-set and a city, doing both again against the same upstream
    succeeds and leaves every file as it was; the bronze file in particular
    holds the same table. *)
Theorem fetch_then_transform_idempotent
    (json_loads : string -> option json) (k : indicator_set)
    (landing bronze : list string) (execution_time : pyobj)
    (latitude longitude : Q) (city_name : string) (w w1 : world) :
  fetch_then_transform json_loads k landing bronze execution_time
    latitude longitude city_name w = (Ok tt, w1) ->
  exists (s : string) (df : list (string * list (option value))) (w2 : world),
    execution_time = PyStr s
    /\ fetch_then_transform json_loads k landing bronze execution_time
         latitude longitude city_name w1 = (Ok tt, w2)
    /\ files w1
         !! (bronze ++ [s; prefix_of k; (city_name ++ ".parquet")%string])
       = Some (ParquetFile df)
    /\ files w2
         !! (bronze ++ [s; prefix_of k; (city_name ++ ".parquet")%string])
       = Some (ParquetFile df)
    /\ files w2 = files w1.
Proof.
  intros Hrun. unfold fetch_then_transform in Hrun.
  apply bind_inv in Hrun as ([] & wa & Hfetch & Htrans).
  assert (Hs : exists s, execution_time = PyStr s).
  { destruct execution_time as [s|d]; [eauto|].
    destruct k; discriminate. }
  destruct Hs as [s ->].
  destruct (fetch_inv k landing s latitude longitude city_name _ w wa Hfetch
              eq_refl) as (Hst & Hutf & Hfa & Hua).
  destruct (transform_inv json_loads k landing bronze s city_name wa w1 Htrans)
    as (bytes & doc & df & Hfile & Hutf' & Hjson & Hdf & Hf1 & Hu1).
  set (body := content (upstream w (request_of k latitude longitude))) in *.
  assert (Hbytes : bytes = body).
  { rewrite Hfa, lookup_insert_eq in Hfile. by inversion Hfile. }
  subst bytes.
  assert (Hup : upstream w1 = upstream w) by (by rewrite Hu1, Hua).
  destruct (fetch_run k landing s latitude longitude city_name w1)
    as (wb & Hfetch2 & Hfb & Hub).
  { by rewrite Hup. }
  { by rewrite Hup. }
  rewrite Hup in Hfb. fold body in Hfb.
  destruct (transform_run json_loads k landing bronze s city_name wb
              body doc df) as (w2 & Htrans2 & Hf2 & Hu2); try done.
  { by rewrite Hfb, lookup_insert_eq. }
  assert (Hsame : files w2 = files w1).
  { rewrite Hf2, Hfb, Hf1, Hfa. apply map_eq. intros p.
    rewrite !lookup_insert. repeat case_decide; congruence. }
  exists s, df, w2. repeat split.
  - unfold fetch_then_transform. by erewrite bind_ok by exact Hfetch2.
  - by rewrite Hf1, lookup_insert_eq.
  - by rewrite Hf2, lookup_insert_eq.
  - exact Hsame.
Qed.

Lemma fetch_then_transform_idempotent_witness :
  exists (s : string) (df : list (string * list (option value))) (w1 w2 : world),
    fetch_then_transform kyiv_loads AirQuality ["lz"] ["bz"]
      (PyStr "2024-01-01") (50#1) (30#1) "Kyiv" kyiv_world = (Ok tt, w1)
    /\ fetch_then_transform kyiv_loads AirQuality ["lz"] ["bz"]
         (PyStr "2024-01-01") (50#1) (30#1) "Kyiv" w1 = (Ok tt, w2)
    /\ files w1 !! ["bz"; s; "air_quality_data"; "Kyiv.parquet"]
       = Some (ParquetFile df)
    /\ files w2 !! ["bz"; s; "air_quality_data"; "Kyiv.parquet"]
       = Some (ParquetFile df).
Proof.
  destruct (fetch_then_transform_idempotent kyiv_loads AirQuality ["lz"] ["bz"]
              (PyStr "2024-01-01") (50#1) (30#1) "Kyiv" kyiv_world
              (snd (fetch_then_transform kyiv_loads AirQuality ["lz"] ["bz"]
                      (PyStr "2024-01-01") (50#1) (30#1) "Kyiv" kyiv_world)))
    as (s & df & w2 & Hs & Hrun & H1 & H2 & _).
  - vm_compute. reflexivity.
  - exists s, df,
      (snd (fetch_then_transform kyiv_loads AirQuality ["lz"] ["bz"]
              (PyStr "2024-01-01") (50#1) (30#1) "Kyiv" kyiv_world)), w2.
    split; [vm_compute; reflexivity|]. auto.
Defined.

(** ** Inner joins *)

Lemma combine_map_self {A B} (f : A -> B) (l : list A) :
  combine l (map f l) = map (fun a => (a, f a)) l.
Proof. induction l as [|a l IH]; simpl; [done | by rewrite IH]. Qed.

Lemma indexed_map_seq {A} (f : nat -> A) (n : nat) :
  indexed (map f (seq 0 n)) = map (fun i => (i, f i)) (seq 0 n).
Proof.
  unfold indexed. rewrite length_map, length_seq. apply combine_map_self.
Qed.

Lemma filter_combine_snd {A B} (P : B -> bool) (a : list A) (b : list B) :
  length a = length b ->
  map snd (List.filter (fun p : A * B => P (snd p)) (combine a b))
  = List.filter P b.
Proof.
  revert b. induction a as [|x a IH]; intros [|y b] Hlen; try done.
  simpl in *. destruct (P y); simpl; rewrite IH by lia; done.
Qed.

Lemma matches_indexed (k : list (option value))
    (rk : list (list (option value))) :
  length (List.filter (fun jk : nat * list (option value) =>
                         key_match k (snd jk)) (indexed rk))
  = matches k rk.
Proof.
  unfold matches, indexed.
  rewrite <- (filter_combine_snd (key_match k) (seq 0 (length rk)) rk)
    by apply length_seq.
  by rewrite length_map.
Qed.

Lemma map_flat_map {A B C} (f : B -> C) (g : A -> list B) (l : list A) :
  map f (flat_map g l) = flat_map (fun a => map f (g a)) l.
Proof.
  induction l as [|a l IH]; simpl; [done|]. by rewrite map_app, IH.
Qed.

Lemma flat_map_map {A B C} (f : A -> B) (g : B -> list C) (l : list A) :
  flat_map g (map f l) = flat_map (fun a => g (f a)) l.
Proof. induction l as [|a l IH]; simpl; [done | by rewrite IH]. Qed.

Lemma map_const_repeat {A B} (b : B) (l : list A) :
  map (fun _ => b) l = repeat b (length l).
Proof. induction l as [|a l IH]; simpl; [done | by rewrite IH]. Qed.

(** The left row of every pair of a join, by key. *)
Lemma join_pairs_fst (lcols : list (list (option value))) (h : nat)
    (rk : list (list (option value))) :
  map fst (join_pairs (row_keys h lcols) rk)
  = flat_map (fun i => repeat i (matches (row_at lcols i) rk)) (seq 0 h).
Proof.
  unfold join_pairs, row_keys. fold (row_at lcols).
  rewrite indexed_map_seq, flat_map_map, map_flat_map.
  apply flat_map_ext. intros i. cbn [fst snd].
  rewrite map_map. cbn [fst]. rewrite map_const_repeat.
  by rewrite matches_indexed.
Qed.

Lemma row_keys_gather (cols : list (list (option value))) (idx : list nat) :
  row_keys (length idx) (map (gather idx) cols) = map (row_at cols) idx.
Proof.
  unfold row_keys.
  transitivity (map (fun j => row_at cols (nth j idx O)) (seq 0 (length idx))).
  - apply map_ext_in. intros j Hj. apply in_seq in Hj.
    unfold row_at. rewrite map_map. apply map_ext. intros s.
    unfold gather.
    rewrite (nth_indep _ None (nth O s None))
      by (rewrite length_map; lia).
    by rewrite (map_nth (fun i => nth i s None)).
  - rewrite <- (map_map (fun j => nth j idx O) (row_at cols)).
    f_equal. clear. induction idx as [|i idx IH]; [done|].
    simpl. f_equal. rewrite <- seq_shift, map_map. exact IH.
Qed.

(** The keys of the joined rows: every left key, once per matching right
    row. *)
Lemma joined_keys (lcols : list (list (option value))) (h : nat)
    (rk : list (list (option value))) :
  map (row_at lcols) (map fst (join_pairs (row_keys h lcols) rk))
  = flat_map (fun k => repeat k (matches k rk)) (row_keys h lcols).
Proof.
  rewrite join_pairs_fst, map_flat_map.
  unfold row_keys. fold (row_at lcols). rewrite flat_map_map.
  apply flat_map_ext. intros i. apply map_repeat.
Qed.

Lemma get_column_app_l (a b : list (string * list (option value)))
    (k : string) (s : list (option value)) :
  get_column a k = Ok s -> get_column (a ++ b) k = Ok s.
Proof.
  induction a as [|[n s0] a IH]; simpl; [done|].
  destruct (String.eqb n k); auto.
Qed.

Lemma get_column_map (g : list (option value) -> list (option value))
    (df : list (string * list (option value)))
    (k : string) (s : list (option value)) :
  get_column df k = Ok s ->
  get_column (map (fun c : string * list (option value) => (fst c, g (snd c))) df) k
  = Ok (g s).
Proof.
  induction df as [|[n s0] df IH]; simpl; [done|].
  destruct (String.eqb n k); [|auto]. intros H. by inversion H.
Qed.

Lemma key_columns_inv (df : list (string * list (option value)))
    (kc : list (list (option value))) :
  mapR (get_column df) SilverLayer.join_on = Ok kc ->
  exists t c, get_column df "time" = Ok t
              /\ get_column df "city_name" = Ok c /\ kc = [t; c].
Proof.
  simpl. destruct (get_column df "time") as [t|]; [|done].
  destruct (get_column df "city_name") as [c|]; [|done].
  intros H. inversion H. eauto.
Qed.

Lemma key_columns_run (df : list (string * list (option value)))
    (t c : list (option value)) :
  get_column df "time" = Ok t -> get_column df "city_name" = Ok c ->
  mapR (get_column df) SilverLayer.join_on = Ok [t; c].
Proof. intros Ht Hc. simpl. by rewrite Ht, Hc. Qed.

Lemma frame_keys_length (df : list (string * list (option value)))
    (t : list (option value)) (c : list (option value)) :
  get_column df "time" = Ok t -> get_column df "city_name" = Ok c ->
  length (frame_keys df) = height df.
Proof.
  intros Ht Hc. unfold frame_keys. rewrite (key_columns_run _ _ _ Ht Hc).
  unfold row_keys. by rewrite length_map, length_seq.
Qed.

(** What an inner join on (time, city_name) returns. *)
Lemma inner_join_inv (left right out : list (string * list (option value))) :
  inner_join left right SilverLayer.join_on = Ok out ->
  exists lt lc rt rc idx,
    get_column left "time" = Ok lt /\ get_column left "city_name" = Ok lc
    /\ get_column right "time" = Ok rt /\ get_column right "city_name" = Ok rc
    /\ map (row_at [lt; lc]) idx
       = flat_map (fun k => repeat k (matches k (frame_keys right)))
                  (frame_keys left)
    /\ get_column out "time" = Ok (gather idx lt)
    /\ get_column out "city_name" = Ok (gather idx lc)
    /\ height out = length idx
    /\ List.NoDup (columns out)
    /\ columns out
       = columns left
         ++ map (fun n => if str_in n (columns left)
                          then (n ++ "_right")%string else n)
                (payload right).
Proof.
  unfold inner_join. unfold mbind at 1, result_bind.
  destruct (mapR (get_column left) SilverLayer.join_on) as [lk|] eqn:Hlk;
    [|done].
  unfold mbind at 1, result_bind.
  destruct (mapR (get_column right) SilverLayer.join_on) as [rk|] eqn:Hrk;
    [|done].
  destruct (key_columns_inv _ _ Hlk) as (lt & lc & Hlt & Hlc & ->).
  destruct (key_columns_inv _ _ Hrk) as (rt & rc & Hrt & Hrc & ->).
  cbv zeta.
  set (idx := map fst (join_pairs (row_keys (height left) [lt; lc])
                                  (row_keys (height right) [rt; rc]))).
  set (right_part := map _ (List.filter _ right)).
  destruct (str_nodup _) eqn:Hnd; [|done].
  intros Hout. inversion Hout; subst out; clear Hout.
  exists lt, lc, rt, rc, idx. repeat split; try done.
  - unfold idx. rewrite joined_keys. unfold frame_keys.
    by rewrite Hlk, Hrk.
  - apply get_column_app_l. by apply (get_column_map (gather idx)).
  - apply get_column_app_l. by apply (get_column_map (gather idx)).
  - destruct left as [|[n s] left]; [done|]. simpl.
    unfold gather. by rewrite length_map.
  - by apply str_nodup_NoDup.
  - unfold columns. rewrite map_app, map_map. cbn [fst]. f_equal.
    unfold right_part, payload, columns. rewrite map_map. cbn [fst].
    clear. induction right as [|[n s] right IH]; [done|].
    cbn [List.filter map fst].
    destruct (negb (str_in n SilverLayer.join_on)); cbn [map fst];
      by rewrite IH.
Qed.

Lemma inner_join_keys (left right out : list (string * list (option value))) :
  inner_join left right SilverLayer.join_on = Ok out ->
  frame_keys out
  = flat_map (fun k => repeat k (matches k (frame_keys right)))
             (frame_keys left).
Proof.
  intros H. apply inner_join_inv in H
    as (lt & lc & rt & rc & idx & Hlt & Hlc & Hrt & Hrc & Hkeys & Hot & Hoc
        & Hh & _).
  unfold frame_keys at 1. rewrite (key_columns_run _ _ _ Hot Hoc), Hh.
  change [gather idx lt; gather idx lc] with (map (gather idx) [lt; lc]).
  by rewrite row_keys_gather.
Qed.

Lemma key_match_str_key (t c : string) (k : list (option value)) :
  key_match (str_key t c) k = true <-> k = str_key t c.
Proof.
  split.
  - destruct k as [|[[| s1 | |]|] [|[[| s2 | |]|] [|? ?]]]; simpl;
      try done; rewrite ?andb_false_r; try done.
    rewrite andb_true_r, andb_true_iff, !String.eqb_eq.
    by intros [-> ->].
  - intros ->. simpl. by rewrite !String.eqb_refl.
Qed.

Lemma matches_pos (k : list (option value)) (rk : list (list (option value))) :
  (0 < matches k rk)%nat <-> exists k', In k' rk /\ key_match k k' = true.
Proof.
  unfold matches. split.
  - destruct (List.filter (key_match k) rk) as [|k' l] eqn:Hf; simpl; [lia|].
    intros _. exists k'. apply filter_In. rewrite Hf. by left.
  - intros (k' & Hin & Hm).
    assert (Hk : In k' (List.filter (key_match k) rk)) by (by apply filter_In).
    destruct (List.filter (key_match k) rk); [done | simpl; lia].
Qed.

(** A string key is a key of the joined rows iff it is a key on both
    sides. *)
Lemma joined_has_key (t c : string) (lk rk : list (list (option value))) :
  In (str_key t c) (flat_map (fun k => repeat k (matches k rk)) lk)
  <-> In (str_key t c) lk /\ In (str_key t c) rk.
Proof.
  rewrite in_flat_map. split.
  - intros (k & Hk & Hrep). apply repeat_spec in Hrep as Heq. subst k.
    split; [done|].
    assert (Hpos : (0 < matches (str_key t c) rk)%nat).
    { destruct (matches (str_key t c) rk); [done | lia]. }
    apply matches_pos in Hpos as (k' & Hin & Hm).
    apply key_match_str_key in Hm. by subst.
  - intros [Hl Hr]. exists (str_key t c). split; [done|].
    assert (Hpos : (0 < matches (str_key t c) rk)%nat).
    { apply matches_pos. exists (str_key t c). split; [done|].
      by apply key_match_str_key. }
    destruct (matches (str_key t c) rk); [lia | by left].
Qed.

(** ** Joining all the batches *)

Lemma join_all_keys (bs : list (list (string * list (option value)))) :
  forall (b0 joint : list (string * list (option value))),
    join_all b0 bs = Ok joint ->
    forall t c,
      has_key joint t c <-> List.Forall (fun b => has_key b t c) (b0 :: bs).
Proof.
  induction bs as [|b bs IH]; intros b0 joint Hj t c; simpl in Hj.
  - inversion Hj; subst joint. split.
    + intros H. by constructor.
    + intros H. by inversion H.
  - destruct (inner_join b0 b SilverLayer.join_on) as [acc|] eqn:Hacc; [|done].
    rewrite (IH acc joint Hj t c).
    unfold has_key. split.
    + intros H. inversion H as [|? ? Hk Hrest]; subst.
      rewrite (inner_join_keys _ _ _ Hacc) in Hk.
      apply joined_has_key in Hk as [Hl Hr].
      by repeat constructor.
    + intros H. inversion H as [|? ? Hl H']; subst.
      inversion H' as [|? ? Hr Hrest]; subst.
      constructor; [|done].
      rewrite (inner_join_keys _ _ _ Hacc). by apply joined_has_key.
Qed.

Lemma joined_columns (left right : list (string * list (option value)))
    (idx jdx : list nat) :
  columns
    (map (fun c : string * list (option value) =>
            (fst c, gather idx (snd c))) left
     ++ map (fun c : string * list (option value) =>
               (if str_in (fst c) (columns left)
                then (fst c ++ "_right")%string else fst c,
                gather jdx (snd c)))
            (List.filter (fun c : string * list (option value) =>
                            negb (str_in (fst c) SilverLayer.join_on)) right))
  = columns left
    ++ map (fun n => if str_in n (columns left)
                     then (n ++ "_right")%string else n)
           (payload right).
Proof.
  unfold columns. rewrite map_app, map_map. cbn [fst]. f_equal.
  unfold payload, columns. rewrite map_map. cbn [fst].
  induction right as [|[n s] right IH]; [done|].
  cbn [List.filter map fst].
  destruct (negb (str_in n SilverLayer.join_on)); cbn [map fst];
    by rewrite IH.
Qed.

(** A join of two batches that have the key columns and share no other
    column name succeeds, and renames nothing. *)
Lemma inner_join_run (left right : list (string * list (option value))) :
  has_key_columns left -> has_key_columns right ->
  List.NoDup (columns left ++ payload right) ->
  exists out,
    inner_join left right SilverLayer.join_on = Ok out
    /\ columns out = columns left ++ payload right.
Proof.
  intros [Hlt Hlc] [Hrt Hrc] Hnd.
  destruct (get_column left "time") as [lt|] eqn:Elt; [|done].
  destruct (get_column left "city_name") as [lc|] eqn:Elc; [|done].
  destruct (get_column right "time") as [rt|] eqn:Ert; [|done].
  destruct (get_column right "city_name") as [rc|] eqn:Erc; [|done].
  unfold inner_join.
  rewrite (key_columns_run _ _ _ Elt Elc), (key_columns_run _ _ _ Ert Erc).
  cbn [mbind result_bind]. cbv zeta.
  rewrite joined_columns.
  assert (Hsame : map (fun n => if str_in n (columns left)
                                then (n ++ "_right")%string else n)
                      (payload right)
                  = payload right).
  { rewrite <- (map_id (payload right)) at 2. apply map_ext_in.
    intros n Hn. destruct (str_in n (columns left)) eqn:Hin; [|done].
    exfalso. apply str_in_In in Hin.
    apply List.NoDup_app_remove_l in Hnd as Hnd'.
    clear -Hnd Hin Hn.
    induction (columns left) as [|m l IH]; [done|].
    simpl in Hnd. inversion Hnd as [|? ? Hnotin Hnd']; subst.
    destruct Hin as [->|Hin]; [|by apply IH].
    apply Hnotin, in_or_app. by right. }
  rewrite Hsame.
  assert (Hok : str_nodup (columns left ++ payload right) = true)
    by (by apply str_nodup_NoDup).
  rewrite Hok. eexists. split; [reflexivity|].
  by rewrite joined_columns, Hsame.
Qed.

Lemma inner_join_has_key_columns
    (left right out : list (string * list (option value))) :
  inner_join left right SilverLayer.join_on = Ok out ->
  has_key_columns left /\ has_key_columns right /\ has_key_columns out.
Proof.
  intros H. apply inner_join_inv in H
    as (lt & lc & rt & rc & idx & Hlt & Hlc & Hrt & Hrc & _ & Hot & Hoc & _).
  unfold has_key_columns.
  by rewrite Hlt, Hlc, Hrt, Hrc, Hot, Hoc.
Qed.

Lemma join_all_run (bs : list (list (string * list (option value)))) :
  forall b0 : list (string * list (option value)),
    has_key_columns b0 -> List.Forall has_key_columns bs ->
    List.NoDup (columns b0 ++ concat (map payload bs)) ->
    exists joint,
      join_all b0 bs = Ok joint
      /\ has_key_columns joint
      /\ columns joint = columns b0 ++ concat (map payload bs).
Proof.
  induction bs as [|b bs IH]; intros b0 H0 Hbs Hnd.
  - exists b0. simpl. by rewrite app_nil_r.
  - inversion Hbs as [|? ? Hb Hbs']; subst.
    simpl in Hnd. rewrite app_assoc in Hnd.
    destruct (inner_join_run b0 b H0 Hb) as (acc & Hacc & Hcols).
    { eapply List.NoDup_app_remove_r. exact Hnd. }
    destruct (inner_join_has_key_columns _ _ _ Hacc) as (_ & _ & Hk).
    destruct (IH acc Hk Hbs') as (joint & Hj & Hkj & Hcj).
    { by rewrite Hcols. }
    exists joint. simpl. rewrite Hacc. repeat split; try done.
    all: try apply Hkj.
    rewrite Hcj, Hcols. by rewrite <- app_assoc.
Qed.





(** ** The merge stage *)

Lemma dfs_list_run (base : list string) (d : datetime) (ps : list string) :
  SilverLayer.dfs_list base (PyDatetime d) ps
  = Ok (map (fun p => ScanParquet (base ++ [isoformat d; p])) ps).
Proof.
  unfold SilverLayer.dfs_list.
  induction ps as [|p ps IH]; [done|].
  cbn [mapR map]. rewrite IH.
  unfold SilverLayer._get_input_path. cbn [call_isoformat mbind result_bind mret result_ret].
  by rewrite path_div_str_app.
Qed.


Lemma silver_output_path_run (base : list string) (d : datetime) (w : world) :
  SilverLayer._get_output_path base (PyDatetime d) w
  = (Ok (base ++ [isoformat d]),
     snd (mkdir_parents (base ++ [isoformat d]) w)).
Proof. reflexivity. Qed.

Lemma merge_run (str_to_datetime : string -> option Z)
    (base_input_path base_output_path : list string) (d : datetime)
    (p0 : string) (ps : list string)
    (out : list (string * list (option value))) (w : world) :
  collect str_to_datetime (files w) (merge_plan base_input_path d p0 ps)
    = Ok out ->
  exists w',
    SilverLayer.merge_and_clean_dataframes str_to_datetime
      base_input_path base_output_path (p0 :: ps) (PyDatetime d) w
    = (Ok tt, w')
    /\ files w'
       = <[base_output_path
             ++ [isoformat d;
                 (uuid_source w (uuid_drawn w) ++ ".parquet")%string]
           := ParquetFile out]> (files w).
Proof.
  intros Hout. unfold SilverLayer.merge_and_clean_dataframes.
  erewrite bind_ok by reflexivity.
  erewrite bind_ok; cycle 1.
  { unfold lift. by rewrite dfs_list_run. }
  erewrite bind_ok by reflexivity.
  erewrite bind_ok by apply silver_output_path_run.
  erewrite bind_ok by reflexivity.
  unfold sink_parquet. cbn [files mkdir_parents logger_info add_log snd set_dirs].
  match goal with
  | |- context [collect ?a ?b ?c] =>
      change (collect a b c)
        with (collect str_to_datetime (files w)
                (merge_plan base_input_path d p0 ps))
  end.
  rewrite Hout.
  unfold write_parquet. rewrite write_file_ok; cycle 1.
  { rewrite parent_path_div_str. cbn [dirs].
    apply elem_of_union_l, elem_of_list_to_set, list_elem_of_In,
      ancestors_self. }
  eexists. split; [reflexivity|].
  cbn. unfold path_div_str. by rewrite <- app_assoc.
Qed.



(** ** Row counts of the merge *)

Lemma same_height_all (n : nat) (df : list (string * list (option value))) :
  (forall c, In c df -> length (snd c) = n) -> same_height df = true.
Proof.
  intros Hall. unfold same_height. apply forallb_forall. intros c Hc.
  apply Nat.eqb_eq. rewrite (Hall c Hc).
  destruct df as [|[k s] df]; [done|]. simpl. symmetry.
  apply (Hall (k, s)). by left.
Qed.

Lemma rect_column_length (df : list (string * list (option value)))
    (k : string) (s : list (option value)) :
  same_height df = true -> get_column df k = Ok s -> length s = height df.
Proof.
  unfold same_height. rewrite forallb_forall. intros Hall.
  generalize (height df) Hall. clear Hall. intros n Hall.
  induction df as [|[m s0] df IH]; simpl; [done|].
  destruct (String.eqb m k).
  - intros H. inversion H; subst. apply Nat.eqb_eq.
    apply (Hall (m, s)). by left.
  - apply IH. intros c Hc. apply Hall. by right.
Qed.

Lemma inner_join_rect (left right out : list (string * list (option value)))
    (on : list string) :
  inner_join left right on = Ok out -> same_height out = true.
Proof.
  unfold inner_join. unfold mbind at 1, result_bind.
  destruct (mapR (get_column left) on) as [lk|]; [|done].
  unfold mbind at 1, result_bind.
  destruct (mapR (get_column right) on) as [rk|]; [|done].
  cbv zeta.
  set (pairs := join_pairs _ _).
  destruct (str_nodup _); [|done].
  intros H. inversion H; subst out; clear H.
  apply (same_height_all (length pairs)). intros c Hc.
  apply in_app_or in Hc as [Hc|Hc]; apply in_map_iff in Hc as (c0 & <- & _);
    cbn [snd]; unfold gather; by rewrite !length_map.
Qed.

Lemma join_all_rect (bs : list (list (string * list (option value)))) :
  forall b0 joint : list (string * list (option value)),
    same_height b0 = true -> join_all b0 bs = Ok joint ->
    same_height joint = true.
Proof.
  induction bs as [|b bs IH]; intros b0 joint H0 Hj; simpl in Hj.
  - by inversion Hj; subst.
  - destruct (inner_join b0 b SilverLayer.join_on) as [acc|] eqn:Hacc; [|done].
    apply (IH acc joint); [|done]. by apply (inner_join_rect _ _ _ _ Hacc).
Qed.

Lemma cast_datetime_height (str_to_datetime : string -> option Z)
    (df out : list (string * list (option value))) :
  same_height df = true ->
  cast_datetime str_to_datetime df "time" = Ok out ->
  height out = height df.
Proof.
  intros Hrect. unfold cast_datetime. unfold mbind at 1, result_bind.
  destruct (get_column df "time") as [s|] eqn:Hs; [|done].
  unfold mbind at 1, result_bind.
  destruct (mapR (cast_datetime_cell str_to_datetime) s) as [s'|] eqn:Hs';
    [|done].
  intros H. inversion H; subst out; clear H.
  assert (Hlen : length s' = length s).
  { clear -Hs'. revert s' Hs'. induction s as [|c s IH]; intros s' Hs';
      simpl in Hs'.
    - by inversion Hs'.
    - destruct (cast_datetime_cell str_to_datetime c); [|done].
      destruct (mapR (cast_datetime_cell str_to_datetime) s) as [l|]; [|done].
      inversion Hs'; subst. simpl. by rewrite (IH l). }
  apply height_set_column.
  - by destruct df.
  - rewrite Hlen. by apply (rect_column_length df "time").
Qed.

Lemma has_key_columns_length (df : list (string * list (option value))) :
  has_key_columns df -> length (frame_keys df) = height df.
Proof.
  intros [Ht Hc].
  destruct (get_column df "time") as [t|] eqn:Et; [|done].
  destruct (get_column df "city_name") as [c|] eqn:Ec; [|done].
  by apply (frame_keys_length df t c).
Qed.

Lemma flat_repeat_filter {A} (f : A -> nat) (l : list A) :
  (forall a, In a l -> (f a <= 1)%nat) ->
  flat_map (fun a => repeat a (f a)) l
  = List.filter (fun a => Nat.ltb 0 (f a)) l.
Proof.
  induction l as [|a l IH]; intros Hle; simpl; [done|].
  rewrite IH by (intros; apply Hle; by right).
  assert (Ha : (f a <= 1)%nat) by (apply Hle; by left).
  destruct (f a) as [|[|n]]; simpl; [done | done | lia].
Qed.

Lemma matches_le_1 (t c : string) (rk : list (list (option value))) :
  List.NoDup rk -> (matches (str_key t c) rk <= 1)%nat.
Proof.
  intros Hnd. unfold matches.
  pose proof (List.NoDup_filter (key_match (str_key t c)) Hnd) as Hf.
  assert (Hall : forall k, In k (List.filter (key_match (str_key t c)) rk)
                           -> k = str_key t c).
  { intros k Hk. apply filter_In in Hk as [_ Hm].
    by apply key_match_str_key. }
  destruct (List.filter (key_match (str_key t c)) rk) as [|a [|b l]];
    simpl; [lia | lia |].
  exfalso. inversion Hf as [|? ? Hnotin _]; subst. apply Hnotin.
  rewrite (Hall a) by (by left). rewrite (Hall b) by (right; by left).
  by left.
Qed.

(** With distinct string keys on both sides the joined keys are the left
    keys that occur on the right. *)
Lemma joined_keys_filter (lk rk : list (list (option value))) :
  (forall k, In k lk -> exists t c, k = str_key t c) ->
  List.NoDup rk ->
  flat_map (fun k => repeat k (matches k rk)) lk
  = List.filter (fun k => Nat.ltb 0 (matches k rk)) lk.
Proof.
  intros Hstr Hnd. apply flat_repeat_filter. intros k Hk.
  destruct (Hstr k Hk) as (t & c & ->). by apply matches_le_1.
Qed.

Lemma join_all_distinct_keys (bs : list (list (string * list (option value)))) :
  forall b0 joint : list (string * list (option value)),
    List.Forall (fun b => str_keyed b /\ List.NoDup (frame_keys b)) (b0 :: bs) ->
    join_all b0 bs = Ok joint ->
    str_keyed joint /\ List.NoDup (frame_keys joint).
Proof.
  induction bs as [|b bs IH]; intros b0 joint Hall Hj; simpl in Hj.
  - inversion Hj; subst. by inversion Hall.
  - destruct (inner_join b0 b SilverLayer.join_on) as [acc|] eqn:Hacc; [|done].
    inversion Hall as [|? ? [Hs0 Hn0] Hall']; subst.
    inversion Hall' as [|? ? [Hsb Hnb] Hall'']; subst.
    apply (IH acc joint); [|done]. constructor; [|done].
    pose proof (inner_join_keys _ _ _ Hacc) as Hk.
    rewrite (joined_keys_filter _ _ Hs0 Hnb) in Hk.
    split.
    + intros k Hin. rewrite Hk in Hin. apply filter_In in Hin as [Hin _].
      by apply Hs0.
    + rewrite Hk. by apply List.NoDup_filter.
Qed.

Lemma join_all_has_key_columns
    (bs : list (list (string * list (option value)))) :
  forall b0 b joint : list (string * list (option value)),
    join_all b0 (b :: bs) = Ok joint ->
    List.Forall has_key_columns (b0 :: b :: bs) /\ has_key_columns joint.
Proof.
  induction bs as [|b' bs IH]; intros b0 b joint Hj; simpl in Hj.
  - destruct (inner_join b0 b SilverLayer.join_on) as [acc|] eqn:Hacc; [|done].
    inversion Hj; subst.
    destruct (inner_join_has_key_columns _ _ _ Hacc) as (H0 & Hb & Hk).
    split; [|done].
    apply List.Forall_cons; [done|]. apply List.Forall_cons; [done|].
    apply List.Forall_nil.
  - destruct (inner_join b0 b SilverLayer.join_on) as [acc|] eqn:Hacc; [|done].
    destruct (inner_join_has_key_columns _ _ _ Hacc) as (H0 & Hb & Hk).
    destruct (IH acc b' joint) as [Hall Hjk].
    { simpl. exact Hj. }
    inversion Hall; subst. split; [|done].
    apply List.Forall_cons; [done|]. by apply List.Forall_cons.
Qed.

Lemma merged_inv (str_to_datetime : string -> option Z)
    (b0 : list (string * list (option value)))
    (bs : list (list (string * list (option value))))
    (out : list (string * list (option value))) :
  merged str_to_datetime b0 bs = Ok out ->
  exists joint,
    join_all b0 bs = Ok joint
    /\ cast_datetime str_to_datetime joint "time" = Ok out.
Proof.
  unfold merged. unfold mbind at 1, result_bind.
  destruct (join_all b0 bs) as [joint|]; [|done]. eauto.
Qed.

(** C5, as the code has it: when every batch is a table whose
    (time, city_name) keys are pairs of strings, distinct within the
    batch, the merged table has at most as many rows as any batch, hence
    at most the minimum; and it has exactly as many rows as every batch
    when all the batches have the same keys. *)
Theorem merged_row_count
    (str_to_datetime : string -> option Z)
    (b0 : list (string * list (option value)))
    (bs : list (list (string * list (option value))))
    (out : list (string * list (option value))) :
  merged str_to_datetime b0 bs = Ok out ->
  List.Forall (fun b => same_height b = true /\ str_keyed b
                        /\ List.NoDup (frame_keys b)) (b0 :: bs) ->
  (forall b, In b (b0 :: bs) -> (height out <= height b)%nat)
  /\ ((forall b, In b bs ->
         forall k, In k (frame_keys b) <-> In k (frame_keys b0)) ->
      forall b, In b (b0 :: bs) -> height out = height b).
Proof.
  intros Hm Hall.
  apply merged_inv in Hm as (joint & Hj & Hcast).
  assert (Hrect0 : same_height b0 = true).
  { inversion Hall as [|? ? [H _] _]. exact H. }
  assert (Hh : height out = height joint).
  { apply (cast_datetime_height str_to_datetime); [|done].
    by apply (join_all_rect bs b0). }
  destruct bs as [|b1 bs].
  { simpl in Hj. inversion Hj; subst joint.
    split.
    - intros b [<-|[]]. lia.
    - intros _ b [<-|[]]. done. }
  destruct (join_all_has_key_columns bs b0 b1 joint Hj) as [Hkc Hkj].
  assert (Hdist : List.Forall
                    (fun b => str_keyed b /\ List.NoDup (frame_keys b))
                    (b0 :: b1 :: bs)).
  { eapply List.Forall_impl; [|exact Hall]. simpl. tauto. }
  destruct (join_all_distinct_keys _ _ _ Hdist Hj) as [Hsj Hnj].
  pose proof (join_all_keys _ _ _ Hj) as Hiff.
  assert (Hincl : forall b, In b (b0 :: b1 :: bs) ->
                            incl (frame_keys joint) (frame_keys b)).
  { intros b Hb k Hk. destruct (Hsj k Hk) as (t & c & ->).
    apply Hiff in Hk. rewrite List.Forall_forall in Hk. by apply Hk. }
  assert (Hlen : forall b, In b (b0 :: b1 :: bs) ->
                           length (frame_keys b) = height b).
  { intros b Hb. apply has_key_columns_length.
    rewrite List.Forall_forall in Hkc. by apply Hkc. }
  rewrite Hh, <- (has_key_columns_length joint Hkj).
  split.
  - intros b Hb. rewrite <- (Hlen b Hb).
    apply List.NoDup_incl_length; [done | by apply Hincl].
  - intros Hsame b Hb.
    assert (Hback : incl (frame_keys b0) (frame_keys joint)).
    { intros k Hk.
      assert (Hs0 : str_keyed b0) by (inversion Hdist; tauto).
      destruct (Hs0 k Hk) as (t & c & ->).
      apply Hiff. apply List.Forall_forall. intros b' [<-|Hb']; [done|].
      unfold has_key. by apply Hsame. }
    assert (Hn0 : List.NoDup (frame_keys b0)) by (inversion Hdist; tauto).
    assert (Hj0 : length (frame_keys joint) = length (frame_keys b0)).
    { apply Nat.le_antisymm.
      - apply List.NoDup_incl_length; [done | apply Hincl; by left].
      - by apply List.NoDup_incl_length. }
    rewrite <- (Hlen b Hb). destruct Hb as [<-|Hb]; [done|].
    rewrite Hj0.
    assert (Hnb : List.NoDup (frame_keys b)).
    { rewrite List.Forall_forall in Hdist. apply (Hdist b). by right. }
    apply Nat.le_antisymm.
    + apply List.NoDup_incl_length; [done|]. intros k Hk.
      by apply (proj2 (Hsame b Hb k)).
    + apply List.NoDup_incl_length; [done|]. intros k Hk.
      by apply (proj1 (Hsame b Hb k)).
Qed.

Lemma merged_row_count_witness :
  exists out,
    merged sample_clock weather_one_hour [air_one_hour] = Ok out
    /\ (forall b, In b [weather_one_hour; air_one_hour] ->
                  (height out <= height b)%nat)
    /\ (forall b, In b [weather_one_hour; air_one_hour] ->
                  height out = height b).
Proof.
  eexists. split; [reflexivity|].
  assert (Hkeys : List.Forall
            (fun b => same_height b = true /\ str_keyed b
                      /\ List.NoDup (frame_keys b))
            [weather_one_hour; air_one_hour]).
  { repeat constructor; try (intros k [<-|[]]; by exists "2024-01-01T00:00", "Kyiv");
      simpl; tauto. }
  destruct (merged_row_count sample_clock weather_one_hour [air_one_hour] _
              eq_refl Hkeys) as [Hle Heq].
  split; [exact Hle|]. apply Heq.
  intros b [<-|[]] k. reflexivity.
Defined.

(** C5 as stated fails twice.  A batch of one hour merged with a batch of
    two hours gives one row, the minimum, although the two batches do not
    have the same keys.  And two batches of two rows that repeat one key
    give four rows, more than either batch has. *)
Lemma merged_row_count_refuted :
  (exists out,
     merged sample_clock weather_two_hours [air_one_hour] = Ok out
     /\ height out = 1%nat
     /\ height weather_two_hours = 2%nat /\ height air_one_hour = 1%nat
     /\ ~ (forall k, In k (frame_keys air_one_hour)
                     <-> In k (frame_keys weather_two_hours)))
  /\ (exists out,
        merged sample_clock weather_repeated [air_repeated] = Ok out
        /\ height out = 4%nat
        /\ height weather_repeated = 2%nat /\ height air_repeated = 2%nat).
Proof.
  split.
  - eexists. split; [reflexivity|]. repeat split.
    intros H. specialize (H [h01; kyiv]). simpl in H.
    destruct H as [_ H]. destruct H as [H|[]]; [|discriminate].
    right. by left.
  - eexists. split; [reflexivity|]. repeat split.
Qed.

(** ** Grouping and sorting *)

Lemma value_eqb_refl (v : value) : value_eqb v v = true.
Proof.
  destruct v; simpl.
  - apply Qeq_bool_iff. reflexivity.
  - apply String.eqb_refl.
  - by destruct b.
  - apply Z.eqb_refl.
Qed.

Lemma cell_eqb_refl (c : option value) : cell_eqb c c = true.
Proof. destruct c; [apply value_eqb_refl | done]. Qed.

Lemma distinct_In (x : option value) (l : list (option value)) :
  In x (distinct l) -> In x l.
Proof.
  induction l as [|k l IH]; simpl; [done|].
  intros [->|Hin]; [by left|].
  apply filter_In in Hin as [Hin _]. right. by apply IH.
Qed.

Lemma distinct_NoDup (l : list (option value)) : List.NoDup (distinct l).
Proof.
  induction l as [|k l IH]; simpl; constructor.
  - intros Hin. apply filter_In in Hin as [_ Hk].
    by rewrite cell_eqb_refl in Hk.
  - by apply List.NoDup_filter.
Qed.

Lemma cell_eqb_str (s : string) (c : option value) :
  cell_eqb (Some (VStr s)) c = true <-> c = Some (VStr s).
Proof.
  split.
  - destruct c as [[| s' | |]|]; simpl; try done.
    intros H. apply String.eqb_eq in H. by subst.
  - intros ->. apply cell_eqb_refl.
Qed.

Lemma cell_eqb_str_r (s : string) (c : option value) :
  cell_eqb c (Some (VStr s)) = true <-> c = Some (VStr s).
Proof.
  split.
  - destruct c as [[| s' | |]|]; simpl; try done.
    intros H. apply String.eqb_eq in H. by subst.
  - intros ->. apply cell_eqb_refl.
Qed.

(** Every string category of the input is a category of the grouping. *)
Lemma distinct_covers_str (s : string) (l : list (option value)) :
  In (Some (VStr s)) l -> In (Some (VStr s)) (distinct l).
Proof.
  induction l as [|k l IH]; simpl; [done|].
  intros [->|Hin]; [by left|].
  destruct (cell_eqb k (Some (VStr s))) eqn:Hk.
  - left. by apply cell_eqb_str_r in Hk.
  - right. apply filter_In. split; [by apply IH | by rewrite Hk].
Qed.

Lemma insert_by_perm {A} (le : A -> A -> bool) (x : A) (l : list A) :
  Permutation (insert_by le x l) (x :: l).
Proof.
  induction l as [|y l IH]; simpl; [done|].
  destruct (le x y); [done|].
  rewrite IH. apply perm_swap.
Qed.

Lemma sort_by_perm {A} (le : A -> A -> bool) (l : list A) :
  Permutation (sort_by le l) l.
Proof.
  induction l as [|x l IH]; simpl; [done|].
  rewrite insert_by_perm. by constructor.
Qed.

Section Sorting.

Context {A : Type} (le : A -> A -> bool) (P : A -> Prop).
Hypothesis le_total : forall a b, P a -> P b -> le a b = false -> le b a = true.

Lemma insert_by_sorted (x : A) (l : list A) :
  P x -> List.Forall P l ->
  Sorted (fun a b => le a b = true) l ->
  Sorted (fun a b => le a b = true) (insert_by le x l).
Proof using le_total.
  intros Hx HP Hs. induction l as [|y l IH]; simpl.
  - by repeat constructor.
  - destruct (le x y) eqn:Hxy.
    + constructor; [done|]. by constructor.
    + inversion Hs as [|? ? Hs' Hhd]; subst.
      inversion HP as [|? ? Hy HP']; subst.
      constructor; [by apply IH|].
      destruct l as [|z l]; simpl.
      * constructor. by apply le_total.
      * destruct (le x z).
        -- constructor. by apply le_total.
        -- constructor. by inversion Hhd.
Qed.

Lemma sort_by_sorted (l : list A) :
  List.Forall P l -> Sorted (fun a b => le a b = true) (sort_by le l).
Proof using le_total.
  induction 1 as [|x l Hx HP IH]; simpl; [constructor|].
  apply insert_by_sorted; [done | | done].
  apply List.Forall_forall. intros a Ha.
  apply (Permutation_in _ (sort_by_perm le l)) in Ha.
  rewrite List.Forall_forall in HP. by apply HP.
Qed.

End Sorting.

Lemma cell_leb_total (a b : option value) :
  is_mean a -> is_mean b -> cell_leb a b = false -> cell_leb b a = true.
Proof.
  destruct a as [[x| | |]|], b as [[y| | |]|]; simpl; try done.
  intros _ _ H. apply Qle_bool_iff.
  destruct (Qlt_le_dec x y) as [Hlt|Hle]; [|done].
  exfalso. apply Qlt_le_weak in Hlt. apply Qle_bool_iff in Hlt. congruence.
Qed.

Lemma indexed_In {A} (l : list A) (i : nat) (x : A) (d : A) :
  In (i, x) (indexed l) -> (i < length l)%nat /\ nth i l d = x.
Proof.
  unfold indexed.
  assert (Hgen : forall a, In (i, x) (combine (seq a (length l)) l) ->
                           (a <= i < a + length l)%nat /\ nth (i - a) l d = x).
  { induction l as [|y l IH]; intros a; simpl; [done|].
    intros [Heq|Hin].
    - inversion Heq; subst. split; [lia|]. by rewrite Nat.sub_diag.
    - apply IH in Hin as [Hr Hn]. split; [lia|].
      replace (i - a)%nat with (S (i - S a)) by lia. exact Hn. }
  intros Hin. apply Hgen in Hin as [Hr Hn]. rewrite Nat.sub_0_r in Hn.
  split; [lia | done].
Qed.

Lemma indexed_fst {A} (l : list A) : map fst (indexed l) = seq 0 (length l).
Proof.
  unfold indexed. generalize 0%nat.
  induction l as [|x l IH]; intros a; simpl; [done | by rewrite IH].
Qed.

Lemma indexed_snd {A} (l : list A) : map snd (indexed l) = l.
Proof.
  unfold indexed. generalize 0%nat.
  induction l as [|x l IH]; intros a; simpl; [done | by rewrite IH].
Qed.

Lemma sort_index_perm (s : list (option value)) :
  Permutation (sort_index s) (seq 0 (length s)).
Proof.
  unfold sort_index. rewrite <- indexed_fst.
  apply Permutation_map, sort_by_perm.
Qed.

Lemma sort_index_range (s : list (option value)) (i : nat) :
  In i (sort_index s) -> (i < length s)%nat.
Proof.
  intros Hin. apply (Permutation_in _ (sort_index_perm s)) in Hin.
  apply in_seq in Hin. lia.
Qed.

(** The sorted column is the column read in the order of [sort_index]. *)
Lemma gather_sort_index (s : list (option value)) :
  gather (sort_index s) s
  = map snd (sort_by (fun a b : nat * option value => cell_leb (snd a) (snd b))
                     (indexed s)).
Proof.
  unfold gather, sort_index. rewrite map_map.
  apply map_ext_in. intros [i x] Hin. simpl.
  apply (Permutation_in _ (sort_by_perm _ _)) in Hin.
  by apply (indexed_In s i x None) in Hin as [_ Hn].
Qed.

Lemma gather_sorted (s : list (option value)) :
  List.Forall is_mean s ->
  Sorted (fun a b => cell_leb a b = true) (gather (sort_index s) s).
Proof.
  intros Hs. rewrite gather_sort_index.
  assert (Hsorted :
    Sorted (fun a b : nat * option value => cell_leb (snd a) (snd b) = true)
           (sort_by (fun a b : nat * option value => cell_leb (snd a) (snd b))
                    (indexed s))).
  { apply (sort_by_sorted _ (fun p : nat * option value => is_mean (snd p))).
    - intros a b Ha Hb. by apply cell_leb_total.
    - apply List.Forall_forall. intros [i x] Hin.
      apply (indexed_In s i x None) in Hin as [_ <-]. simpl.
      rewrite List.Forall_forall in Hs.
      destruct (nth_in_or_default i s None) as [Hi| ->]; [by apply Hs | done]. }
  induction Hsorted as [|p l _ IH Hhd]; simpl; constructor; [done|].
  destruct Hhd; simpl; by constructor.
Qed.

Lemma gather_map_range {B} (f : B -> option value) (idx : list nat)
    (l : list B) (d : B) :
  (forall i, In i idx -> (i < length l)%nat) ->
  gather idx (map f l) = map f (map (fun i => nth i l d) idx).
Proof.
  intros Hr. unfold gather. rewrite map_map. apply map_ext_in.
  intros i Hi. rewrite (nth_indep _ None (f d)) by (rewrite length_map; auto).
  apply map_nth.
Qed.

Lemma gather_perm (idx : list nat) (l : list (option value)) :
  Permutation idx (seq 0 (length l)) -> Permutation (gather idx l) l.
Proof.
  intros Hp. unfold gather.
  rewrite (Permutation_map (fun i => nth i l None) Hp).
  clear. induction l as [|x l IH]; [done|].
  simpl. constructor. rewrite <- seq_shift, map_map. exact IH.
Qed.

(** ** Aggregated tables *)

Lemma group_means_inv (df : list (string * list (option value)))
    (ks groups : list (option value)) (means : list (string * string)) :
  forall cols,
    mapR (fun m : string * string =>
            xs ← numeric df (fst m);
            mret (snd m,
                  map (fun k => num_to_cell (mean (select_group ks k xs)))
                      groups))
         means = Ok cols ->
    exists named,
      mapR (fun m : string * string =>
              match numeric df (fst m) with
              | Ok xs => Ok (snd m, xs)
              | Raise e => Raise e
              end) means = Ok named
      /\ cols
         = map (fun m : string * list (option Q) =>
                  (fst m,
                   map (fun k => num_to_cell (mean (select_group ks k (snd m))))
                       groups))
               named.
Proof.
  induction means as [|m means IH]; intros cols; simpl.
  - intros H. inversion H. by exists [].
  - unfold mbind at 1, result_bind.
    destruct (numeric df (fst m)) as [xs|]; [|done].
    cbn [mret result_ret].
    destruct (mapR _ means) as [cols'|] eqn:Hc; [|done].
    intros H. inversion H; subst cols; clear H.
    destruct (IH cols' eq_refl) as (named & Hn & ->).
    rewrite Hn. by exists ((snd m, xs) :: named).
Qed.

Lemma group_by_agg_inv (df g : list (string * list (option value)))
    (key : string) (means : list (string * string)) :
  group_by_agg df key means = Ok g ->
  exists ks named,
    get_column df key = Ok ks
    /\ mapR (fun m : string * string =>
               match numeric df (fst m) with
               | Ok xs => Ok (snd m, xs)
               | Raise e => Raise e
               end) means = Ok named
    /\ g = agg_table key ks named (distinct ks).
Proof.
  unfold group_by_agg. unfold mbind at 1, result_bind.
  destruct (get_column df key) as [ks|]; [|done].
  cbv zeta. unfold mbind at 1, result_bind.
  destruct (mapR _ means) as [cols|] eqn:Hc; [|done].
  intros H. inversion H; subst g; clear H.
  destruct (group_means_inv _ _ _ _ _ Hc) as (named & Hn & ->).
  by exists ks, named.
Qed.

Lemma agg_table_columns (key : string) (ks : list (option value))
    (named : list (string * list (option Q))) (cats : list (option value)) :
  columns (agg_table key ks named cats) = key :: map fst named ++ ["count"].
Proof.
  unfold agg_table, columns. cbn [map fst]. f_equal.
  rewrite map_app, map_map. reflexivity.
Qed.

Lemma agg_table_column_length (key : string) (ks : list (option value))
    (named : list (string * list (option Q))) (cats : list (option value))
    (c : string) (s : list (option value)) :
  get_column (agg_table key ks named cats) c = Ok s -> length s = length cats.
Proof.
  unfold agg_table. cbn [get_column].
  destruct (String.eqb key c).
  { intros H. by inversion H. }
  induction named as [|[n xs] named IH]; cbn [map app get_column fst snd].
  - destruct (String.eqb "count" c); [|done].
    intros H. inversion H. by rewrite length_map.
  - destruct (String.eqb n c); [|exact IH].
    intros H. inversion H. by rewrite length_map.
Qed.

(** Sorting an aggregated table reorders its categories. *)
Lemma sort_agg_table (key : string) (ks : list (option value))
    (named : list (string * list (option Q))) (cats : list (option value))
    (by_ : string) (t : list (string * list (option value))) :
  sort (agg_table key ks named cats) by_ = Ok t ->
  exists s,
    get_column (agg_table key ks named cats) by_ = Ok s
    /\ length s = length cats
    /\ t = agg_table key ks named (gather (sort_index s) cats).
Proof.
  unfold sort. unfold mbind at 1, result_bind.
  destruct (get_column (agg_table key ks named cats) by_) as [s|] eqn:Hs;
    [|done].
  pose proof (agg_table_column_length _ _ _ _ _ _ Hs) as Hlen.
  cbn [mret result_ret]. intros H. inversion H; subst t; clear H.
  exists s. split; [done|]. split; [done|].
  fold (sort_index s).
  assert (Hr : forall i, In i (sort_index s) -> (i < length cats)%nat).
  { intros i Hi. rewrite <- Hlen. by apply sort_index_range. }
  unfold agg_table. cbn [map fst snd]. f_equal.
  rewrite map_app, !map_map. cbn [map fst snd]. f_equal.
  - apply map_ext. intros [n xs]. cbn [fst snd]. f_equal.
    by rewrite (gather_map_range _ _ _ None).
  - f_equal. f_equal. by rewrite (gather_map_range _ _ _ None).
Qed.

Lemma numeric_set_column_ne (df : list (string * list (option value)))
    (col k : string) (s : list (option value)) :
  k <> col -> numeric (set_column df col s) k = numeric df k.
Proof. intros Hk. unfold numeric. by rewrite get_set_column_ne. Qed.

(** ** The wind table *)



Lemma analyze_wind_effect_inv (df table : list (string * list (option value)))
    (w w' : world) :
  GoldenLayer.analyze_wind_effect df w = (Ok table, w') ->
  GoldenLayer.wind_analysis df = Ok table.
Proof.
  unfold GoldenLayer.analyze_wind_effect. intros H.
  apply bind_inv in H as (? & ? & _ & H).
  apply bind_inv in H as (? & ? & _ & H).
  apply bind_inv in H as (wind & ? & Hw & H).
  apply lift_inv in Hw as [Hw ->].
  apply bind_inv in H as (? & ? & _ & H).
  apply bind_inv in H as (? & ? & _ & H).
  apply bind_inv in H as (? & ? & _ & H).
  apply bind_inv in H as (? & ? & _ & H).
  apply bind_inv in H as (? & ? & _ & H).
  apply bind_inv in H as (? & ? & _ & H).
  inversion H; subst. exact Hw.
Qed.



(** ** The hours of a tie *)

Example two_hours_peak :
  GoldenLayer.hourly_stats two_hours
    ≫= (fun stats => GoldenLayer.extreme_hour stats qmax)
  = Ok (num 0)
  /\ GoldenLayer.hourly_stats two_hours
       ≫= (fun stats => GoldenLayer.extreme_hour stats qmin)
     = Ok (num 1).
Proof. split; reflexivity. Qed.

(** C4 at a tie: two hours with the same mean pm2_5 both pass the filter
    on the maximum, [item] refuses the two rows, and the analysis, and
    with it the whole golden stage, raises instead of reporting an hour;
    no table is written. *)
Theorem hourly_patterns_tie_raises :
  (GoldenLayer.hourly_stats tied_hours
     ≫= fun stats => get_column stats "avg_pm2_5")
  = Ok [num 10; num 10]
  /\ (GoldenLayer.hourly_stats tied_hours
        ≫= fun stats => GoldenLayer.extreme_hour stats qmax)
     = Raise ValueError
  /\ fst (GoldenLayer.analyze_hourly_patterns tied_hours quiet_world)
     = Raise ValueError
  /\ fst (GoldenLayer.calculate_analytics ["sv"] ["gd"] (PyStr "2024-01-01")
            (golden_world tied_hours))
     = Raise ValueError
  /\ files (snd (GoldenLayer.calculate_analytics ["sv"] ["gd"]
                   (PyStr "2024-01-01") (golden_world tied_hours)))
     = files (golden_world tied_hours).
Proof. repeat split; vm_compute; reflexivity. Qed.

(** ** What the golden stage logs and what it writes *)

Lemma logger_info_inv (e : log_entry) (w w1 : world) (u : unit) :
  logger_info e w = (Ok u, w1) -> w1 = add_log e w.
Proof. intros H. by inversion H. Qed.

Lemma mret_inv {A} (a b : A) (w w1 : world) :
  (mret a : M A) w = (Ok b, w1) -> b = a /\ w1 = w.
Proof. intros H. by inversion H. Qed.

Lemma add_logs_spec (es : list log_entry) (w : world) :
  files (add_logs es w) = files w
  /\ dirs (add_logs es w) = dirs w
  /\ logs (add_logs es w) = logs w ++ es
  /\ upstream (add_logs es w) = upstream w.
Proof.
  revert w. induction es as [|e es IH]; intros w; simpl.
  - by rewrite app_nil_r.
  - destruct (IH (add_log e w)) as (Hf & Hd & Hl & Hu).
    unfold add_logs in *. rewrite Hf, Hd, Hl, Hu. simpl.
    by rewrite <- app_assoc.
Qed.

Lemma add_logs_app (es es' : list log_entry) (w : world) :
  add_logs es' (add_logs es w) = add_logs (es ++ es') w.
Proof. unfold add_logs. by rewrite fold_left_app. Qed.

Ltac log_step H :=
  let Hl := fresh "Hl" in
  apply bind_inv in H as (? & ? & Hl & H);
  apply logger_info_inv in Hl; subst.

Ltac lift_step H x Hx :=
  apply bind_inv in H as (x & ? & Hx & H);
  apply lift_inv in Hx as [Hx ->].

Lemma analyze_wind_effect_logs
    (df table : list (string * list (option value))) (w w' : world) :
  GoldenLayer.analyze_wind_effect df w = (Ok table, w') ->
  exists es xs ys xs' ys',
    w' = add_logs es w
    /\ In (LogCorr "Wind Speed ↔ PM2.5" xs ys) es
    /\ In (LogCorr "Wind Speed ↔ PM10" xs' ys') es.
Proof.
  unfold GoldenLayer.analyze_wind_effect. intros H.
  log_step H. log_step H. lift_step H wind Hw. log_step H.
  lift_step H c1 Hc1. lift_step H c2 Hc2.
  log_step H. log_step H. log_step H.
  apply mret_inv in H as [-> ->].
  eexists [_; _; _; _; _; _], _, _, _, _.
  split; [reflexivity|]. simpl. split; auto 10.
Qed.

Lemma analyze_temperature_inv
    (df table : list (string * list (option value))) (w w' : world) :
  GoldenLayer.analyze_temperature_humidity_relationship df w = (Ok table, w') ->
  GoldenLayer.temp_analysis df = Ok table
  /\ exists es a1 b1 a2 b2 a3 b3 a4 b4,
       w' = add_logs es w
       /\ In (LogCorr "Temperature ↔ PM2.5" a1 b1) es
       /\ In (LogCorr "Temperature ↔ Ozone" a2 b2) es
       /\ In (LogCorr "Humidity ↔ PM2.5" a3 b3) es
       /\ In (LogCorr "Humidity ↔ Ozone" a4 b4) es.
Proof.
  unfold GoldenLayer.analyze_temperature_humidity_relationship. intros H.
  log_step H. log_step H. lift_step H temp Ht. log_step H. log_step H.
  lift_step H c1 Hc1. lift_step H c2 Hc2.
  lift_step H c3 Hc3. lift_step H c4 Hc4.
  log_step H. log_step H. log_step H. log_step H. log_step H.
  apply mret_inv in H as [-> ->].
  split; [done|].
  eexists [_; _; _; _; _; _; _; _; _], _, _, _, _, _, _, _, _.
  split; [reflexivity|]. simpl. repeat split; auto 12.
Qed.

Lemma analyze_hourly_patterns_inv
    (df table : list (string * list (option value))) (w w' : world) :
  GoldenLayer.analyze_hourly_patterns df w = (Ok table, w') ->
  GoldenLayer.hourly_stats df = Ok table
  /\ exists es peak lowest,
       w' = add_logs es w
       /\ GoldenLayer.extreme_hour table qmax = Ok peak
       /\ GoldenLayer.extreme_hour table qmin = Ok lowest
       /\ In (LogHour "Peak PM2.5 hour" peak) es
       /\ In (LogHour "Lowest PM2.5 hour" lowest) es.
Proof.
  unfold GoldenLayer.analyze_hourly_patterns. intros H.
  log_step H. log_step H. lift_step H stats Hs. log_step H.
  lift_step H peak Hp. lift_step H lowest Hl.
  log_step H. log_step H. log_step H.
  apply mret_inv in H as [-> ->].
  split; [done|].
  eexists [_; _; _; _; _; _], peak, lowest.
  split; [reflexivity|]. simpl. repeat split; auto 10.
Qed.

Lemma analyze_precipitation_effect_inv
    (df table : list (string * list (option value))) (w w' : world) :
  GoldenLayer.analyze_precipitation_effect df w = (Ok table, w') ->
  GoldenLayer.precip_analysis df = Ok table
  /\ exists es flags,
       w' = add_logs es w
       /\ get_column table "has_precipitation" = Ok flags
       /\ (both_partitions table flags = true ->
           exists change, In (LogFigure "📊 PM2.5 IMPROVEMENT WITH RAIN" change) es).
Proof.
  unfold GoldenLayer.analyze_precipitation_effect. intros H.
  log_step H. log_step H. lift_step H precip Hp. log_step H.
  lift_step H flags Hf.
  apply bind_inv in H as ([] & w1 & Hif & H).
  apply mret_inv in H as [-> ->].
  split; [done|].
  fold (both_partitions precip flags) in Hif.
  destruct (both_partitions precip flags) eqn:Hboth.
  - lift_step Hif a Ha. lift_step Hif b Hb.
    lift_step Hif no_rain_pm25 Hx. lift_step Hif with_rain_pm25 Hy. lift_step Hif ratio Hr.
    log_step Hif. log_step Hif. apply logger_info_inv in Hif. subst w1.
    eexists [_; _; _; _; _; _], flags.
    split; [reflexivity|]. split; [done|]. intros _.
    eexists. simpl. auto 10.
  - inversion Hif; subst w1.
    eexists [_; _; _], flags.
    split; [reflexivity|]. split; [done|]. congruence.
Qed.

Lemma mapR_named_fst (df : list (string * list (option value)))
    (means : list (string * string)) :
  forall named,
    mapR (fun m : string * string =>
            match numeric df (fst m) with
            | Ok xs => Ok (snd m, xs)
            | Raise e => Raise e
            end) means = Ok named ->
    map fst named = map snd means.
Proof.
  induction means as [|m means IH]; intros named; simpl.
  - intros H. by inversion H.
  - destruct (numeric df (fst m)) as [xs|]; [|done].
    destruct (mapR _ means) as [named'|]; [|done].
    intros H. inversion H; subst. simpl. by rewrite (IH named').
Qed.

(** A grouped and sorted table has the key, the means and the count as
    its columns, and nothing else. *)
Lemma grouped_sorted_columns (df t : list (string * list (option value)))
    (key by_ : string) (means : list (string * string)) :
  (group_by_agg df key means ≫= fun g => sort g by_) = Ok t ->
  columns t = key :: map snd means ++ ["count"].
Proof.
  unfold mbind at 1, result_bind.
  destruct (group_by_agg df key means) as [g|] eqn:Hg; [|done].
  intros Hs.
  apply group_by_agg_inv in Hg as (ks & named & _ & Hnamed & ->).
  apply sort_agg_table in Hs as (s & _ & _ & ->).
  rewrite agg_table_columns. by rewrite (mapR_named_fst _ _ _ Hnamed).
Qed.

Lemma precip_analysis_columns (df t : list (string * list (option value))) :
  GoldenLayer.precip_analysis df = Ok t -> columns t = precip_columns.
Proof.
  unfold GoldenLayer.precip_analysis. unfold mbind at 1, result_bind.
  destruct (numeric df "precipitation"); [|done].
  cbv zeta. intros H. by apply grouped_sorted_columns in H.
Qed.

Lemma wind_analysis_columns (df t : list (string * list (option value))) :
  GoldenLayer.wind_analysis df = Ok t -> columns t = wind_columns.
Proof.
  unfold GoldenLayer.wind_analysis. unfold mbind at 1, result_bind.
  destruct (numeric df "wind_speed_10m"); [|done].
  cbv zeta. intros H. by apply grouped_sorted_columns in H.
Qed.

Lemma hourly_stats_columns (df t : list (string * list (option value))) :
  GoldenLayer.hourly_stats df = Ok t -> columns t = hourly_columns_out.
Proof.
  unfold GoldenLayer.hourly_stats. unfold mbind at 1, result_bind.
  destruct (get_column df "time"); [|done].
  unfold mbind at 1, result_bind.
  destruct (mapR GoldenLayer.hour_cell _); [|done].
  cbv zeta. intros H. by apply grouped_sorted_columns in H.
Qed.

Lemma temp_analysis_columns (df t : list (string * list (option value))) :
  GoldenLayer.temp_analysis df = Ok t -> columns t = temp_columns.
Proof.
  unfold GoldenLayer.temp_analysis. unfold mbind at 1, result_bind.
  destruct (numeric df "temperature_2m"); [|done].
  cbv zeta. intros H. by apply grouped_sorted_columns in H.
Qed.

(** C10: a run of the golden stage that succeeds writes four files and
    nothing else, each holding the table its analysis returned, whose
    columns are the grouping dimension, the means and the count; the
    percentage change of pm2_5 with rain, the six Pearson coefficients and
    the two extreme hours are entries of the log. *)
Theorem golden_outputs
    (base_input_path base_output_path : list string)
    (execution_time : pyobj) (w w' : world) :
  GoldenLayer.calculate_analytics base_input_path base_output_path
    execution_time w = (Ok tt, w') ->
  exists s data precipitation_df wind_df hourly_patterns humidity_df es flags,
    execution_time = PyStr s
    /\ read_parquet_at (files w) (base_input_path ++ [s]) = Ok data
    /\ (GoldenLayer.precip_analysis data = Ok precipitation_df
        /\ GoldenLayer.wind_analysis data = Ok wind_df
        /\ GoldenLayer.hourly_stats data = Ok hourly_patterns
        /\ GoldenLayer.temp_analysis data = Ok humidity_df)
    /\ (columns precipitation_df = precip_columns
        /\ columns wind_df = wind_columns
        /\ columns hourly_patterns = hourly_columns_out
        /\ columns humidity_df = temp_columns)
    /\ files w'
       = <[base_output_path ++ [s; "humidity_df.csv"] := CsvFile humidity_df]>
           (<[base_output_path ++ [s; "hourly_patterns.csv"]
                := CsvFile hourly_patterns]>
              (<[base_output_path ++ [s; "wind.csv"] := CsvFile wind_df]>
                 (<[base_output_path ++ [s; "precipitation.csv"]
                      := CsvFile precipitation_df]> (files w))))
    /\ logs w' = logs w ++ es
    /\ get_column precipitation_df "has_precipitation" = Ok flags
    /\ (both_partitions precipitation_df flags = true ->
        exists change,
          In (LogFigure "📊 PM2.5 IMPROVEMENT WITH RAIN" change) es)
    /\ (exists xs ys, In (LogCorr "Wind Speed ↔ PM2.5" xs ys) es)
    /\ (exists xs ys, In (LogCorr "Wind Speed ↔ PM10" xs ys) es)
    /\ (exists xs ys, In (LogCorr "Temperature ↔ PM2.5" xs ys) es)
    /\ (exists xs ys, In (LogCorr "Temperature ↔ Ozone" xs ys) es)
    /\ (exists xs ys, In (LogCorr "Humidity ↔ PM2.5" xs ys) es)
    /\ (exists xs ys, In (LogCorr "Humidity ↔ Ozone" xs ys) es)
    /\ (exists h, In (LogHour "Peak PM2.5 hour" h) es)
    /\ (exists h, In (LogHour "Lowest PM2.5 hour" h) es).
Proof.
  unfold GoldenLayer.calculate_analytics. intros H.
  apply bind_inv in H as (run_path & w0 & Hpath & H).
  apply lift_inv in Hpath as [Hpath ->].
  destruct execution_time as [s|d]; [|discriminate].
  cbn [path_div] in Hpath. inversion Hpath; subst run_path; clear Hpath.
  apply bind_inv in H as (data & w0 & Hread & H).
  unfold read_parquet in Hread. inversion Hread as [[Hdata Hw0]].
  subst w0. clear Hread.
  apply bind_inv in H as (t1 & w1 & H1 & H).
  apply bind_inv in H as (t2 & w2 & H2 & H).
  apply bind_inv in H as (t3 & w3 & H3 & H).
  apply bind_inv in H as (t4 & w4 & H4 & H).
  apply analyze_precipitation_effect_inv in H1
    as (Ht1 & es1 & flags & -> & Hflags & Hfig).
  pose proof (analyze_wind_effect_inv _ _ _ _ H2) as Ht2.
  apply analyze_wind_effect_logs in H2
    as (es2 & xa & ya & xb & yb & -> & Hwa & Hwb).
  apply analyze_hourly_patterns_inv in H3
    as (Ht3 & es3 & peak & lowest & -> & _ & _ & Hpeak & Hlow).
  apply analyze_temperature_inv in H4
    as (Ht4 & es4 & a1 & b1 & a2 & b2 & a3 & b3 & a4 & b4 & -> & Hc1 & Hc2
        & Hc3 & Hc4).
  rewrite !add_logs_app in H.
  match type of H with
  | context [add_logs ?l w] => remember l as es eqn:Hes
  end.
  destruct (add_logs_spec es w) as (Hfiles & _ & Hlogs & _).
  apply bind_inv in H as (output_path & w5 & Hout & H).
  unfold GoldenLayer._get_output_path in Hout. cbn [path_div] in Hout.
  apply bind_inv in Hout as (p & w6 & Hp & Hout).
  apply lift_inv in Hp as [Hp ->]. inversion Hp; subst p; clear Hp.
  apply bind_inv in Hout as ([] & w6 & Hmk & Hout).
  inversion Hmk; subst w6; clear Hmk.
  apply mret_inv in Hout as [-> ->].
  apply bind_inv in H as ([] & w6 & Hw1 & H).
  apply write_file_inv in Hw1 as [_ ->].
  apply bind_inv in H as ([] & w7 & Hw2 & H).
  apply write_file_inv in Hw2 as [_ ->].
  apply bind_inv in H as ([] & w8 & Hw3 & H).
  apply write_file_inv in Hw3 as [_ ->].
  apply write_file_inv in H as [_ ->].
  exists s, data, t1, t2, t3, t4, es, flags.
  split; [done|]. split; [done|]. split; [done|].
  split.
  { split; [by apply (precip_analysis_columns data)|].
    split; [by apply (wind_analysis_columns data)|].
    split; [by apply (hourly_stats_columns data)
           | by apply (temp_analysis_columns data)]. }
  split.
  { cbn [files set_files set_dirs mkdir_parents snd]. rewrite Hfiles.
    unfold path_div_str. by rewrite <- !app_assoc. }
  split.
  { cbn [logs set_files set_dirs mkdir_parents snd]. exact Hlogs. }
  split; [done|].
  assert (Hin : forall e, In e es1 \/ In e es2 \/ In e es3 \/ In e es4
                          -> In e es).
  { intros e. subst es. rewrite !in_app_iff. tauto. }
  split.
  { intros Hb. destruct (Hfig Hb) as [c Hc]. exists c. apply Hin. tauto. }
  repeat split; eexists; try eexists; apply Hin; eauto.
Qed.

Lemma golden_outputs_witness :
  fst (GoldenLayer.calculate_analytics ["sv"] ["gd"] (PyStr "2024-01-01")
         (golden_world two_hours)) = Ok tt
  /\ exists precipitation_df xs ys,
       files (snd (GoldenLayer.calculate_analytics ["sv"] ["gd"]
                     (PyStr "2024-01-01") (golden_world two_hours)))
         !! ["gd"; "2024-01-01"; "precipitation.csv"]
       = Some (CsvFile precipitation_df)
       /\ columns precipitation_df = precip_columns
       /\ In (LogCorr "Wind Speed ↔ PM2.5" xs ys)
             (logs (snd (GoldenLayer.calculate_analytics ["sv"] ["gd"]
                           (PyStr "2024-01-01") (golden_world two_hours)))).
Proof.
  destruct (golden_outputs ["sv"] ["gd"] (PyStr "2024-01-01")
              (golden_world two_hours)
              (snd (GoldenLayer.calculate_analytics ["sv"] ["gd"]
                      (PyStr "2024-01-01") (golden_world two_hours))))
    as (s & data & t1 & t2 & t3 & t4 & es & flags & Hs & _
        & _ & (Hc1 & _) & Hfiles & Hlogs & _ & _ & (xs & ys & Hcorr) & _).
  { vm_compute. reflexivity. }
  assert (Hs' : s = "2024-01-01") by congruence. subst s.
  split; [vm_compute; reflexivity|].
  exists t1, xs, ys. split; [|split].
  - rewrite Hfiles.
    rewrite lookup_insert_ne by discriminate.
    rewrite lookup_insert_ne by discriminate.
    rewrite lookup_insert_ne by discriminate.
    apply lookup_insert_eq.
  - exact Hc1.
  - rewrite Hlogs. apply in_or_app. by right.
Defined.

(** ** Strings and path segments *)

Lemma append_length (a b : string) :
  String.length (a ++ b) = (String.length a + String.length b)%nat.
Proof. induction a as [|c a IH]; simpl; [done | by rewrite IH]. Qed.

Lemma append_inj_l (suffix a b : string) :
  (a ++ suffix)%string = (b ++ suffix)%string -> a = b.
Proof.
  intros H.
  assert (Hlen : String.length a = String.length b).
  { apply (f_equal String.length) in H. rewrite !append_length in H. lia. }
  revert b H Hlen. induction a as [|c a IH]; intros [|c' b] H Hlen;
    simpl in *; try done.
  inversion H; subst. f_equal. apply IH; [done | lia].
Qed.

Lemma append_inj_r (a x y : string) :
  (a ++ x)%string = (a ++ y)%string -> x = y.
Proof.
  induction a as [|c a IH]; simpl; [done|]. intros H. inversion H. auto.
Qed.

Lemma last_differs (l l' : list string) (x y : string) :
  x <> y -> l ++ [x] <> l' ++ [y].
Proof. intros Hxy H. apply app_inj_tail in H as [_ H]. done. Qed.

(** ** The fetcher and the rest of the landing zone *)

Lemma get_data_from_api_files
    (api_url : string) (indicators : list string) (latitude longitude : Q)
    (city_name : string) (write_path p : list string) (w : world) :
  p <> write_path ++ [(city_name ++ ".json")%string] ->
  files (snd (LandingZone._get_data_from_api api_url indicators
                latitude longitude city_name write_path w)) !! p
  = files w !! p.
Proof.
  intros Hp. unfold LandingZone._get_data_from_api.
  erewrite bind_ok by reflexivity.
  destruct (Z.eqb _ 200); [|done].
  unfold open_w, file_write, write_file, mbind, M_bind, lift, path_div_str.
  destruct (decide (parent _ ∈ dirs w)) as [Hd|Hd]; [|done].
  destruct (decode_utf8 _) as [text|]; cbn [files set_files dirs].
  - rewrite decide_True by done. cbn [snd files set_files].
    by rewrite !lookup_insert_ne.
  - cbn [snd files set_files]. by rewrite lookup_insert_ne.
Qed.

(** X1: whatever its outcome, a fetch changes no file other than the
    landing file of its own run, indicator-set and city. *)
Theorem fetch_touches_only_its_file
    (k : indicator_set) (landing : list string) (s : string)
    (latitude longitude : Q) (city_name : string) (p : list string)
    (w : world) :
  p <> landing ++ [s; prefix_of k; (city_name ++ ".json")%string] ->
  files (snd (fetch k landing (PyStr s) latitude longitude city_name w)) !! p
  = files w !! p.
Proof.
  intros Hp.
  assert (Hp' : p <> (landing ++ [s; prefix_of k])
                     ++ [(city_name ++ ".json")%string])
    by (by rewrite <- app_assoc).
  destruct k; unfold fetch, LandingZone.query_weather_api,
    LandingZone.query_air_quality_api;
    (erewrite bind_ok by reflexivity);
    (erewrite bind_ok by apply get_path_to_write_run);
    by rewrite get_data_from_api_files.
Qed.

Lemma fetch_touches_only_its_file_witness :
  files (snd (fetch Weather ["lz"] (PyStr "2024-01-01") (50#1) (30#1)
                "Sevastopol" (gateway_world 200 "{}")))
    !! ["lz"; "Kyiv.json"]
  = Some (TextFile "old").
Proof.
  rewrite (fetch_touches_only_its_file Weather ["lz"] "2024-01-01"
             (50#1) (30#1) "Sevastopol" ["lz"; "Kyiv.json"]
             (gateway_world 200 "{}")).
  - reflexivity.
  - discriminate.
Defined.

(** X2: a fetch that is answered with a status other than 200 raises
    after the partition directory was made: the directory exists
    afterwards, and no file was written or changed. *)
Theorem failed_fetch_leaves_empty_partition
    (k : indicator_set) (landing : list string) (s : string)
    (latitude longitude : Q) (city_name : string) (w : world) :
  status_code (upstream w (request_of k latitude longitude)) <> 200 ->
  fst (fetch k landing (PyStr s) latitude longitude city_name w)
    = Raise (HTTPError "Incorrect status code")
  /\ files (snd (fetch k landing (PyStr s) latitude longitude city_name w))
     = files w
  /\ landing ++ [s; prefix_of k]
     ∈ dirs (snd (fetch k landing (PyStr s) latitude longitude city_name w)).
Proof.
  intros Hst.
  set (w0 := snd (mkdir_parents (landing ++ [s; prefix_of k])
                    (add_log (LogInfo (match k with
                                       | Weather => "Getting weather data for "
                                       | AirQuality => "Getting air quality data for "
                                       end ++ city_name)) w))).
  destruct (get_data_from_api_by_status
              (req_url (request_of k latitude longitude))
              (req_hourly (request_of k latitude longitude))
              latitude longitude city_name (landing ++ [s; prefix_of k]) w0)
    as [Hfail _].
  assert (Hrun :
    fetch k landing (PyStr s) latitude longitude city_name w
    = (Raise (HTTPError "Incorrect status code"), w0)).
  { rewrite <- Hfail by (by destruct k).
    destruct k; unfold fetch, LandingZone.query_weather_api,
      LandingZone.query_air_quality_api;
      (erewrite bind_ok by reflexivity);
      (erewrite bind_ok by apply get_path_to_write_run); reflexivity. }
  rewrite Hrun. repeat split.
  apply (mkdir_parents_has (landing ++ [s; prefix_of k])).
Qed.

Lemma failed_fetch_leaves_empty_partition_witness :
  fst (fetch AirQuality ["lz"] (PyStr "2024-01-01") (50#1) (30#1) "Kyiv"
         (gateway_world 503 "Service Unavailable"))
    = Raise (HTTPError "Incorrect status code")
  /\ files (snd (fetch AirQuality ["lz"] (PyStr "2024-01-01") (50#1) (30#1)
                   "Kyiv" (gateway_world 503 "Service Unavailable")))
     = files (gateway_world 503 "Service Unavailable")
  /\ ["lz"; "2024-01-01"; "air_quality_data"]
     ∈ dirs (snd (fetch AirQuality ["lz"] (PyStr "2024-01-01") (50#1) (30#1)
                    "Kyiv" (gateway_world 503 "Service Unavailable"))).
Proof.
  apply (failed_fetch_leaves_empty_partition AirQuality ["lz"] "2024-01-01"
           (50#1) (30#1) "Kyiv" (gateway_world 503 "Service Unavailable")).
  discriminate.
Defined.

(** ** The bronze transformer, case by case *)

(** What a transform returns on a string execution time, by the state of
    the landing file. *)
Lemma transform_core_cases (json_loads : string -> option json)
    (landing bronze : list string) (city_name s prefix : string) (w : world) :
  BronzeLayer._transform_json_data_to_parquet json_loads landing bronze
    city_name (PyStr s) prefix w
  = match files w !! (landing ++ [s; prefix; (city_name ++ ".json")%string]) with
    | None => (Raise FileNotFoundError, w)
    | Some (TextFile bytes) =>
        if utf8_valid bytes then
          match json_loads bytes with
          | None => (Raise JSONDecodeError, w)
          | Some doc =>
              match BronzeLayer.content_df doc city_name with
              | Raise e => (Raise e, w)
              | Ok df =>
                  (Ok tt,
                   set_files
                     (<[bronze ++ [s; prefix; (city_name ++ ".parquet")%string]
                          := ParquetFile df]> (files w))
                     (snd (mkdir_parents (bronze ++ [s; prefix]) w)))
              end
          end
        else (Raise UnicodeDecodeError, w)
    | Some _ => (Raise UnicodeDecodeError, w)
    end.
Proof.
  unfold BronzeLayer._transform_json_data_to_parquet.
  rewrite bronze_input_path_run.
  erewrite bind_ok by reflexivity.
  unfold read_text at 1. unfold mbind at 1, M_bind at 1.
  destruct (files w !! _) as [[bytes| |]|]; try done.
  unfold decode_utf8. destruct (utf8_valid bytes); [|done].
  unfold mbind at 1, M_bind at 1, lift at 1, BronzeLayer.json_load.
  destruct (json_loads bytes) as [doc|]; [|done].
  unfold mbind at 1, M_bind at 1, lift at 1.
  destruct (BronzeLayer.content_df doc city_name) as [df|e]; [|done].
  erewrite bind_ok by apply bronze_output_path_run.
  unfold write_parquet. rewrite write_file_ok; cycle 1.
  { rewrite parent_path_div_str. apply mkdir_parents_has. }
  unfold path_div_str. by rewrite <- app_assoc.
Qed.

Lemma transform_unfold (json_loads : string -> option json)
    (k : indicator_set) (landing bronze : list string) (city_name : string)
    (execution_time : pyobj) (w : world) :
  exists msg,
    transform json_loads k landing bronze city_name execution_time w
    = BronzeLayer._transform_json_data_to_parquet json_loads landing bronze
        city_name execution_time (prefix_of k) (add_log (LogInfo msg) w).
Proof.
  destruct k; eexists; unfold transform,
    BronzeLayer.transform_weather_data_to_parquet,
    BronzeLayer.transform_air_quality_data_to_parquet;
    (erewrite bind_ok by reflexivity); reflexivity.
Qed.


(** X4: the errors of a transform.  With nothing at the landing path of
    the run, indicator-set and city it raises [FileNotFoundError]; on a landing
    document that is an object without the key [hourly] it raises
    [KeyError]; on a document that is not an object it raises
    [TypeError]. *)
Theorem transform_errors
    (json_loads : string -> option json) (k : indicator_set)
    (landing bronze : list string) (city_name s : string) (w : world) :
  (landing ++ [s; prefix_of k; (city_name ++ ".json")%string] ∉ dirs w ->
   files w !! (landing ++ [s; prefix_of k; (city_name ++ ".json")%string])
     = None ->
   fst (transform json_loads k landing bronze city_name (PyStr s) w)
   = Raise FileNotFoundError)
  /\ (forall bytes doc,
        files w !! (landing ++ [s; prefix_of k; (city_name ++ ".json")%string])
          = Some (TextFile bytes) ->
        utf8_valid bytes = true ->
        json_loads bytes = Some doc ->
        (forall fields, doc = JObj fields ->
                        dict_get fields "hourly" = Raise KeyError) ->
        fst (transform json_loads k landing bronze city_name (PyStr s) w)
        = Raise (match doc with JObj _ => KeyError | _ => TypeError end)).
Proof.
  destruct (transform_unfold json_loads k landing bronze city_name
              (PyStr s) w) as [msg ->].
  rewrite transform_core_cases. cbn [files add_log]. split.
  - by intros _ ->.
  - intros bytes doc -> -> -> Hkey.
    unfold BronzeLayer.content_df.
    destruct doc as [| | | | |fields]; try done.
    cbn [getitem]. by rewrite (Hkey fields eq_refl).
Qed.

Lemma transform_errors_witness :
  fst (transform toy_loads Weather ["lz"] ["bz"] "Lviv" (PyStr "2024-01-01")
         (landed_world "{}"))
    = Raise FileNotFoundError
  /\ fst (transform toy_loads Weather ["lz"] ["bz"] "Kyiv" (PyStr "2024-01-01")
            (landed_world "{}"))
     = Raise KeyError
  /\ fst (transform toy_loads Weather ["lz"] ["bz"] "Kyiv" (PyStr "2024-01-01")
            (landed_world "[]"))
     = Raise TypeError.
Proof.
  split; [|split].
  - apply (transform_errors toy_loads Weather ["lz"] ["bz"] "Lviv"
             "2024-01-01" (landed_world "{}")).
    + apply not_elem_of_empty.
    + reflexivity.
  - apply (proj2 (transform_errors toy_loads Weather ["lz"] ["bz"] "Kyiv"
                    "2024-01-01" (landed_world "{}")) "{}" (JObj [])).
    + reflexivity.
    + reflexivity.
    + reflexivity.
    + intros fields H. inversion H. reflexivity.
  - apply (proj2 (transform_errors toy_loads Weather ["lz"] ["bz"] "Kyiv"
                    "2024-01-01" (landed_world "[]")) "[]" (JArr [])).
    + reflexivity.
    + reflexivity.
    + reflexivity.
    + discriminate.
Defined.


(** X5: what a successful fetch-then-transform leaves behind.  The
    landing file holds the body of the response, the bronze file holds the
    table built from the document that body parses to and from the city
    name, and no other file has changed. *)
Theorem fetch_then_transform_result
    (json_loads : string -> option json) (k : indicator_set)
    (landing bronze : list string) (execution_time : pyobj)
    (latitude longitude : Q) (city_name : string) (w w1 : world) :
  fetch_then_transform json_loads k landing bronze execution_time
    latitude longitude city_name w = (Ok tt, w1) ->
  exists s doc df,
    execution_time = PyStr s
    /\ status_code (upstream w (request_of k latitude longitude)) = 200
    /\ json_loads (content (upstream w (request_of k latitude longitude)))
       = Some doc
    /\ BronzeLayer.content_df doc city_name = Ok df
    /\ files w1 !! (landing ++ [s; prefix_of k; (city_name ++ ".json")%string])
       = Some (TextFile (content (upstream w (request_of k latitude longitude))))
    /\ files w1 !! (bronze ++ [s; prefix_of k; (city_name ++ ".parquet")%string])
       = Some (ParquetFile df)
    /\ forall p,
         p <> landing ++ [s; prefix_of k; (city_name ++ ".json")%string] ->
         p <> bronze ++ [s; prefix_of k; (city_name ++ ".parquet")%string] ->
         files w1 !! p = files w !! p.
Proof.
  intros Hrun. unfold fetch_then_transform in Hrun.
  apply bind_inv in Hrun as ([] & wa & Hfetch & Htrans).
  assert (Hs : exists s, execution_time = PyStr s).
  { destruct execution_time as [s|d]; [eauto|]. destruct k; discriminate. }
  destruct Hs as [s ->].
  destruct (fetch_inv k landing s latitude longitude city_name _ w wa Hfetch
              eq_refl) as (Hst & Hutf & Hfa & Hua).
  destruct (transform_inv json_loads k landing bronze s city_name wa w1 Htrans)
    as (bytes & doc & df & Hfile & Hutf' & Hjson & Hdf & Hf1 & Hu1).
  rewrite Hfa, lookup_insert_eq in Hfile. inversion Hfile; subst bytes.
  exists s, doc, df. repeat split; try done.
  - rewrite Hf1, Hfa. rewrite lookup_insert_ne; [apply lookup_insert_eq|].
    change [s; prefix_of k; (city_name ++ ".parquet")%string]
      with ([s; prefix_of k] ++ [(city_name ++ ".parquet")%string]).
    change [s; prefix_of k; (city_name ++ ".json")%string]
      with ([s; prefix_of k] ++ [(city_name ++ ".json")%string]).
    rewrite !app_assoc. apply last_differs.
    intros H. apply append_inj_r in H. discriminate.
  - by rewrite Hf1, lookup_insert_eq.
  - intros p Hl Hb. rewrite Hf1, Hfa. by rewrite !lookup_insert_ne.
Qed.

Lemma fetch_then_transform_result_witness :
  exists df,
    files (snd (fetch_then_transform kyiv_loads AirQuality ["lz"] ["bz"]
                  (PyStr "2024-01-01") (50#1) (30#1) "Kyiv" kyiv_world))
      !! ["bz"; "2024-01-01"; "air_quality_data"; "Kyiv.parquet"]
    = Some (ParquetFile df)
    /\ BronzeLayer.content_df kyiv_document "Kyiv" = Ok df.
Proof.
  destruct (fetch_then_transform_result kyiv_loads AirQuality ["lz"] ["bz"]
              (PyStr "2024-01-01") (50#1) (30#1) "Kyiv" kyiv_world
              (snd (fetch_then_transform kyiv_loads AirQuality ["lz"] ["bz"]
                      (PyStr "2024-01-01") (50#1) (30#1) "Kyiv" kyiv_world)))
    as (s & doc & df & Hs & _ & Hjson & Hdf & _ & Hb & _).
  { vm_compute. reflexivity. }
  assert (Hs' : s = "2024-01-01") by congruence. subst s.
  assert (Hdoc : doc = kyiv_document).
  { change (Some kyiv_document = Some doc) in Hjson. congruence. }
  subst doc. exists df. split; [exact Hb | exact Hdf].
Defined.

(** X6: the three stages that take the execution time as a string refuse
    a datetime as a whole: the fetch, the transform and the golden stage
    each raise [TypeError] before they make a directory or touch a
    file. *)
Theorem string_stages_refuse_datetime
    (json_loads : string -> option json) (k : indicator_set)
    (base_in base_out : list string) (d : datetime)
    (latitude longitude : Q) (city_name : string) (w : world) :
  (fst (fetch k base_out (PyDatetime d) latitude longitude city_name w)
     = Raise TypeError
   /\ files (snd (fetch k base_out (PyDatetime d) latitude longitude
                    city_name w)) = files w
   /\ dirs (snd (fetch k base_out (PyDatetime d) latitude longitude
                   city_name w)) = dirs w)
  /\ (fst (transform json_loads k base_in base_out city_name (PyDatetime d) w)
        = Raise TypeError
      /\ files (snd (transform json_loads k base_in base_out city_name
                       (PyDatetime d) w)) = files w
      /\ dirs (snd (transform json_loads k base_in base_out city_name
                      (PyDatetime d) w)) = dirs w)
  /\ (fst (GoldenLayer.calculate_analytics base_in base_out (PyDatetime d) w)
        = Raise TypeError
      /\ snd (GoldenLayer.calculate_analytics base_in base_out (PyDatetime d) w)
         = w).
Proof. destruct k; repeat split. Qed.

(** ** Bronze tables as operands of the join *)





(** ** More on the merge stage *)

(** X8: given the execution time as a string and at least one prefix,
    the merge raises
    [AttributeError] on the first prefix; no directory is made and no file
    is written. *)
Theorem merge_refuses_string_time
    (str_to_datetime : string -> option Z)
    (base_input_path base_output_path : list string)
    (p0 : string) (ps : list string) (s : string) (w : world) :
  fst (SilverLayer.merge_and_clean_dataframes str_to_datetime
         base_input_path base_output_path (p0 :: ps) (PyStr s) w)
    = Raise AttributeError
  /\ files (snd (SilverLayer.merge_and_clean_dataframes str_to_datetime
                   base_input_path base_output_path (p0 :: ps) (PyStr s) w))
     = files w
  /\ dirs (snd (SilverLayer.merge_and_clean_dataframes str_to_datetime
                  base_input_path base_output_path (p0 :: ps) (PyStr s) w))
     = dirs w.
Proof. repeat split. Qed.

Lemma merge_inv (str_to_datetime : string -> option Z)
    (base_input_path base_output_path : list string)
    (prefixes : list string) (execution_time : pyobj) (w w1 : world) :
  SilverLayer.merge_and_clean_dataframes str_to_datetime
    base_input_path base_output_path prefixes execution_time w = (Ok tt, w1) ->
  exists d out,
    execution_time = PyDatetime d
    /\ files w1
       = <[base_output_path
             ++ [isoformat d;
                 (uuid_source w (uuid_drawn w) ++ ".parquet")%string]
           := ParquetFile out]> (files w)
    /\ uuid_source w1 = uuid_source w
    /\ uuid_drawn w1 = S (uuid_drawn w).
Proof.
  unfold SilverLayer.merge_and_clean_dataframes. intros H.
  apply bind_inv in H as ([] & w0 & Hlog & H).
  inversion Hlog; subst w0; clear Hlog.
  apply bind_inv in H as (dfs & w0 & Hdfs & H).
  apply lift_inv in Hdfs as [_ ->].
  apply bind_inv in H as (joint & w0 & Hj & H).
  apply lift_inv in Hj as [_ ->].
  apply bind_inv in H as (out_dir & w0 & Hdir & H).
  destruct execution_time as [s|d]; [discriminate|].
  rewrite silver_output_path_run in Hdir.
  inversion Hdir; subst out_dir w0; clear Hdir.
  apply bind_inv in H as (uid & w0 & Hu & H).
  inversion Hu; subst uid w0; clear Hu.
  unfold sink_parquet in H.
  destruct (collect _ _ _) as [out|]; [|discriminate].
  apply write_file_inv in H as [_ ->].
  exists d, out. split; [done|]. split; [|done].
  cbn. unfold path_div_str. by rewrite <- app_assoc.
Qed.

(** X9: the merge is not idempotent on files.  Every successful merge
    draws the next random identifier and adds one file of that name under
    the silver directory of the run; a second successful merge, when its
    identifier differs, leaves the first file in place beside its own. *)
Theorem merge_twice_leaves_two_files
    (str_to_datetime : string -> option Z)
    (base_input_path base_output_path : list string)
    (prefixes : list string) (execution_time : pyobj) (w w1 w2 : world) :
  SilverLayer.merge_and_clean_dataframes str_to_datetime
    base_input_path base_output_path prefixes execution_time w = (Ok tt, w1) ->
  SilverLayer.merge_and_clean_dataframes str_to_datetime
    base_input_path base_output_path prefixes execution_time w1 = (Ok tt, w2) ->
  uuid_source w (uuid_drawn w) <> uuid_source w (S (uuid_drawn w)) ->
  exists d first second,
    execution_time = PyDatetime d
    /\ files w1
         !! (base_output_path
               ++ [isoformat d;
                   (uuid_source w (uuid_drawn w) ++ ".parquet")%string])
       = Some (ParquetFile first)
    /\ files w2
         !! (base_output_path
               ++ [isoformat d;
                   (uuid_source w (uuid_drawn w) ++ ".parquet")%string])
       = Some (ParquetFile first)
    /\ files w2
         !! (base_output_path
               ++ [isoformat d;
                   (uuid_source w (S (uuid_drawn w)) ++ ".parquet")%string])
       = Some (ParquetFile second).
Proof.
  intros H1 H2 Hne.
  apply merge_inv in H1 as (d & first & -> & Hf1 & Hs1 & Hd1).
  apply merge_inv in H2 as (d' & second & Hd & Hf2 & _).
  inversion Hd; subst d'. rewrite Hs1, Hd1 in Hf2.
  exists d, first, second. split; [done|]. split; [|split].
  - by rewrite Hf1, lookup_insert_eq.
  - rewrite Hf2, Hf1. rewrite lookup_insert_ne; [apply lookup_insert_eq|].
    change [isoformat d; (uuid_source w (S (uuid_drawn w)) ++ ".parquet")%string]
      with ([isoformat d]
            ++ [(uuid_source w (S (uuid_drawn w)) ++ ".parquet")%string]).
    change [isoformat d; (uuid_source w (uuid_drawn w) ++ ".parquet")%string]
      with ([isoformat d]
            ++ [(uuid_source w (uuid_drawn w) ++ ".parquet")%string]).
    rewrite !app_assoc. apply last_differs.
    intros H. apply append_inj_l in H. by apply Hne.
  - by rewrite Hf2, lookup_insert_eq.
Qed.

(** X10: the order of the prefixes decides the order of the columns, not
    the rows that survive: the batches joined in any other order give a
    table with the same (timestamp, city) keys. *)
Theorem merged_keys_do_not_depend_on_order
    (b0 c0 : list (string * list (option value)))
    (bs cs : list (list (string * list (option value))))
    (joint joint' : list (string * list (option value))) :
  Permutation (b0 :: bs) (c0 :: cs) ->
  join_all b0 bs = Ok joint ->
  join_all c0 cs = Ok joint' ->
  forall t c, has_key joint t c <-> has_key joint' t c.
Proof.
  intros Hperm Hj Hj' t c.
  rewrite (join_all_keys _ _ _ Hj t c), (join_all_keys _ _ _ Hj' t c).
  split; intros H.
  - by apply (Permutation_Forall Hperm).
  - by apply (Permutation_Forall (Permutation_sym Hperm)).
Qed.

Lemma merged_keys_do_not_depend_on_order_witness :
  has_key (table_of (join_all weather_two_hours [air_one_hour], quiet_world))
          "2024-01-01T00:00" "Kyiv"
  <-> has_key (table_of (join_all air_one_hour [weather_two_hours],
                         quiet_world)) "2024-01-01T00:00" "Kyiv".
Proof.
  apply (merged_keys_do_not_depend_on_order
           weather_two_hours air_one_hour [air_one_hour] [weather_two_hours]
           (table_of (join_all weather_two_hours [air_one_hour], quiet_world))
           (table_of (join_all air_one_hour [weather_two_hours], quiet_world))).
  - apply perm_swap.
  - reflexivity.
  - reflexivity.
Defined.

Lemma cast_datetime_columns (str_to_datetime : string -> option Z)
    (df out : list (string * list (option value))) :
  cast_datetime str_to_datetime df "time" = Ok out ->
  columns out = columns df.
Proof.
  unfold cast_datetime. unfold mbind at 1, result_bind.
  destruct (get_column df "time") as [s|] eqn:Hs; [|done].
  unfold mbind at 1, result_bind.
  destruct (mapR _ s) as [s'|]; [|done].
  intros H. inversion H; subst out. rewrite columns_set_column.
  assert (Hin : str_in "time" (columns df) = true).
  { apply str_in_In. clear -Hs.
    induction df as [|[n s0] df IH]; [done|]. cbn [get_column] in Hs.
    cbn [columns map fst].
    destruct (String.eqb_spec n "time") as [->|Hne]; [by left|].
    right. by apply IH. }
  by rewrite Hin.
Qed.

(** X11: when the batches share no column name beside the keys, the
    merged table has the columns of the first batch followed by the other
    columns of every further batch, in the order of the prefixes, and no
    column is renamed. *)
Theorem merged_columns
    (str_to_datetime : string -> option Z)
    (b0 : list (string * list (option value)))
    (bs : list (list (string * list (option value))))
    (out : list (string * list (option value))) :
  merged str_to_datetime b0 bs = Ok out ->
  List.NoDup (columns b0 ++ concat (map payload bs)) ->
  columns out = columns b0 ++ concat (map payload bs).
Proof.
  intros Hm Hnd. apply merged_inv in Hm as (joint & Hj & Hcast).
  rewrite (cast_datetime_columns _ _ _ Hcast).
  destruct bs as [|b bs].
  - simpl in *. inversion Hj. by rewrite app_nil_r.
  - destruct (join_all_has_key_columns bs b0 b joint Hj) as [Hall _].
    inversion Hall as [|? ? H0 Hrest]; subst.
    destruct (join_all_run (b :: bs) b0 H0 Hrest Hnd) as (j & Hj' & _ & Hcols).
    rewrite Hj in Hj'. inversion Hj'; by subst.
Qed.

Lemma merged_columns_witness :
  columns (table_of (merged sample_clock weather_two_hours [air_one_hour],
                     quiet_world))
  = ["time"; "precipitation"; "city_name"; "pm2_5"].
Proof.
  apply (merged_columns sample_clock weather_two_hours [air_one_hour]).
  - reflexivity.
  - repeat constructor; simpl; intuition discriminate.
Defined.

Lemma merge_twice_leaves_two_files_witness :
  exists first second,
    files (snd (SilverLayer.merge_and_clean_dataframes sample_clock
                  ["bz"] ["sv"] ["weather_data"; "air_quality_data"]
                  (PyDatetime new_year)
                  (snd (SilverLayer.merge_and_clean_dataframes sample_clock
                          ["bz"] ["sv"] ["weather_data"; "air_quality_data"]
                          (PyDatetime new_year) silver_world_two_ids))))
      !! ["sv"; "2024-01-01T00:00:00"; "0f8fad5b.parquet"]
    = Some (ParquetFile first)
    /\ files (snd (SilverLayer.merge_and_clean_dataframes sample_clock
                     ["bz"] ["sv"] ["weather_data"; "air_quality_data"]
                     (PyDatetime new_year)
                     (snd (SilverLayer.merge_and_clean_dataframes sample_clock
                             ["bz"] ["sv"] ["weather_data"; "air_quality_data"]
                             (PyDatetime new_year) silver_world_two_ids))))
         !! ["sv"; "2024-01-01T00:00:00"; "7c9e6679.parquet"]
       = Some (ParquetFile second).
Proof.
  destruct (merge_twice_leaves_two_files sample_clock ["bz"] ["sv"]
              ["weather_data"; "air_quality_data"] (PyDatetime new_year)
              silver_world_two_ids
              (snd (SilverLayer.merge_and_clean_dataframes sample_clock
                      ["bz"] ["sv"] ["weather_data"; "air_quality_data"]
                      (PyDatetime new_year) silver_world_two_ids))
              (snd (SilverLayer.merge_and_clean_dataframes sample_clock
                      ["bz"] ["sv"] ["weather_data"; "air_quality_data"]
                      (PyDatetime new_year)
                      (snd (SilverLayer.merge_and_clean_dataframes sample_clock
                              ["bz"] ["sv"] ["weather_data"; "air_quality_data"]
                              (PyDatetime new_year) silver_world_two_ids)))))
    as (d & first & second & Hd & _ & H1 & H2).
  - vm_compute. reflexivity.
  - vm_compute. reflexivity.
  - discriminate.
  - assert (Hd' : d = new_year) by congruence. subst d.
    exists first, second. split; [exact H1 | exact H2].
Defined.

(** X12: with one prefix the merge joins nothing: it reads the one
    batch, casts its time column and writes the result, whether or not the
    batch has a city column. *)
Theorem merge_single_prefix
    (str_to_datetime : string -> option Z)
    (base_input_path base_output_path : list string) (d : datetime)
    (p0 : string) (b0 out : list (string * list (option value))) (w : world) :
  read_parquet_at (files w) (base_input_path ++ [isoformat d; p0]) = Ok b0 ->
  cast_datetime str_to_datetime b0 "time" = Ok out ->
  exists w',
    SilverLayer.merge_and_clean_dataframes str_to_datetime
      base_input_path base_output_path [p0] (PyDatetime d) w = (Ok tt, w')
    /\ files w'
       = <[base_output_path
             ++ [isoformat d;
                 (uuid_source w (uuid_drawn w) ++ ".parquet")%string]
           := ParquetFile out]> (files w).
Proof.
  intros Hread Hcast.
  apply (merge_run str_to_datetime base_input_path base_output_path d p0 []).
  unfold merge_plan. cbn [map fold_left collect]. by rewrite Hread.
Qed.

Lemma merge_single_prefix_witness :
  exists w',
    SilverLayer.merge_and_clean_dataframes sample_clock ["bz"] ["sv"]
      ["air_quality_data"] (PyDatetime new_year) silver_world = (Ok tt, w')
    /\ files w'
       = <[ ["sv"; "2024-01-01T00:00:00"; "0f8fad5b.parquet"]
            := ParquetFile
                 [("time", [Some (VTime 1704067200000000)]);
                  ("pm2_5", [num 10]); ("city_name", [kyiv])] ]>
           (files silver_world).
Proof.
  apply (merge_single_prefix sample_clock ["bz"] ["sv"] new_year
           "air_quality_data" air_one_hour).
  - reflexivity.
  - reflexivity.
Defined.

(** ** The golden stage writes last *)

Lemma log_only_bind {A B} (m : M A) (f : A -> M B) :
  log_only m -> (forall a, log_only (f a)) -> log_only (m ≫= f).
Proof.
  intros Hm Hf w. unfold mbind, M_bind.
  destruct (Hm w) as [Hfm Hdm].
  destruct (m w) as [[a|e] w1]; simpl in *.
  - destruct (Hf a w1) as [Hff Hdf]. by rewrite Hff, Hdf.
  - done.
Qed.

Lemma log_only_logger (e : log_entry) : log_only (logger_info e).
Proof. by intros w. Qed.

Lemma log_only_lift {A} (r : result A) : log_only (lift r).
Proof. by intros w. Qed.

Lemma log_only_mret {A} (a : A) : log_only (mret a : M A).
Proof. by intros w. Qed.

Ltac log_only_tac :=
  repeat first
    [ apply log_only_logger
    | apply log_only_lift
    | apply log_only_mret
    | apply log_only_bind; [|intros ?]
    | match goal with
      | |- log_only (if ?c then _ else _) => destruct c
      end ].

Lemma analyses_log_only (df : list (string * list (option value))) :
  log_only (GoldenLayer.analyze_precipitation_effect df)
  /\ log_only (GoldenLayer.analyze_wind_effect df)
  /\ log_only (GoldenLayer.analyze_hourly_patterns df)
  /\ log_only (GoldenLayer.analyze_temperature_humidity_relationship df).
Proof.
  repeat split;
    unfold GoldenLayer.analyze_precipitation_effect,
      GoldenLayer.analyze_wind_effect, GoldenLayer.analyze_hourly_patterns,
      GoldenLayer.analyze_temperature_humidity_relationship;
    log_only_tac.
Qed.

Lemma bind_cases {A B} (m : M A) (f : A -> M B) (w w' : world)
    (r : result B) :
  (m ≫= f) w = (r, w') ->
  (exists e, m w = (Raise e, w') /\ r = Raise e)
  \/ (exists a w1, m w = (Ok a, w1) /\ f a w1 = (r, w')).
Proof.
  unfold mbind, M_bind. destruct (m w) as [[a|e] w1]; intros H.
  - right. eauto.
  - left. inversion H; subst. eauto.
Qed.

(** X13: the golden stage writes its tables or nothing.  All four
    analyses run before the output directory is made and the first table
    is written, so a run that raises, in whichever analysis, has changed
    no file and no directory. *)
Theorem golden_failure_writes_nothing
    (base_input_path base_output_path : list string)
    (execution_time : pyobj) (e : exn) (w w' : world) :
  GoldenLayer.calculate_analytics base_input_path base_output_path
    execution_time w = (Raise e, w') ->
  files w' = files w /\ dirs w' = dirs w.
Proof.
  unfold GoldenLayer.calculate_analytics. intros H.
  apply bind_cases in H as [(e0 & Hm & _)|(run_path & w0 & Hm & H)].
  { unfold lift in Hm. by inversion Hm. }
  apply lift_inv in Hm as [Hpath ->].
  apply bind_cases in H as [(e0 & Hm & _)|(data & w0 & Hm & H)].
  { unfold read_parquet in Hm. by inversion Hm. }
  unfold read_parquet in Hm. inversion Hm; subst w0; clear Hm.
  destruct (analyses_log_only data) as (L1 & L2 & L3 & L4).
  apply bind_cases in H as [(e0 & Hm & _)|(t1 & w1 & Hm1 & H)].
  { specialize (L1 w). by rewrite Hm in L1. }
  specialize (L1 w). rewrite Hm1 in L1. destruct L1 as [F1 D1]. simpl in F1, D1.
  apply bind_cases in H as [(e0 & Hm & _)|(t2 & w2 & Hm2 & H)].
  { specialize (L2 w1). rewrite Hm in L2. simpl in L2.
    destruct L2 as [-> ->]. done. }
  specialize (L2 w1). rewrite Hm2 in L2. destruct L2 as [F2 D2].
  simpl in F2, D2.
  apply bind_cases in H as [(e0 & Hm & _)|(t3 & w3 & Hm3 & H)].
  { specialize (L3 w2). rewrite Hm in L3. simpl in L3.
    destruct L3 as [-> ->]. by rewrite F2, D2. }
  specialize (L3 w2). rewrite Hm3 in L3. destruct L3 as [F3 D3].
  simpl in F3, D3.
  apply bind_cases in H as [(e0 & Hm & _)|(t4 & w4 & Hm4 & H)].
  { specialize (L4 w3). rewrite Hm in L4. simpl in L4.
    destruct L4 as [-> ->]. by rewrite F3, D3, F2, D2. }
  exfalso.
  destruct execution_time as [s|d]; [|discriminate].
  unfold GoldenLayer._get_output_path in H. cbn [path_div] in H.
  erewrite bind_ok in H; cycle 1.
  { erewrite bind_ok by reflexivity. erewrite bind_ok by reflexivity.
    reflexivity. }
  unfold write_csv in H.
  erewrite bind_ok in H; cycle 1.
  { apply write_file_ok. rewrite parent_path_div_str.
    apply (mkdir_parents_has (base_output_path ++ [s])). }
  erewrite bind_ok in H; cycle 1.
  { apply write_file_ok. rewrite parent_path_div_str.
    apply (mkdir_parents_has (base_output_path ++ [s])). }
  erewrite bind_ok in H; cycle 1.
  { apply write_file_ok. rewrite parent_path_div_str.
    apply (mkdir_parents_has (base_output_path ++ [s])). }
  rewrite write_file_ok in H; [discriminate|].
  rewrite parent_path_div_str.
  apply (mkdir_parents_has (base_output_path ++ [s])).
Qed.

Lemma golden_failure_writes_nothing_witness :
  files (snd (GoldenLayer.calculate_analytics ["sv"] ["gd"]
                (PyStr "2024-01-01") (golden_world tied_hours)))
    = files (golden_world tied_hours)
  /\ dirs (snd (GoldenLayer.calculate_analytics ["sv"] ["gd"]
                  (PyStr "2024-01-01") (golden_world tied_hours)))
     = dirs (golden_world tied_hours).
Proof.
  apply (golden_failure_writes_nothing ["sv"] ["gd"] (PyStr "2024-01-01")
           ValueError (golden_world tied_hours)).
  vm_compute. reflexivity.
Defined.

(** ** Every grouped table *)

(** A grouped and sorted table is the aggregation over the distinct keys
    of the grouped column, in some order. *)
Lemma grouped_sorted_inv (df t : list (string * list (option value)))
    (key by_ : string) (means : list (string * string)) :
  (group_by_agg df key means ≫= fun g => sort g by_) = Ok t ->
  exists ks named cats,
    get_column df key = Ok ks
    /\ map fst named = map snd means
    /\ t = agg_table key ks named cats
    /\ Permutation cats (distinct ks).
Proof.
  unfold mbind at 1, result_bind.
  destruct (group_by_agg df key means) as [g|] eqn:Hg; [|done].
  intros Hs.
  apply group_by_agg_inv in Hg as (ks & named & Hks & Hnamed & ->).
  apply sort_agg_table in Hs as (s & _ & Hlen & ->).
  exists ks, named, (gather (sort_index s) (distinct ks)).
  split; [done|]. split; [by apply (mapR_named_fst df)|]. split; [done|].
  apply gather_perm. rewrite <- Hlen. apply sort_index_perm.
Qed.

Lemma agg_table_key_column (key : string) (ks : list (option value))
    (named : list (string * list (option Q))) (cats : list (option value)) :
  get_column (agg_table key ks named cats) key = Ok cats.
Proof. unfold agg_table. cbn [get_column]. by rewrite String.eqb_refl. Qed.

Lemma agg_table_count_column (key : string) (ks : list (option value))
    (named : list (string * list (option Q))) (cats : list (option value)) :
  key <> "count" -> ~ In "count" (map fst named) ->
  get_column (agg_table key ks named cats) "count"
  = Ok (map (fun k => count_cell (group_len ks k)) cats).
Proof.
  intros Hk Hn. unfold agg_table. cbn [get_column].
  apply String.eqb_neq in Hk. rewrite Hk.
  induction named as [|[n xs] named IH]; cbn [map app get_column fst snd].
  - reflexivity.
  - destruct (String.eqb_spec n "count") as [->|Hne].
    + exfalso. apply Hn. by left.
    + apply IH. intros Hin. apply Hn. by right.
Qed.

Lemma mapR_length {A B} (f : A -> result B) (l : list A) (l' : list B) :
  mapR f l = Ok l' -> length l' = length l.
Proof.
  revert l'. induction l as [|a l IH]; intros l'; simpl.
  - intros H. by inversion H.
  - destruct (f a); [|done]. destruct (mapR f l) as [bs|]; [|done].
    intros H. inversion H; subst. simpl. by rewrite (IH bs).
Qed.

Lemma numeric_length (df : list (string * list (option value)))
    (col : string) (xs : list (option Q)) :
  same_height df = true -> numeric df col = Ok xs -> length xs = height df.
Proof.
  intros Hrect. unfold numeric. unfold mbind, result_bind.
  destruct (get_column df col) as [s|] eqn:Hs; [|done].
  intros H. apply mapR_length in H. rewrite H.
  by apply (rect_column_length df col).
Qed.

(** ** Counting rows by group *)

Lemma value_eqb_sym (a b : value) : value_eqb a b = value_eqb b a.
Proof.
  destruct a, b; simpl; try done.
  - apply eq_true_iff_eq. rewrite !Qeq_bool_iff. split; intros H; by symmetry.
  - apply String.eqb_sym.
  - by destruct b, b0.
  - apply Z.eqb_sym.
Qed.

Lemma cell_eqb_sym (a b : option value) : cell_eqb a b = cell_eqb b a.
Proof. destruct a, b; simpl; try done. apply value_eqb_sym. Qed.

Lemma value_eqb_trans (a b c : value) :
  value_eqb a b = true -> value_eqb b c = true -> value_eqb a c = true.
Proof.
  destruct a, b, c; simpl; try done.
  - rewrite !Qeq_bool_iff. intros H1 H2. by rewrite H1.
  - rewrite !String.eqb_eq. congruence.
  - destruct b, b0, b1; done.
  - rewrite !Z.eqb_eq. congruence.
Qed.

Lemma cell_eqb_trans (a b c : option value) :
  cell_eqb a b = true -> cell_eqb b c = true -> cell_eqb a c = true.
Proof. destruct a, b, c; simpl; try done. apply value_eqb_trans. Qed.

(** Two equal cells agree on being equal to a third. *)
Lemma cell_eqb_compat (x a b : option value) :
  cell_eqb a b = true -> cell_eqb x a = cell_eqb x b.
Proof.
  intros Hab. destruct (cell_eqb x a) eqn:Ha, (cell_eqb x b) eqn:Hb; try done.
  - by rewrite (cell_eqb_trans x a b Ha Hab) in Hb.
  - rewrite cell_eqb_sym in Hab.
    by rewrite (cell_eqb_trans x b a Hb Hab) in Ha.
Qed.

Lemma filter_filter_same {A} (p q : A -> bool) (l : list A) :
  (forall a, In a l -> p a = true -> q a = true) ->
  List.filter p (List.filter q l) = List.filter p l.
Proof.
  intros H. induction l as [|a l IH]; simpl; [done|].
  destruct (q a) eqn:Hq; simpl.
  - destruct (p a); rewrite IH; try done; intros; apply H; auto; by right.
  - destruct (p a) eqn:Hp.
    + rewrite (H a) in Hq; [done | by left | done].
    + apply IH. intros; apply H; auto. by right.
Qed.

Lemma filter_comm {A} (p q : A -> bool) (l : list A) :
  List.filter p (List.filter q l) = List.filter q (List.filter p l).
Proof.
  induction l as [|a l IH]; simpl; [done|].
  destruct (p a) eqn:Hp, (q a) eqn:Hq; simpl; rewrite ?Hp, ?Hq, IH; done.
Qed.

(** Grouping commutes with dropping a whole group. *)
Lemma distinct_filter (x : option value) (l : list (option value)) :
  distinct (List.filter (fun k => negb (cell_eqb x k)) l)
  = List.filter (fun k => negb (cell_eqb x k)) (distinct l).
Proof.
  induction l as [|y l IH]; simpl; [done|].
  destruct (cell_eqb x y) eqn:Hxy; simpl.
  - rewrite IH. symmetry. apply filter_filter_same.
    intros a _ Ha. apply negb_true_iff in Ha. apply negb_true_iff.
    rewrite (cell_eqb_sym y a), <- (cell_eqb_compat a x y Hxy).
    by rewrite cell_eqb_sym.
  - f_equal. rewrite IH. apply filter_comm.
Qed.

Lemma filter_length_split {A} (p : A -> bool) (l : list A) :
  length l = (length (List.filter p l)
              + length (List.filter (fun a => negb (p a)) l))%nat.
Proof.
  induction l as [|a l IH]; simpl; [done|].
  destruct (p a); simpl; lia.
Qed.

Lemma group_len_rest (x k : option value) (l : list (option value)) :
  cell_eqb x k = false ->
  group_len (x :: l) k
  = group_len (List.filter (fun y => negb (cell_eqb x y)) l) k.
Proof.
  intros Hxk. unfold group_len. cbn [List.filter].
  rewrite (cell_eqb_sym k x), Hxk.
  f_equal. symmetry. apply filter_filter_same.
  intros a _ Ha. apply negb_true_iff.
  rewrite (cell_eqb_sym k a) in Ha.
  by rewrite (cell_eqb_compat x a k Ha).
Qed.

(** The sizes of the groups of a column add up to its length. *)
Lemma group_len_sum (n : nat) :
  forall l : list (option value),
    (length l <= n)%nat ->
    list_sum (map (group_len l) (distinct l)) = length l.
Proof.
  induction n as [|n IH]; intros l Hn.
  - destruct l; [done | simpl in Hn; lia].
  - destruct l as [|x l]; [done|].
    cbn [distinct map].
    set (rest := List.filter (fun y => negb (cell_eqb x y)) l).
    assert (Hd : List.filter (fun k => negb (cell_eqb x k)) (distinct l)
                 = distinct rest) by (symmetry; apply distinct_filter).
    rewrite Hd.
    assert (Hmap : map (group_len (x :: l)) (distinct rest)
                   = map (group_len rest) (distinct rest)).
    { apply map_ext_in. intros k Hk. apply group_len_rest.
      apply distinct_In in Hk. unfold rest in Hk.
      apply filter_In in Hk as [_ Hk]. by apply negb_true_iff in Hk. }
    rewrite Hmap.
    match goal with
    | |- list_sum (?a :: ?t) = _ =>
        change (list_sum (a :: t)) with (a + list_sum t)%nat
    end.
    rewrite IH.
    + unfold group_len at 1. cbn [List.filter]. rewrite cell_eqb_refl.
      pose proof (filter_length_split (cell_eqb x) l) as Hsplit.
      cbn [length]. unfold rest. lia.
    + pose proof (filter_length_split (cell_eqb x) l) as Hsplit.
      simpl in Hn. unfold rest. lia.
Qed.

Lemma list_sum_perm (l l' : list nat) :
  Permutation l l' -> list_sum l = list_sum l'.
Proof. induction 1; simpl; lia. Qed.

Lemma grouped_counts (df t : list (string * list (option value)))
    (key by_ : string) (means : list (string * string))
    (ks : list (option value)) :
  get_column df key = Ok ks ->
  key <> "count" -> ~ In "count" (map snd means) ->
  (group_by_agg df key means ≫= fun g => sort g by_) = Ok t ->
  exists counts,
    get_column t "count" = Ok (map count_cell counts)
    /\ list_sum counts = length ks.
Proof.
  intros Hks Hkey Hmeans Ht.
  apply grouped_sorted_inv in Ht as (ks' & named & cats & Hks' & Hn & -> & Hp).
  rewrite Hks in Hks'. inversion Hks'; subst ks'.
  exists (map (group_len ks) cats). split.
  - rewrite agg_table_count_column; [by rewrite map_map | done |].
    by rewrite Hn.
  - rewrite (list_sum_perm _ _ (Permutation_map (group_len ks) Hp)).
    by apply (group_len_sum (length ks)).
Qed.

(** X14: in each of the four tables of the golden stage the counts add
    up to the number of rows of the batch: every row of the batch is
    counted in exactly one row of each table. *)
Theorem golden_counts_add_up
    (analysis : list (string * list (option value))
                -> result (list (string * list (option value))))
    (df t : list (string * list (option value))) :
  In analysis golden_analyses ->
  same_height df = true ->
  analysis df = Ok t ->
  exists counts,
    get_column t "count" = Ok (map count_cell counts)
    /\ list_sum counts = height df.
Proof.
  intros Hin Hrect Ht.
  assert (Hmeans : forall means,
            In means [GoldenLayer.precip_means; GoldenLayer.wind_means;
                      GoldenLayer.hourly_means; GoldenLayer.temp_means] ->
            ~ In "count" (map snd means)).
  { intros means Hm. simpl in Hm.
    destruct Hm as [<-|[<-|[<-|[<-|[]]]]]; simpl; intuition discriminate. }
  destruct Hin as [<-|[<-|[<-|[<-|[]]]]].
  - unfold GoldenLayer.precip_analysis in Ht.
    unfold mbind at 1, result_bind in Ht.
    destruct (numeric df "precipitation") as [ps|] eqn:Hps; [|done].
    cbv zeta in Ht.
    apply (grouped_counts _ _ _ _ _ _ (get_set_column_eq _ _ _)) in Ht
      as (counts & Hc & Hsum);
      [|discriminate|apply Hmeans; simpl; auto 6].
    exists counts. split; [done|].
    by rewrite Hsum, length_map, (numeric_length df "precipitation").
  - unfold GoldenLayer.wind_analysis in Ht.
    unfold mbind at 1, result_bind in Ht.
    destruct (numeric df "wind_speed_10m") as [ws|] eqn:Hws; [|done].
    cbv zeta in Ht.
    apply (grouped_counts _ _ _ _ _ _ (get_set_column_eq _ _ _)) in Ht
      as (counts & Hc & Hsum);
      [|discriminate|apply Hmeans; simpl; auto 6].
    exists counts. split; [done|].
    by rewrite Hsum, length_map, (numeric_length df "wind_speed_10m").
  - unfold GoldenLayer.hourly_stats in Ht.
    unfold mbind at 1, result_bind in Ht.
    destruct (get_column df "time") as [ts|] eqn:Hts; [|done].
    unfold mbind at 1, result_bind in Ht.
    destruct (mapR GoldenLayer.hour_cell ts) as [hours|] eqn:Hh; [|done].
    cbv zeta in Ht.
    apply (grouped_counts _ _ _ _ _ _ (get_set_column_eq _ _ _)) in Ht
      as (counts & Hc & Hsum);
      [|discriminate|apply Hmeans; simpl; auto 6].
    exists counts. split; [done|].
    rewrite Hsum, (mapR_length _ _ _ Hh).
    by apply (rect_column_length df "time").
  - unfold GoldenLayer.temp_analysis in Ht.
    unfold mbind at 1, result_bind in Ht.
    destruct (numeric df "temperature_2m") as [ts|] eqn:Hts; [|done].
    cbv zeta in Ht.
    apply (grouped_counts _ _ _ _ _ _ (get_set_column_eq _ _ _)) in Ht
      as (counts & Hc & Hsum);
      [|discriminate|apply Hmeans; simpl; auto 6].
    exists counts. split; [done|].
    by rewrite Hsum, length_map, (numeric_length df "temperature_2m").
Qed.

Lemma golden_counts_add_up_witness :
  exists counts,
    get_column (table_of (GoldenLayer.wind_analysis four_winds, quiet_world))
               "count"
    = Ok (map count_cell counts)
    /\ list_sum counts = 4%nat.
Proof.
  apply (golden_counts_add_up GoldenLayer.wind_analysis four_winds).
  - right. by left.
  - reflexivity.
  - reflexivity.
Defined.

(** ** The hourly table *)

Lemma distinct_covers (x : option value) (l : list (option value)) :
  In x l -> exists y, In y (distinct l) /\ cell_eqb y x = true.
Proof.
  induction l as [|k l IH]; simpl; [done|].
  intros [->|Hin].
  - exists x. split; [by left | apply cell_eqb_refl].
  - destruct (IH Hin) as (y & Hy & Hyx).
    destruct (cell_eqb k y) eqn:Hky.
    + exists k. split; [by left|]. by apply (cell_eqb_trans k y x).
    + exists y. split; [|done]. right. apply filter_In.
      split; [done | by rewrite Hky].
Qed.

Lemma hour_cells (ts hs : list (option value)) :
  mapR GoldenLayer.hour_cell ts = Ok hs -> List.Forall is_hour hs.
Proof.
  revert hs. induction ts as [|c ts IH]; intros hs; simpl.
  - intros H. inversion H. constructor.
  - destruct (GoldenLayer.hour_cell c) as [h|] eqn:Hc; [|done].
    destruct (mapR GoldenLayer.hour_cell ts) as [hs'|]; [|done].
    intros H. inversion H; subst. constructor; [|by apply IH].
    destruct c as [[| | |t]|]; simpl in Hc; inversion Hc; subst.
    + right. eexists. split; [|reflexivity].
      apply Z.mod_pos_bound. lia.
    + by left.
Qed.

Lemma is_hour_eqb (a b : option value) :
  is_hour a -> is_hour b -> cell_eqb a b = true -> a = b.
Proof.
  intros [->|(x & _ & ->)] [->|(y & _ & ->)]; simpl; try done.
  intros H. apply Qeq_bool_iff in H. unfold Qeq in H. simpl in H.
  assert (x = y) by lia. by subst.
Qed.

Lemma is_hour_mean (h : option value) : is_hour h -> is_mean h.
Proof. by intros [->|(z & _ & ->)]. Qed.

(** X15: the hourly table has one row for every hour of the day that
    occurs among the rows of the batch (and one for the rows without a
    time, if any) and no other; its hours lie between 0 and 23 and are in
    ascending order, a null hour first. *)
Theorem hourly_table_hours (df t : list (string * list (option value))) :
  GoldenLayer.hourly_stats df = Ok t ->
  exists ts input_hours hours,
    get_column df "time" = Ok ts
    /\ mapR GoldenLayer.hour_cell ts = Ok input_hours
    /\ get_column t "hour" = Ok hours
    /\ List.NoDup hours
    /\ (forall h, In h hours <-> In h input_hours)
    /\ List.Forall is_hour hours
    /\ Sorted (fun a b => cell_leb a b = true) hours.
Proof.
  unfold GoldenLayer.hourly_stats. unfold mbind at 1, result_bind.
  destruct (get_column df "time") as [ts|] eqn:Hts; [|done].
  unfold mbind at 1, result_bind.
  destruct (mapR GoldenLayer.hour_cell ts) as [hs|] eqn:Hhs; [|done].
  cbv zeta. unfold mbind at 1, result_bind.
  destruct (group_by_agg _ _ _) as [g|] eqn:Hg; [|done].
  intros Hsort.
  apply group_by_agg_inv in Hg as (ks & named & Hks & _ & ->).
  rewrite get_set_column_eq in Hks. inversion Hks; subst ks; clear Hks.
  apply sort_agg_table in Hsort as (s & Hs & _ & ->).
  rewrite agg_table_key_column in Hs. inversion Hs; subst s; clear Hs.
  pose proof (hour_cells ts hs Hhs) as Hall.
  assert (Hd : List.Forall is_hour (distinct hs)).
  { apply List.Forall_forall. intros h Hh. apply distinct_In in Hh.
    rewrite List.Forall_forall in Hall. by apply Hall. }
  set (hours := gather (sort_index (distinct hs)) (distinct hs)).
  assert (Hperm : Permutation hours (distinct hs)).
  { apply gather_perm, sort_index_perm. }
  exists ts, hs, hours.
  split; [done|]. split; [done|].
  split; [apply agg_table_key_column|].
  split; [apply (Permutation_NoDup (Permutation_sym Hperm)), distinct_NoDup|].
  split.
  { intros h. split.
    - intros Hh. apply (Permutation_in _ Hperm) in Hh. by apply distinct_In.
    - intros Hh. apply (Permutation_in _ (Permutation_sym Hperm)).
      destruct (distinct_covers h hs Hh) as (y & Hy & Hyh).
      rewrite List.Forall_forall in Hall, Hd.
      by rewrite <- (is_hour_eqb y h (Hd y Hy) (Hall h Hh) Hyh). }
  split.
  { apply List.Forall_forall. intros h Hh.
    apply (Permutation_in _ Hperm) in Hh.
    rewrite List.Forall_forall in Hd. by apply Hd. }
  apply gather_sorted. eapply List.Forall_impl; [|exact Hd].
  apply is_hour_mean.
Qed.

Lemma hourly_table_hours_witness :
  exists ts input_hours hours,
    get_column two_hours "time" = Ok ts
    /\ mapR GoldenLayer.hour_cell ts = Ok input_hours
    /\ get_column (table_of (GoldenLayer.hourly_stats two_hours, quiet_world))
                  "hour" = Ok hours
    /\ List.NoDup hours
    /\ (forall h, In h hours <-> In h input_hours)
    /\ List.Forall is_hour hours
    /\ Sorted (fun a b => cell_leb a b = true) hours.
Proof.
  apply (hourly_table_hours two_hours). reflexivity.
Defined.

(** ** The temperature table *)

Lemma temp_category_band (x : option Q) :
  In (GoldenLayer.temp_category x) temp_bands
  /\ exists s, GoldenLayer.temp_category x = Some (VStr s).
Proof.
  unfold GoldenLayer.temp_category, temp_bands.
  destruct (lt_lit x 0); [split; [by left | eauto]|].
  destruct (lt_lit x 10); [split; [right; by left | eauto]|].
  destruct (lt_lit x 20); [split; [right; right; by left | eauto]|].
  destruct (lt_lit x 30); [split; [right; right; right; by left | eauto]|].
  split; [right; right; right; right; by left | eauto].
Qed.

(** X16: the temperature table has one row per temperature band that
    occurs among the rows of the batch and none for the others; a row
    holds the band, the means of pm2_5, ozone and temperature over the
    rows of the band, and the number of those rows; the rows are in
    ascending order of the mean temperature. *)
Theorem temp_effect_table
    (df table : list (string * list (option value))) (w w' : world) :
  GoldenLayer.analyze_temperature_humidity_relationship df w = (Ok table, w') ->
  exists ts pm2_5 ozone cats,
    numeric df "temperature_2m" = Ok ts
    /\ numeric df "pm2_5" = Ok pm2_5
    /\ numeric df "ozone" = Ok ozone
    /\ table
       = agg_table "temp_category" (map GoldenLayer.temp_category ts)
           (temp_named pm2_5 ozone ts) cats
    /\ List.NoDup cats
    /\ (forall c, In c cats <-> In c (map GoldenLayer.temp_category ts))
    /\ incl cats temp_bands
    /\ height table = length cats
    /\ Sorted (fun a b => cell_leb a b = true)
         (map (fun k =>
                 num_to_cell
                   (mean (select_group (map GoldenLayer.temp_category ts) k ts)))
              cats).
Proof.
  intros Hrun. apply analyze_temperature_inv in Hrun as [Hrun _].
  unfold GoldenLayer.temp_analysis in Hrun.
  unfold mbind at 1, result_bind in Hrun.
  destruct (numeric df "temperature_2m") as [ts|] eqn:Hts; [|done].
  cbv zeta in Hrun. unfold mbind at 1, result_bind in Hrun.
  destruct (group_by_agg _ _ _) as [g|] eqn:Hg; [|done].
  apply group_by_agg_inv in Hg as (ks & named & Hks & Hnamed & ->).
  rewrite get_set_column_eq in Hks. inversion Hks; subst ks; clear Hks.
  unfold GoldenLayer.temp_means in Hnamed. cbn [mapR fst snd] in Hnamed.
  rewrite !numeric_set_column_ne in Hnamed by discriminate.
  destruct (numeric df "pm2_5") as [pm2_5|]; [|done].
  destruct (numeric df "ozone") as [ozone|]; [|done].
  rewrite Hts in Hnamed. inversion Hnamed; subst named; clear Hnamed.
  apply sort_agg_table in Hrun as (s & Hs & _ & ->).
  cbn in Hs. inversion Hs; subst s; clear Hs.
  set (bands := map GoldenLayer.temp_category ts).
  set (avg := map (fun k => num_to_cell (mean (select_group bands k ts)))
                  (distinct bands)).
  set (cats := gather (sort_index avg) (distinct bands)).
  assert (Hperm : Permutation cats (distinct bands)).
  { apply gather_perm. unfold avg.
    rewrite <- (length_map
                  (fun k => num_to_cell (mean (select_group bands k ts)))).
    apply sort_index_perm. }
  assert (Hin : forall c, In c cats <-> In c bands).
  { intros c. split.
    - intros Hc. apply (Permutation_in _ Hperm) in Hc. by apply distinct_In.
    - intros Hc. apply (Permutation_in _ (Permutation_sym Hperm)).
      pose proof Hc as Hc'. unfold bands in Hc'.
      apply in_map_iff in Hc' as (x & <- & _).
      destruct (temp_category_band x) as [_ [s Hs]].
      rewrite Hs in *. by apply distinct_covers_str. }
  assert (Hsorted :
    Sorted (fun a b => cell_leb a b = true)
           (map (fun k => num_to_cell (mean (select_group bands k ts))) cats)).
  { assert (Hrange : forall i, In i (sort_index avg)
                               -> (i < length (distinct bands))%nat).
    { intros i Hi. apply sort_index_range in Hi. unfold avg in Hi.
      by rewrite length_map in Hi. }
    replace (map (fun k => num_to_cell (mean (select_group bands k ts))) cats)
      with (gather (sort_index avg) avg)
      by (unfold avg; apply (gather_map_range _ _ _ None Hrange)).
    apply gather_sorted.
    apply List.Forall_forall. intros c Hc. unfold avg in Hc.
    apply in_map_iff in Hc as (k & <- & _).
    by destruct (mean _). }
  exists ts, pm2_5, ozone, cats.
  split; [done|]. split; [done|]. split; [done|].
  split; [reflexivity|].
  split.
  { apply (Permutation_NoDup (Permutation_sym Hperm)), distinct_NoDup. }
  split; [exact Hin|].
  split.
  { intros c Hc. apply Hin in Hc. unfold bands in Hc.
    apply in_map_iff in Hc as (x & <- & _). apply temp_category_band. }
  split; [reflexivity | exact Hsorted].
Qed.

Lemma temp_effect_table_witness :
  exists ts pm2_5 ozone cats,
    numeric two_hours "temperature_2m" = Ok ts
    /\ numeric two_hours "pm2_5" = Ok pm2_5
    /\ numeric two_hours "ozone" = Ok ozone
    /\ table_of (GoldenLayer.analyze_temperature_humidity_relationship
                   two_hours quiet_world)
       = agg_table "temp_category" (map GoldenLayer.temp_category ts)
           (temp_named pm2_5 ozone ts) cats
    /\ List.NoDup cats
    /\ (forall c, In c cats <-> In c (map GoldenLayer.temp_category ts))
    /\ incl cats temp_bands
    /\ height (table_of (GoldenLayer.analyze_temperature_humidity_relationship
                           two_hours quiet_world))
       = length cats
    /\ Sorted (fun a b => cell_leb a b = true)
         (map (fun k =>
                 num_to_cell
                   (mean (select_group (map GoldenLayer.temp_category ts) k ts)))
              cats).
Proof.
  apply (temp_effect_table two_hours _ quiet_world
           (snd (GoldenLayer.analyze_temperature_humidity_relationship
                   two_hours quiet_world))).
  vm_compute. reflexivity.
Defined.

(** ** The peak and the lowest hour *)

Lemma get_column_filter_rows (df : list (string * list (option value)))
    (mask : list bool) (c : string) :
  get_column (filter_rows df mask) c
  = match get_column df c with
    | Ok s => Ok (map snd (List.filter fst (combine mask s)))
    | Raise e => Raise e
    end.
Proof.
  induction df as [|[n s] df IH]; [done|].
  cbn [filter_rows map get_column fst snd].
  destruct (String.eqb n c); [done | exact IH].
Qed.

Lemma filter_mask_nil {A} (mask : list bool) (s : list A) (j : nat) :
  map snd (List.filter fst (combine mask s)) = [] ->
  mask !! j = Some true -> (j < length s)%nat -> False.
Proof.
  revert s j. induction mask as [|b mask IH]; intros [|a s] j; simpl;
    try done; try lia.
  destruct b; simpl; [done|]. intros Hnil. destruct j as [|j]; simpl.
  - done.
  - intros Hj Hlt. apply (IH s j Hnil Hj). lia.
Qed.

Lemma filter_mask_single {A} (mask : list bool) (s : list A) (h : A) :
  map snd (List.filter fst (combine mask s)) = [h] ->
  exists i,
    mask !! i = Some true
    /\ s !! i = Some h
    /\ forall j, mask !! j = Some true -> (j < length s)%nat -> j = i.
Proof.
  revert s. induction mask as [|b mask IH]; intros [|a s]; simpl; try done.
  destruct b; simpl.
  - intros H. inversion H as [[Ha Hrest]]. exists 0%nat.
    split; [done|]. split; [done|].
    intros [|j]; simpl; [done|]. intros Hj Hlt. exfalso.
    apply (filter_mask_nil mask s j Hrest Hj). lia.
  - intros H. destruct (IH s H) as (i & Hi & Hs & Huniq).
    exists (S i). split; [done|]. split; [done|].
    intros [|j]; simpl; [done|]. intros Hj Hlt. f_equal.
    apply Huniq; [done | lia].
Qed.

Lemma eq_mask_lookup (xs : list (option Q)) (m : option Q) (j : nat) :
  eq_mask xs m !! j = Some true
  <-> exists a b, xs !! j = Some (Some a) /\ m = Some b /\ a == b.
Proof.
  revert j. induction xs as [|x xs IH]; intros j.
  - split; [done | by intros (a & b & H & _)].
  - destruct j as [|j]; [|apply IH]. simpl. split.
    + destruct x as [a|], m as [b|]; try done.
      intros H. inversion H as [Hab]. apply Qeq_bool_iff in Hab. eauto.
    + intros (a & b & Hx & -> & Hab). inversion Hx; subst.
      f_equal. by apply Qeq_bool_iff.
Qed.

Lemma qmax_bound (xs : list (option Q)) (m : Q) (j : nat) (x : Q) :
  qmax xs = Some m -> xs !! j = Some (Some x) -> (x <= m)%Q.
Proof.
  revert j m. induction xs as [|y xs IH]; intros j m; [done|].
  simpl. destruct j as [|j]; simpl.
  - intros Hm Hy. inversion Hy; subst y.
    destruct (qmax xs) as [m'|]; inversion Hm; subst.
    + destruct (Qle_bool m' x) eqn:Hle.
      * apply Qle_refl.
      * apply Qlt_le_weak, Qnot_le_lt. intros Hc.
        apply Qle_bool_iff in Hc. congruence.
    + apply Qle_refl.
  - intros Hm Hx. destruct y as [q|]; [|by apply (IH j)].
    destruct (qmax xs) as [m'|] eqn:Hm'.
    + inversion Hm; subst. pose proof (IH j m' eq_refl Hx) as Hb.
      destruct (Qle_bool m' q) eqn:Hle; [|done].
      apply Qle_bool_iff in Hle. by apply (Qle_trans _ m').
    + exfalso. clear Hm IH. revert j Hx.
      induction xs as [|z xs IHxs]; intros j Hx; [done|].
      simpl in Hm'. destruct j as [|j]; simpl in Hx.
      * inversion Hx; subst. by destruct (qmax xs).
      * destruct z; [by destruct (qmax xs) | by apply (IHxs Hm' j)].
Qed.

Lemma qmin_bound (xs : list (option Q)) (m : Q) (j : nat) (x : Q) :
  qmin xs = Some m -> xs !! j = Some (Some x) -> (m <= x)%Q.
Proof.
  revert j m. induction xs as [|y xs IH]; intros j m; [done|].
  simpl. destruct j as [|j]; simpl.
  - intros Hm Hy. inversion Hy; subst y.
    destruct (qmin xs) as [m'|]; inversion Hm; subst.
    + destruct (Qle_bool x m') eqn:Hle.
      * apply Qle_refl.
      * apply Qlt_le_weak, Qnot_le_lt. intros Hc.
        apply Qle_bool_iff in Hc. congruence.
    + apply Qle_refl.
  - intros Hm Hx. destruct y as [q|]; [|by apply (IH j)].
    destruct (qmin xs) as [m'|] eqn:Hm'.
    + inversion Hm; subst. pose proof (IH j m' eq_refl Hx) as Hb.
      destruct (Qle_bool q m') eqn:Hle; [|done].
      apply Qle_bool_iff in Hle. by apply (Qle_trans _ m').
    + exfalso. clear Hm IH. revert j Hx.
      induction xs as [|z xs IHxs]; intros j Hx; [done|].
      simpl in Hm'. destruct j as [|j]; simpl in Hx.
      * inversion Hx; subst. by destruct (qmin xs).
      * destruct z; [by destruct (qmin xs) | by apply (IHxs Hm' j)].
Qed.

Lemma extreme_hour_inv (stats : list (string * list (option value)))
    (extreme : list (option Q) -> option Q) (h : option value)
    (hours : list (option value)) (avgs : list (option Q)) :
  get_column stats "hour" = Ok hours ->
  numeric stats "avg_pm2_5" = Ok avgs ->
  GoldenLayer.extreme_hour stats extreme = Ok h ->
  exists i a m,
    hours !! i = Some h
    /\ avgs !! i = Some (Some a)
    /\ extreme avgs = Some m
    /\ a == m
    /\ forall j x, avgs !! j = Some (Some x) -> x == m ->
                   (j < length hours)%nat -> j = i.
Proof.
  intros Hh Ha. unfold GoldenLayer.extreme_hour. rewrite Ha.
  unfold mbind, result_bind. rewrite get_column_filter_rows, Hh.
  destruct (map snd _) as [|h' [|]] eqn:Hf; try done.
  intros H. inversion H; subst h'; clear H.
  apply filter_mask_single in Hf as (i & Hi & Hs & Huniq).
  apply eq_mask_lookup in Hi as (a & m & Hai & Hm & Heq).
  exists i, a, m. repeat split; try done.
  intros j x Hj Hx Hlt. apply Huniq; [|done].
  apply eq_mask_lookup. eauto.
Qed.

(** X17: when the hourly analysis returns, the peak hour it reports is
    the hour of the one row of the hourly table with the largest mean
    pm2_5, and the lowest hour that of the one row with the smallest:
    no other row reaches either value. *)
Theorem reported_hours_are_sole_extremes
    (df table : list (string * list (option value))) (w w' : world) :
  GoldenLayer.analyze_hourly_patterns df w = (Ok table, w') ->
  exists es hours avgs i j peak lowest,
    w' = add_logs es w
    /\ In (LogHour "Peak PM2.5 hour" peak) es
    /\ In (LogHour "Lowest PM2.5 hour" lowest) es
    /\ get_column table "hour" = Ok hours
    /\ numeric table "avg_pm2_5" = Ok avgs
    /\ hours !! i = Some peak
    /\ sole_extreme Qle avgs i
    /\ hours !! j = Some lowest
    /\ sole_extreme (fun x m => (m <= x)%Q) avgs j.
Proof.
  intros Hrun.
  apply analyze_hourly_patterns_inv in Hrun
    as (Hstats & es & peak & lowest & -> & Hpeak & Hlow & Hin1 & Hin2).
  unfold GoldenLayer.hourly_stats in Hstats.
  unfold mbind at 1, result_bind in Hstats.
  destruct (get_column df "time") as [ts|]; [|done].
  unfold mbind at 1, result_bind in Hstats.
  destruct (mapR GoldenLayer.hour_cell ts) as [hs|]; [|done].
  cbv zeta in Hstats.
  apply grouped_sorted_inv in Hstats as (ks & named & cats & _ & _ & Ht & _).
  assert (Hhours : get_column table "hour" = Ok cats).
  { rewrite Ht. apply agg_table_key_column. }
  assert (Havgs : exists avgs, numeric table "avg_pm2_5" = Ok avgs
                               /\ length avgs = length cats).
  { unfold GoldenLayer.extreme_hour in Hpeak.
    unfold mbind at 1, result_bind in Hpeak.
    destruct (numeric table "avg_pm2_5") as [avgs|] eqn:Ha; [|done].
    exists avgs. split; [done|].
    unfold numeric in Ha. unfold mbind, result_bind in Ha.
    destruct (get_column table "avg_pm2_5") as [s|] eqn:Hs; [|done].
    apply mapR_length in Ha. rewrite Ha. rewrite Ht in Hs.
    by apply agg_table_column_length in Hs. }
  destruct Havgs as (avgs & Havgs & Hlen).
  destruct (extreme_hour_inv table qmax peak cats avgs Hhours Havgs Hpeak)
    as (i & a & m & Hi & Hai & Hm & Ham & Hu).
  destruct (extreme_hour_inv table qmin lowest cats avgs Hhours Havgs Hlow)
    as (j & b & n & Hj & Hbj & Hn & Hbn & Hv).
  exists es, cats, avgs, i, j, peak, lowest.
  repeat split; try done.
  - exists a. split; [done|]. intros k x Hk. split.
    + rewrite Ham. by apply (qmax_bound avgs m k).
    + intros Hx. apply (Hu k x Hk); [by rewrite Hx|].
      rewrite <- Hlen. by apply lookup_lt_Some in Hk.
  - exists b. split; [done|]. intros k x Hk. split.
    + rewrite Hbn. by apply (qmin_bound avgs n k).
    + intros Hx. apply (Hv k x Hk); [by rewrite Hx|].
      rewrite <- Hlen. by apply lookup_lt_Some in Hk.
Qed.

Lemma reported_hours_are_sole_extremes_witness :
  exists es hours avgs i j peak lowest,
    snd (GoldenLayer.analyze_hourly_patterns two_hours quiet_world)
    = add_logs es quiet_world
    /\ In (LogHour "Peak PM2.5 hour" peak) es
    /\ In (LogHour "Lowest PM2.5 hour" lowest) es
    /\ get_column (table_of (GoldenLayer.analyze_hourly_patterns
                               two_hours quiet_world)) "hour" = Ok hours
    /\ numeric (table_of (GoldenLayer.analyze_hourly_patterns
                            two_hours quiet_world)) "avg_pm2_5" = Ok avgs
    /\ hours !! i = Some peak
    /\ sole_extreme Qle avgs i
    /\ hours !! j = Some lowest
    /\ sole_extreme (fun x m => (m <= x)%Q) avgs j.
Proof.
  apply (reported_hours_are_sole_extremes two_hours _ quiet_world).
  vm_compute. reflexivity.
Defined.

(** ** The improvement with rain *)

(** X18: when the batch has hours with and hours without precipitation,
    the precipitation analysis returns only if the mean pm2_5 of the dry
    hours is a number other than zero and that of the wet hours is a
    number; the figure it then logs is (dry - wet) / dry * 100. *)
Theorem rain_improvement_figure
    (df table : list (string * list (option value)))
    (flags : list (option value)) (w w' : world) :
  GoldenLayer.analyze_precipitation_effect df w = (Ok table, w') ->
  get_column table "has_precipitation" = Ok flags ->
  both_partitions table flags = true ->
  exists es dry wet,
    w' = add_logs es w
    /\ partition_mean table false = Ok (Some (VNum dry))
    /\ partition_mean table true = Ok (Some (VNum wet))
    /\ ~ dry == 0
    /\ In (LogFigure "📊 PM2.5 IMPROVEMENT WITH RAIN"
             ((dry - wet) / dry * (100#1))%Q) es.
Proof.
  unfold GoldenLayer.analyze_precipitation_effect. intros H Hflags Hboth.
  log_step H. log_step H. lift_step H precip Hp. log_step H.
  lift_step H flags' Hf.
  apply bind_inv in H as ([] & w1 & Hif & H).
  apply mret_inv in H as [-> ->].
  rewrite Hflags in Hf. inversion Hf; subst flags'; clear Hf.
  fold (both_partitions precip flags) in Hif. rewrite Hboth in Hif.
  lift_step Hif a Ha. lift_step Hif b Hb.
  lift_step Hif dry Hx. lift_step Hif wet Hy. lift_step Hif ratio Hr.
  log_step Hif. log_step Hif. apply logger_info_inv in Hif. subst w1.
  destruct a as [[dry'| | |]|]; simpl in Hx; inversion Hx; subst dry'.
  destruct b as [[wet'| | |]|]; simpl in Hy; inversion Hy; subst wet'.
  unfold py_div in Hr. destruct (Qeq_bool dry (0#1)) eqn:Hz; [done|].
  inversion Hr; subst ratio.
  eexists [_; _; _; _; _; _], dry, wet.
  split; [reflexivity|].
  unfold partition_mean. rewrite Hflags. cbn [mbind result_bind].
  split; [exact Ha|]. split; [exact Hb|]. split.
  - intros Hc. apply Qeq_bool_iff in Hc. congruence.
  - simpl. auto 10.
Qed.

Lemma rain_improvement_figure_witness :
  exists es dry wet,
    snd (GoldenLayer.analyze_precipitation_effect two_hours quiet_world)
    = add_logs es quiet_world
    /\ partition_mean
         (table_of (GoldenLayer.analyze_precipitation_effect
                      two_hours quiet_world)) false
       = Ok (Some (VNum dry))
    /\ partition_mean
         (table_of (GoldenLayer.analyze_precipitation_effect
                      two_hours quiet_world)) true
       = Ok (Some (VNum wet))
    /\ ~ dry == 0
    /\ In (LogFigure "📊 PM2.5 IMPROVEMENT WITH RAIN"
             ((dry - wet) / dry * (100#1))%Q) es.
Proof.
  apply (rain_improvement_figure two_hours _
           [Some (VBool false); Some (VBool true)] quiet_world).
  - vm_compute. reflexivity.
  - vm_compute. reflexivity.
  - vm_compute. reflexivity.
Defined.
